(** * WorkletTest: face verification gating a Bluetooth gate controller

    A shallow embedding of the decision core of the application:

    - the [VerifyScreen] component (src/unnamed/part_001):
      [calculateEuclideanDistance], [verifyFace], [fetchUsers],
      [captureAndVerify], [handleRetry] and [frameProcessor] with its parsing
      loop and its auto-capture logic;
    - [src/utils/database.ts]: [isValidUser], [saveUser],
      [saveMultipleUsers], [getUsers], [getUser], [deleteUser],
      [logVerification], [getUsersCount];
    - the [useBluetoothESP32] hook (src/unnamed/part_004): its state,
      [connectToESP32], [disconnectFromESP32], [toggleBluetoothConnection],
      [sendCommand], [handleRetryPermissions], the data listener and the
      cleanup.

    JavaScript numbers are IEEE 754 binary64 values: they are modelled by
    Rocq's primitive floats, whose [+ - * / sqrt abs < <=] are the same
    operations.  Millisecond timestamps returned by [Date.now()] are integers
    far below 2^53, where double arithmetic is exact: they are modelled by [Z].

    Asynchronous functions are modelled by computations over the state they
    reach, which return a value or throw (a rejected promise).  What the
    platform answers to a call (the camera, the model, the Bluetooth stack,
    the database) is an input of the computation.

    React state is modelled by records that are read and written in place: a
    setter takes effect at once, and a function sees the current state, as it
    does when it is called from the latest render.  Where the source calls
    the function of an earlier render (the cleanup of the mount effect, the
    worklet of the frame processor and the [captureAndVerify] it dispatches),
    what that render saw is explicit.

    The first part of the file is the embedding, one module per source unit;
    the second part states and proves the properties. *)

From Stdlib Require Import Floats ZArith List String Ascii Bool Lia.
From Stdlib Require Import DecimalString.
Import ListNotations.

Set Warnings "-inexact-float,-register-all".

Local Open Scope list_scope.
Local Open Scope string_scope.

(** ** JavaScript values, exceptions and built-ins *)

Module Js.

(** The result of evaluating an expression or awaiting a promise: a value, or a
    thrown [Error] (a rejected promise) with its [message]. *)
Inductive Outcome (A : Type) : Type :=
| Returned (a : A)
| Thrown (message : string).
Arguments Returned {A} a.
Arguments Thrown {A} message.

Definition isReturned {A} (o : Outcome A) : bool :=
  match o with Returned _ => true | Thrown _ => false end.

(** Computations over a mutable store [S] that may throw. *)
Definition M (S A : Type) : Type := S -> Outcome A * S.

Definition ret {S A} (a : A) : M S A := fun s => (Returned a, s).
Definition throw {S A} (message : string) : M S A := fun s => (Thrown message, s).
Definition bind {S A B} (m : M S A) (k : A -> M S B) : M S B :=
  fun s => match m s with
           | (Returned a, s') => k a s'
           | (Thrown e, s') => (Thrown e, s')
           end.
Definition get {S} : M S S := fun s => (Returned s, s).
Definition modify {S} (f : S -> S) : M S unit := fun s => (Returned tt, f s).
Definition liftOutcome {S A} (o : Outcome A) : M S A := fun s => (o, s).

(** [try { body } catch (error) { handler(error.message) }] *)
Definition try_catch {S A} (body : M S A) (handler : string -> M S A) : M S A :=
  fun s => match body s with
           | (Returned a, s') => (Returned a, s')
           | (Thrown e, s') => handler e s'
           end.

(** [try { body } finally { cleanup }]: the cleanup runs on both exits; an
    exception of the cleanup replaces the body's outcome. *)
Definition try_finally {S A} (body : M S A) (cleanup : M S unit) : M S A :=
  fun s => match body s with
           | (o, s') => match cleanup s' with
                        | (Returned _, s'') => (o, s'')
                        | (Thrown e, s'') => (Thrown e, s'')
                        end
           end.

(** Running a computation of a component store inside a larger store. *)
Definition zoom {S T A} (proj : T -> S) (upd : S -> T -> T) (m : M S A) : M T A :=
  fun t => match m (proj t) with (o, s') => (o, upd s' t) end.

(** Decimal rendering of a length or another natural number, as a template
    literal does. *)
Definition natToString (n : nat) : string := NilEmpty.string_of_uint (Nat.to_uint n).
Definition NToString (n : N) : string := NilEmpty.string_of_uint (N.to_uint n).
Definition ZToString (z : Z) : string := NilZero.string_of_int (Z.to_int z).

(** JavaScript strings are modelled by their UTF-8 encoding.

    [String.prototype.trim] strips the white space and the line terminators
    of ECMAScript from both ends: TAB, LF, VT, FF, CR and SPACE, and, on two
    or three bytes, U+00A0, U+1680, U+2000 to U+200A, U+2028, U+2029, U+202F,
    U+205F, U+3000 and U+FEFF. *)
Definition bytes (codes : list nat) : string :=
  fold_right (fun code s => String (ascii_of_nat code) s) EmptyString codes.

Definition whiteSpace : list string :=
  map bytes
      ([[9]; [10]; [11]; [12]; [13]; [32]; [194; 160]; [225; 154; 128]]
       ++ map (fun last => [226; 128; last]) (seq 128 11)
       ++ [[226; 128; 168]; [226; 128; 169]; [226; 128; 175]; [226; 129; 159];
           [227; 128; 128]; [239; 187; 191]])%list.

(** [s] without its prefix [p], when it starts with [p]. *)
Fixpoint stripPrefix (p s : string) : option string :=
  match p, s with
  | EmptyString, _ => Some s
  | String c p', String d s' => if Ascii.eqb c d then stripPrefix p' s' else None
  | String _ _, EmptyString => None
  end.

Fixpoint stripAny (prefixes : list string) (s : string) : option string :=
  match prefixes with
  | [] => None
  | p :: rest =>
      match stripPrefix p s with
      | Some s' => Some s'
      | None => stripAny rest s
      end
  end.

(** Stripping as long as one of [prefixes] starts the string; every round
    removes at least one byte, so the length of the string is fuel enough. *)
Fixpoint stripAll (fuel : nat) (prefixes : list string) (s : string) : string :=
  match fuel with
  | O => s
  | S fuel' =>
      match stripAny prefixes s with
      | Some s' => stripAll fuel' prefixes s'
      | None => s
      end
  end.

Definition reverse (s : string) : string :=
  string_of_list_ascii (rev (list_ascii_of_string s)).

Definition trimStart (s : string) : string := stripAll (String.length s) whiteSpace s.

Definition trimEnd (s : string) : string :=
  reverse (stripAll (String.length s) (map reverse whiteSpace) (reverse s)).

Definition trim (s : string) : string := trimEnd (trimStart s).

(** [String.prototype.startsWith] *)
Definition startsWith (s searchString : string) : bool := String.prefix searchString s.

(** [Math.pow(x, 2)].  The language leaves [Math.pow] implementation-defined
    in its last bits; the fdlibm-derived [pow] of the JavaScript engines
    returns [x * x] when the exponent is 2, which is what is modelled. *)
Definition Math_pow2 (x : float) : float := (x * x)%float.

(** [Array.prototype.reduce] with the index passed to the callback. *)
Fixpoint reduce_from {A B} (f : B -> A -> nat -> B) (l : list A) (i : nat) (acc : B) : B :=
  match l with
  | [] => acc
  | val :: rest => reduce_from f rest (S i) (f acc val i)
  end.
Definition reduce {A B} (f : B -> A -> nat -> B) (l : list A) (init : B) : B :=
  reduce_from f l 0 init.

(** [arr[i]] on an array of numbers, used as an operand: out of range it is
    [undefined], which arithmetic converts to NaN. *)
Definition at_index (arr : list float) (i : nat) : float := nth i arr nan.

(** [Number.prototype.toFixed(2)].

    For a finite [x] below 10^21 in magnitude the digits are those of the
    integer [n] for which [n / 100 - x] is closest to zero, the larger [n] on
    a tie, computed on the exact value [m * 2^e] of the double. *)
Definition roundHalfUp100 (m : positive) (e : Z) : N :=
  match e with
  | Zneg p => Z.to_N ((200 * Zpos m + 2 ^ Zpos p) / 2 ^ (Zpos p + 1))
  | _ => Z.to_N (100 * Zpos m * 2 ^ e)
  end.

Fixpoint zeros (k : nat) : string :=
  match k with O => EmptyString | S k' => String "0" (zeros k') end.

Definition fixed2 (n : N) : string :=
  let m := NToString n in
  let m := if (String.length m <=? 2)%nat then zeros (3 - String.length m) ++ m else m in
  let k := String.length m in
  substring 0 (k - 2) m ++ "." ++ substring (k - 2) 2 m.

Section ToFixed.
(** [Number::toString] of a double of magnitude at least 10^21 (exponent
    notation with the shortest digits that round-trip): the one case of
    [toFixed] that does not print a fixed-point decimal. *)
Variable Number_toString : float -> string.

Definition toFixed2 (x : float) : string :=
  match Prim2SF x with
  | S754_nan => "NaN"
  | S754_infinity false => "Infinity"
  | S754_infinity true => "-Infinity"
  | S754_zero _ => "0.00"
  | S754_finite s m e =>
      (if s then "-" else EmptyString) ++
      (if (1e21 <=? abs x)%float then Number_toString (abs x)
       else fixed2 (roundHalfUp100 m e))
  end.
End ToFixed.

End Js.

Export Js.

Notation "x <- m ;; k" := (bind m (fun x => k))
  (at level 61, m at next level, right associativity).
Notation "m ;;; k" := (bind m (fun _ => k))
  (at level 61, right associativity).

(** ** utils/database.ts: the user-record provider and the verification log *)

Module Database.

(** A JavaScript value, as far as [isValidUser] inspects its [embedding: any]
    argument.  [JArrayLike] is a non-Array object with a [length] and indexed
    items (a [Float32Array], say); [JObject] is any other object. *)
Inductive JsVal : Type :=
| JUndefined
| JNull
| JBoolean (b : bool)
| JNumber (n : float)
| JString (s : string)
| JArray (items : list JsVal)
| JArrayLike (items : list JsVal)
| JObject.

(** [interface User { userId: string; embedding: number[] }] *)
Record User : Type := { userId : string; embedding : list float }.

(** [typeof num === 'number' && isFinite(num)] *)
Definition isFiniteNumber (num : JsVal) : bool :=
  match num with
  | JNumber n => is_finite n
  | _ => false
  end.

(** [isValidUser(userId: string, embedding: any)]; the [console.error] calls
    are left out. *)
Definition isValidUser (userId : string) (embedding : JsVal) : bool :=
  if (userId =? EmptyString) || (trim userId =? EmptyString) then false
  else
    match
      match embedding with
      | JArray items => Some items
      | JArrayLike items => if (0 <? List.length items)%nat then Some items else None
      | _ => None
      end
    with
    | None => false
    | Some embeddingArray =>
        if (List.length embeddingArray =? 0)%nat
           || negb (forallb isFiniteNumber embeddingArray)
        then false
        else true
    end.

(** The [embedding TEXT] column of a [Users] row, seen through [JSON.parse]:
    the text of a JSON array of numbers, or text on which [JSON.parse] throws.
    (JSON of another shape would not inhabit the [number[]] type the source
    gives to [User.embedding]; every text stored by [saveUser] is the
    [JSON.stringify] of an array of numbers.) *)
Inductive EmbeddingText : Type :=
| JsonNumbers (numbers : list float)
| Malformed.

Definition JSON_parse (text : EmbeddingText) : Outcome (list float) :=
  match text with
  | JsonNumbers numbers => Returned numbers
  | Malformed => Thrown "Unexpected token"
  end.

Record UsersRow : Type := { row_userId : string; row_embedding : EmbeddingText }.

(** The SQLite database: its two tables, and whether its next transaction
    fails (the [reject(error)] paths of every accessor). *)
Record Db : Type := {
  Users : list UsersRow;
  VerificationLogs : list string;
  failing : bool
}.

(** The loop of [getUsers] over [rows]: a row whose embedding does not parse
    is logged and skipped, every other row is pushed. *)
Fixpoint usersOfRows (rows : list UsersRow) : list User :=
  match rows with
  | [] => []
  | row :: rest =>
      match JSON_parse (row_embedding row) with
      | Returned parsed =>
          {| userId := row_userId row; embedding := parsed |} :: usersOfRows rest
      | Thrown _ => usersOfRows rest
      end
  end.

(** [getUsers()]: [SELECT userId, embedding FROM Users]. *)
Definition getUsers : M Db (list User) :=
  fun db =>
    if failing db then (Thrown "SQL error", db)
    else (Returned (usersOfRows (Users db)), db).

(** [logVerification(userId)]: [INSERT INTO VerificationLogs (userId)]. *)
Definition logVerification (userId : string) : M Db unit :=
  fun db =>
    if failing db then (Thrown "SQL error", db)
    else (Returned tt,
          {| Users := Users db;
             VerificationLogs := (VerificationLogs db ++ [userId])%list;
             failing := failing db |}).

End Database.

Export Database.

(** ** VerifyScreen.tsx: the matcher *)

Module Matcher.

(** [interface VerificationResult]; an absent optional field is [None]. *)
Record VerificationResult : Type := {
  verified : bool;
  result_userId : option string;
  distance : option float;
  message : option string
}.

(** [calculateEuclideanDistance(emb1, emb2)] *)
Definition calculateEuclideanDistance (emb1 emb2 : list float) : Outcome float :=
  if negb (List.length emb1 =? List.length emb2)%nat then
    Thrown ("Embedding length mismatch: " ++ natToString (List.length emb1)
            ++ " vs " ++ natToString (List.length emb2))
  else
    Returned
      (sqrt (reduce (fun sum val i => (sum + Math_pow2 (val - at_index emb2 i))%float)
                    emb1 0%float)).

(** [closestMatch = { distance, user }]; [user] is [null] until a candidate is
    found. *)
Record ClosestMatch : Type := { cm_distance : float; cm_user : option User }.

Definition noMatch : ClosestMatch := {| cm_distance := infinity; cm_user := None |}.

(** The [for (const user of cachedUsers)] loop, from a given [closestMatch]. *)
Fixpoint scanUsers (newEmbedding : list float) (users : list User)
         (closestMatch : ClosestMatch) : Outcome ClosestMatch :=
  match users with
  | [] => Returned closestMatch
  | user :: rest =>
      match calculateEuclideanDistance newEmbedding (embedding user) with
      | Thrown e => Thrown e
      | Returned d =>
          scanUsers newEmbedding rest
            (if (d <? cm_distance closestMatch)%float
             then {| cm_distance := d; cm_user := Some user |}
             else closestMatch)
      end
  end.

Definition threshold : float := 0.6%float.

Section VerifyFace.
Variable Number_toString : float -> string.

(** The text of [closestMatch.user?.userId] in a template literal. *)
Definition closestUserIdText (closestMatch : ClosestMatch) : string :=
  match cm_user closestMatch with
  | Some user => userId user
  | None => "undefined"
  end.

Definition noMatchMessage (closestMatch : ClosestMatch) : string :=
  "No match found (closest: " ++ closestUserIdText closestMatch ++ " "
  ++ toFixed2 Number_toString (cm_distance closestMatch) ++ ")".

(** [verifyFace(newEmbedding)], reading the [cachedUsers] state it closes
    over; the store is the database reached through [logVerification]. *)
Definition verifyFace (cachedUsers : list User) (newEmbedding : list float)
  : M Db VerificationResult :=
  try_catch
    (if negb (List.length newEmbedding =? 128)%nat then
       ret {| verified := false; result_userId := None; distance := None;
              message := Some ("Invalid embedding length: "
                               ++ natToString (List.length newEmbedding)) |}
     else if (List.length cachedUsers =? 0)%nat then
       ret {| verified := false; result_userId := None; distance := None;
              message := Some "No users registered" |}
     else
       closestMatch <- liftOutcome (scanUsers newEmbedding cachedUsers noMatch) ;;
       (* [closestMatch.distance < threshold && closestMatch.user] *)
       match (if (cm_distance closestMatch <? threshold)%float
              then cm_user closestMatch else None) with
       | Some user =>
           logVerification (userId user) ;;;
           ret {| verified := true; result_userId := Some (userId user);
                  distance := Some (cm_distance closestMatch);
                  message := None |}
       | None =>
           ret {| verified := false; result_userId := None; distance := None;
                  message := Some (noMatchMessage closestMatch) |}
       end)
    (fun _ =>
       ret {| verified := false; result_userId := None; distance := None;
              message := Some "Error during verification" |}).
End VerifyFace.

End Matcher.

Export Matcher.

(** ** utils/useEsp32Bluetooth.ts: the Gate Link *)

Module GateLink.

Definition LF : string := String (ascii_of_nat 10) EmptyString.

Definition ESP32_DEVICE_NAME : string := "ESP32_Gate".
Definition PASSWORD : string := "MySecurePass123".

(** A bonded Bluetooth device, as [getBondedDevices] lists it. *)
Record BluetoothDevice : Type := { name : string }.

(** The state of the hook ([useState] cells), followed by what the hook acts
    on: whether the serial link to the device is open, how many data listeners
    [onDataReceived] has registered, the lines written to the link, and the
    alerts shown. *)
Record Gate : Type := {
  isConnected : bool;
  isAuthenticated : bool;
  device : option BluetoothDevice;
  responses : list string;
  hasPermissions : bool;
  linkOpen : bool;
  listeners : nat;
  written : list string;
  alerts : list (string * string)
}.

Definition initialGate : Gate :=
  {| isConnected := false; isAuthenticated := false; device := None;
     responses := []; hasPermissions := false;
     linkOpen := false; listeners := 0; written := []; alerts := [] |}.

Definition setIsConnected (v : bool) : M Gate unit :=
  modify (fun g =>
    {| isConnected := v; isAuthenticated := isAuthenticated g; device := device g;
       responses := responses g; hasPermissions := hasPermissions g;
       linkOpen := linkOpen g; listeners := listeners g; written := written g;
       alerts := alerts g |}).

Definition setIsAuthenticated (v : bool) : M Gate unit :=
  modify (fun g =>
    {| isConnected := isConnected g; isAuthenticated := v; device := device g;
       responses := responses g; hasPermissions := hasPermissions g;
       linkOpen := linkOpen g; listeners := listeners g; written := written g;
       alerts := alerts g |}).

Definition setDevice (v : option BluetoothDevice) : M Gate unit :=
  modify (fun g =>
    {| isConnected := isConnected g; isAuthenticated := isAuthenticated g; device := v;
       responses := responses g; hasPermissions := hasPermissions g;
       linkOpen := linkOpen g; listeners := listeners g; written := written g;
       alerts := alerts g |}).

Definition addResponse (message : string) : M Gate unit :=
  modify (fun g =>
    {| isConnected := isConnected g; isAuthenticated := isAuthenticated g;
       device := device g;
       responses := (responses g ++ [message])%list;
       hasPermissions := hasPermissions g;
       linkOpen := linkOpen g; listeners := listeners g; written := written g;
       alerts := alerts g |}).

Definition setHasPermissions (v : bool) : M Gate unit :=
  modify (fun g =>
    {| isConnected := isConnected g; isAuthenticated := isAuthenticated g;
       device := device g; responses := responses g; hasPermissions := v;
       linkOpen := linkOpen g; listeners := listeners g; written := written g;
       alerts := alerts g |}).

Definition setLinkOpen (v : bool) : M Gate unit :=
  modify (fun g =>
    {| isConnected := isConnected g; isAuthenticated := isAuthenticated g;
       device := device g; responses := responses g;
       hasPermissions := hasPermissions g;
       linkOpen := v; listeners := listeners g; written := written g;
       alerts := alerts g |}).

Definition addListener : M Gate unit :=
  modify (fun g =>
    {| isConnected := isConnected g; isAuthenticated := isAuthenticated g;
       device := device g; responses := responses g;
       hasPermissions := hasPermissions g;
       linkOpen := linkOpen g; listeners := S (listeners g); written := written g;
       alerts := alerts g |}).

Definition transmit (line : string) : M Gate unit :=
  modify (fun g =>
    {| isConnected := isConnected g; isAuthenticated := isAuthenticated g;
       device := device g; responses := responses g;
       hasPermissions := hasPermissions g;
       linkOpen := linkOpen g; listeners := listeners g;
       written := (written g ++ [line])%list;
       alerts := alerts g |}).

(** [Alert.alert(title, message)] *)
Definition Alert_alert (title message : string) : M Gate unit :=
  modify (fun g =>
    {| isConnected := isConnected g; isAuthenticated := isAuthenticated g;
       device := device g; responses := responses g;
       hasPermissions := hasPermissions g;
       linkOpen := linkOpen g; listeners := listeners g; written := written g;
       alerts := (alerts g ++ [(title, message)])%list |}).

(** [device.write(line, 'utf8')]: the transport either takes the line or
    rejects the call; a rejected write transmits nothing. *)
Definition device_write (line : string) (answer : Outcome unit) : M Gate unit :=
  match answer with
  | Returned _ => transmit line
  | Thrown e => throw e
  end.

(** [espDevice.connect()]: a truthy result means the link is open. *)
Definition device_connect (answer : Outcome bool) : M Gate bool :=
  match answer with
  | Returned true => setLinkOpen true ;;; ret true
  | Returned false => ret false
  | Thrown e => throw e
  end.

(** [device.disconnect()] *)
Definition device_disconnect (answer : Outcome unit) : M Gate unit :=
  match answer with
  | Returned _ => setLinkOpen false
  | Thrown e => throw e
  end.

(** What the platform answers during one call of [connectToESP32]. *)
Record ConnectAnswers : Type := {
  enableBluetooth : Outcome unit;
  permissionCheck : Outcome bool;
  permissionRequest : Outcome bool;
  bondedDevices : Outcome (list BluetoothDevice);
  connectResult : Outcome bool;
  authWrite : Outcome unit
}.

Definition checkPermissions (answer : Outcome bool) : M Gate bool :=
  match answer with
  | Returned granted => ret granted
  | Thrown e =>
      Alert_alert "Permission Check Error" ("Failed to check permissions: " ++ e) ;;;
      ret false
  end.

Definition requestAndroidPermissions (answer : Outcome bool) : M Gate bool :=
  match answer with
  | Returned allGranted =>
      (if negb allGranted then
         Alert_alert "Permissions Required"
                     "Bluetooth and location permissions are required."
       else ret tt) ;;;
      ret allGranted
  | Thrown e =>
      Alert_alert "Permission Error" ("Failed to request permissions: " ++ e) ;;;
      ret false
  end.

(** The callback given to [espDevice.onDataReceived]. *)
Definition onDataReceived (data : string) : M Gate unit :=
  let message := trim data in
  addResponse ("Received: " ++ message) ;;;
  if message =? "AUTH_SUCCESS" then
    setIsAuthenticated true ;;;
    addResponse "Authentication successful"
  else if message =? "AUTH_FAILED" then
    setIsAuthenticated false ;;;
    addResponse "Authentication failed" ;;;
    Alert_alert "Authentication Error" "Incorrect password"
  else if message =? "NOT_AUTHENTICATED" then
    addResponse "Command rejected: Not authenticated" ;;;
    Alert_alert "Error" "Please authenticate first"
  else ret tt.

(** [connectToESP32()]; its result is [true], [false] or [undefined]. *)
Definition connectToESP32 (env : ConnectAnswers) : M Gate (option bool) :=
  try_catch
    (liftOutcome (enableBluetooth env) ;;;
     permissionsGranted <- checkPermissions (permissionCheck env) ;;
     permissionsGranted <- (if negb permissionsGranted
                            then requestAndroidPermissions (permissionRequest env)
                            else ret permissionsGranted) ;;
     if negb permissionsGranted then
       setHasPermissions false ;;;
       ret (Some false)
     else
       setHasPermissions true ;;;
       devices <- liftOutcome (bondedDevices env) ;;
       match find (fun d => name d =? ESP32_DEVICE_NAME) devices with
       | Some espDevice =>
           setDevice (Some espDevice) ;;;
           connection <- device_connect (connectResult env) ;;
           if connection then
             setIsConnected true ;;;
             addResponse "Connected to ESP32_Gate" ;;;
             addListener ;;;
             device_write ("AUTHENTICATE " ++ PASSWORD ++ LF) (authWrite env) ;;;
             addResponse "Sent: AUTHENTICATE" ;;;
             ret (Some true)
           else ret None
       | None =>
           Alert_alert "Device Not Found" "ESP32_Gate not found in paired devices" ;;;
           ret (Some false)
       end)
    (fun message =>
       Alert_alert "Connection Error" ("Bluetooth error: " ++ message) ;;;
       ret (Some false)).

(** [disconnectFromESP32()] *)
Definition disconnectFromESP32 (answer : Outcome unit) : M Gate bool :=
  try_catch
    (g <- get ;;
     match device g with
     | Some _ =>
         if isConnected g then
           device_disconnect answer ;;;
           setIsConnected false ;;;
           setIsAuthenticated false ;;;
           setDevice None ;;;
           addResponse "Disconnected from ESP32_Gate" ;;;
           ret true
         else ret false
     | None => ret false
     end)
    (fun message =>
       addResponse ("Error disconnecting: " ++ message) ;;;
       ret false).

(** [sendCommand(command)]; [console] output is left out. *)
Definition sendCommand (command : string) (answer : Outcome unit) : M Gate unit :=
  g <- get ;;
  if negb (isConnected g) || negb (match device g with Some _ => true | None => false end)
  then Alert_alert "Error" "Not connected to ESP32"
  else if negb (isAuthenticated g) && negb (startsWith command "AUTHENTICATE")
  then Alert_alert "Error" "Must authenticate before sending commands"
  else
    try_catch
      (device_write (command ++ LF) answer ;;;
       addResponse ("Sent: " ++ command))
      (fun _ => ret tt).

(** [handleRetryPermissions()] *)
Definition handleRetryPermissions (env : ConnectAnswers) : M Gate unit :=
  granted <- requestAndroidPermissions (permissionRequest env) ;;
  if granted then
    setHasPermissions true ;;;
    connectToESP32 env ;;;
    ret tt
  else ret tt.

(** The cleanup of the mount effect: [if (device) disconnectFromESP32()].
    The effect has no dependencies ([useEffect(..., [])]), so the cleanup
    that runs at unmount is the closure of the first render: the [device] it
    tests is the one of that render, the initial [null]. *)
Definition cleanup (answer : Outcome unit) : M Gate unit :=
  match device initialGate with
  | Some _ => disconnectFromESP32 answer ;;; ret tt
  | None => ret tt
  end.

(** What can happen to the Gate Link.  A line is received only on an open
    link; it is then handed to every registered listener. *)
Inductive Event : Type :=
| Connect (env : ConnectAnswers)
| Disconnect (answer : Outcome unit)
| Send (command : string) (answer : Outcome unit)
| RetryPermissions (env : ConnectAnswers)
| Cleanup (answer : Outcome unit)
| DataReceived (data : string)
| LinkLost.

Fixpoint deliver (n : nat) (data : string) : M Gate unit :=
  match n with
  | O => ret tt
  | S n' => onDataReceived data ;;; deliver n' data
  end.

Definition step (g : Gate) (ev : Event) : option Gate :=
  match ev with
  | Connect env => Some (snd (connectToESP32 env g))
  | Disconnect answer => Some (snd (disconnectFromESP32 answer g))
  | Send command answer => Some (snd (sendCommand command answer g))
  | RetryPermissions env => Some (snd (handleRetryPermissions env g))
  | Cleanup answer => Some (snd (cleanup answer g))
  | DataReceived data =>
      if linkOpen g then Some (snd (deliver (listeners g) data g)) else None
  | LinkLost => Some (snd (setLinkOpen false g))
  end.

Inductive reachable : Gate -> Prop :=
| reachable_initial : reachable initialGate
| reachable_step g ev g' : reachable g -> step g ev = Some g' -> reachable g'.

End GateLink.

Export GateLink.

(** ** VerifyScreen.tsx: the screen state and the verification pipeline *)

Module Pipeline.

(** The [useState] cells of [VerifyScreen] that the core reads or writes,
    whether [camera.current] is set, and the two stores the screen reaches:
    the database and the Gate Link hook. *)
Record App : Type := {
  status : string;
  isScanning : bool;
  lastVerifiedUser : option string;
  error : option string;
  frameProcessorError : option string;
  cachedUsers : list User;
  lastCaptureTime : Z;
  performanceMetrics : list string;
  cameraMounted : bool;
  db : Db;
  gate : Gate
}.

Definition setStatus (v : string) : M App unit :=
  modify (fun a =>
    {| status := v; isScanning := isScanning a; lastVerifiedUser := lastVerifiedUser a;
       error := error a; frameProcessorError := frameProcessorError a;
       cachedUsers := cachedUsers a; lastCaptureTime := lastCaptureTime a;
       performanceMetrics := performanceMetrics a; cameraMounted := cameraMounted a;
       db := db a; gate := gate a |}).

Definition setIsScanning (v : bool) : M App unit :=
  modify (fun a =>
    {| status := status a; isScanning := v; lastVerifiedUser := lastVerifiedUser a;
       error := error a; frameProcessorError := frameProcessorError a;
       cachedUsers := cachedUsers a; lastCaptureTime := lastCaptureTime a;
       performanceMetrics := performanceMetrics a; cameraMounted := cameraMounted a;
       db := db a; gate := gate a |}).

Definition setLastVerifiedUser (v : option string) : M App unit :=
  modify (fun a =>
    {| status := status a; isScanning := isScanning a; lastVerifiedUser := v;
       error := error a; frameProcessorError := frameProcessorError a;
       cachedUsers := cachedUsers a; lastCaptureTime := lastCaptureTime a;
       performanceMetrics := performanceMetrics a; cameraMounted := cameraMounted a;
       db := db a; gate := gate a |}).

Definition setError (v : option string) : M App unit :=
  modify (fun a =>
    {| status := status a; isScanning := isScanning a;
       lastVerifiedUser := lastVerifiedUser a;
       error := v; frameProcessorError := frameProcessorError a;
       cachedUsers := cachedUsers a; lastCaptureTime := lastCaptureTime a;
       performanceMetrics := performanceMetrics a; cameraMounted := cameraMounted a;
       db := db a; gate := gate a |}).

Definition setFrameProcessorError (v : option string) : M App unit :=
  modify (fun a =>
    {| status := status a; isScanning := isScanning a;
       lastVerifiedUser := lastVerifiedUser a;
       error := error a; frameProcessorError := v;
       cachedUsers := cachedUsers a; lastCaptureTime := lastCaptureTime a;
       performanceMetrics := performanceMetrics a; cameraMounted := cameraMounted a;
       db := db a; gate := gate a |}).

Definition setCachedUsers (v : list User) : M App unit :=
  modify (fun a =>
    {| status := status a; isScanning := isScanning a;
       lastVerifiedUser := lastVerifiedUser a;
       error := error a; frameProcessorError := frameProcessorError a;
       cachedUsers := v; lastCaptureTime := lastCaptureTime a;
       performanceMetrics := performanceMetrics a; cameraMounted := cameraMounted a;
       db := db a; gate := gate a |}).

Definition setLastCaptureTime (v : Z) : M App unit :=
  modify (fun a =>
    {| status := status a; isScanning := isScanning a;
       lastVerifiedUser := lastVerifiedUser a;
       error := error a; frameProcessorError := frameProcessorError a;
       cachedUsers := cachedUsers a; lastCaptureTime := v;
       performanceMetrics := performanceMetrics a; cameraMounted := cameraMounted a;
       db := db a; gate := gate a |}).

(** [setPerformanceMetrics(prev => [entry, ...prev.slice(0, 4)])] *)
Definition pushPerformanceMetric (entry : string) : M App unit :=
  modify (fun a =>
    {| status := status a; isScanning := isScanning a;
       lastVerifiedUser := lastVerifiedUser a;
       error := error a; frameProcessorError := frameProcessorError a;
       cachedUsers := cachedUsers a; lastCaptureTime := lastCaptureTime a;
       performanceMetrics := entry :: firstn 4 (performanceMetrics a);
       cameraMounted := cameraMounted a;
       db := db a; gate := gate a |}).

Definition withDb {A} (m : M Db A) : M App A :=
  zoom db (fun d a =>
    {| status := status a; isScanning := isScanning a;
       lastVerifiedUser := lastVerifiedUser a;
       error := error a; frameProcessorError := frameProcessorError a;
       cachedUsers := cachedUsers a; lastCaptureTime := lastCaptureTime a;
       performanceMetrics := performanceMetrics a; cameraMounted := cameraMounted a;
       db := d; gate := gate a |}) m.

Definition withGate {A} (m : M Gate A) : M App A :=
  zoom gate (fun g a =>
    {| status := status a; isScanning := isScanning a;
       lastVerifiedUser := lastVerifiedUser a;
       error := error a; frameProcessorError := frameProcessorError a;
       cachedUsers := cachedUsers a; lastCaptureTime := lastCaptureTime a;
       performanceMetrics := performanceMetrics a; cameraMounted := cameraMounted a;
       db := db a; gate := g |}) m.

(** [fetchUsers()] *)
Definition fetchUsers : M App unit :=
  try_catch
    (users <- withDb getUsers ;;
     setCachedUsers users)
    (fun _ => setError (Some "Failed to load users")).

(** What the collaborators answer during one run of [captureAndVerify]: the
    camera, the image resizer, the file system, the JPEG decoder (with the
    base64 decoding before it), the embedding model, the two readings of the
    clock, and the transport if a command is written. *)
Record CaptureAnswers : Type := {
  startTime : Z;
  takePhoto : Outcome string;
  createResizedImage : Outcome string;
  readFile : Outcome string;
  decode : Outcome unit;
  runSync : Outcome (list float);
  endTime : Z;
  commandWrite : Outcome unit
}.

(** A string is truthy when it is not empty. *)
Definition truthy (s : option string) : option string :=
  match s with
  | Some EmptyString => None
  | other => other
  end.

Section CaptureAndVerify.
Variable Number_toString : float -> string.

(** [captureAndVerify()], as the function of the latest render, which reads
    the state as it is (the Capture button calls it); [console] output is
    left out. *)
Definition captureAndVerify (env : CaptureAnswers) : M App unit :=
  a <- get ;;
  if negb (cameraMounted a) || isScanning a then ret tt
  else
    setIsScanning true ;;;
    setStatus "Processing..." ;;;
    setError None ;;;
    setFrameProcessorError None ;;;
    try_finally
      (try_catch
         (liftOutcome (takePhoto env) ;;;
          liftOutcome (createResizedImage env) ;;;
          liftOutcome (readFile env) ;;;
          liftOutcome (decode env) ;;;
          embedding <- liftOutcome (runSync env) ;;
          a <- get ;;
          result <- withDb (verifyFace Number_toString (cachedUsers a) embedding) ;;
          let processingTime := (endTime env - startTime env)%Z in
          match (if verified result then truthy (result_userId result) else None) with
          | Some uid =>
              setLastVerifiedUser (Some uid) ;;;
              setStatus ("Verified: " ++ uid ++ " ("
                         ++ ZToString processingTime ++ "ms)") ;;;
              a <- get ;;
              if isConnected (gate a) && isAuthenticated (gate a) then
                withGate (sendCommand "FACE_DETECTED" (commandWrite env))
              else ret tt
          | None =>
              setStatus (match truthy (message result) with
                         | Some m => m
                         | None => "Verification failed"
                         end)
          end ;;;
          pushPerformanceMetric ("Processed in " ++ ZToString processingTime ++ "ms"))
         (fun message =>
            setError (Some message) ;;;
            setStatus "Error during verification"))
      (setIsScanning false).
End CaptureAndVerify.

End Pipeline.

Export Pipeline.

(** ** VerifyScreen.tsx: the frame processor and its auto-capture logic *)

Module CaptureTrigger.

(** [interface FaceDetection] *)
Record FaceDetection : Type := {
  det_x : float;
  det_y : float;
  det_width : float;
  det_height : float;
  det_score : float
}.

(** [frame.width], [frame.height] *)
Record Frame : Type := { frame_width : float; frame_height : float }.

(** The predicate given to [detections.find]. *)
Definition isValidFace (frame : Frame) (det : FaceDetection) : bool :=
  let frameCenterX := (frame_width frame / 2)%float in
  let frameCenterY := (frame_height frame / 2)%float in
  let minFaceSize := (frame_width frame * 0.3)%float in
  let maxFaceSize := (frame_width frame * 0.7)%float in
  let centerTolerance := (frame_width frame * 0.2)%float in
  let faceCenterX := (det_x det + det_width det / 2)%float in
  let faceCenterY := (det_y det + det_height det / 2)%float in
  let isCentered :=
    (abs (faceCenterX - frameCenterX) <? centerTolerance)%float
    && (abs (faceCenterY - frameCenterY) <? centerTolerance)%float in
  let isValidSize :=
    (minFaceSize <=? det_width det)%float
    && (det_width det <=? maxFaceSize)%float
    && (minFaceSize <=? det_height det)%float
    && (det_height det <=? maxFaceSize)%float in
  isCentered && isValidSize && (0.7 <? det_score det)%float.

(** The calls the worklet hands to the JS thread with [runOnJS]. *)
Inductive JSCall : Type :=
| SetStatus (status : string)
| SetDetections (detections : list FaceDetection)
| SetPerformanceMetrics
| SetLastCaptureTime (now : Z)
| CaptureAndVerify
| SetFrameProcessorError (message : string).

(** The "auto-capture logic" at the end of [frameProcessor]. *)
Definition autoCapture (detections : list FaceDetection) (frame : Frame)
           (lastCaptureTime now : Z) : list JSCall :=
  if (List.length detections =? 0)%nat then [SetStatus "No face detected"]
  else if (now - lastCaptureTime <? 3000)%Z then []
  else
    match find (isValidFace frame) detections with
    | Some validFace => [SetLastCaptureTime now; CaptureAndVerify]
    | None => []
    end.

(** A box of the detection model: [ymin, xmin, ymax, xmax], relative to the
    frame. *)
Record Box : Type := { ymin : float; xmin : float; ymax : float; xmax : float }.

(** The "parse detections" loop: [for (i < scores.length) if (scores[i] > 0.5)]
    push the box scaled to the frame; reading a missing [boxes[i]] throws. *)
Fixpoint parseDetections (frame : Frame) (boxes : list Box) (scores : list float)
  : Outcome (list FaceDetection) :=
  match scores with
  | [] => Returned []
  | score :: scores' =>
      if (0.5 <? score)%float then
        match boxes with
        | [] => Thrown "Cannot read properties of undefined"
        | box :: boxes' =>
            match parseDetections frame boxes' scores' with
            | Thrown e => Thrown e
            | Returned rest =>
                Returned
                  ({| det_x := (xmin box * frame_width frame)%float;
                      det_y := (ymin box * frame_height frame)%float;
                      det_width := ((xmax box - xmin box) * frame_width frame)%float;
                      det_height := ((ymax box - ymin box) * frame_height frame)%float;
                      det_score := score |} :: rest)
            end
        end
      else parseDetections frame (tl boxes) scores'
  end.

(** One invocation of the frame processor: what it closes over
    ([faceDetectionModel], [isScanning], [lastCaptureTime]), the frame, the
    outputs of the detection model on it (or the failure of the resize, of the
    model, or of the check on the number of outputs), and [Date.now()]. *)
Record FrameInput : Type := {
  modelPresent : bool;
  modelLoaded : bool;
  scanning : bool;
  frame : Frame;
  outputs : Outcome (list Box * list float);
  now : Z
}.

Definition frameProcessor (input : FrameInput) (lastCaptureTime : Z) : list JSCall :=
  if negb (modelPresent input) || scanning input then []
  else if negb (modelLoaded input) then [SetStatus "Face detection model loading..."]
  else
    match outputs input with
    | Thrown message => [SetFrameProcessorError message]
    | Returned (boxes, scores) =>
        match parseDetections (frame input) boxes scores with
        | Thrown message => [SetFrameProcessorError message]
        | Returned detections =>
            (SetDetections detections :: SetPerformanceMetrics ::
             autoCapture detections (frame input) lastCaptureTime (now input))%list
        end
    end.

(** Whether an invocation dispatched a capture, and the [lastCaptureTime] the
    next invocation closes over once its [runOnJS] calls have run. *)
Definition fired (calls : list JSCall) : bool :=
  existsb (fun c => match c with CaptureAndVerify => true | _ => false end) calls.

Fixpoint nextCaptureTime (calls : list JSCall) (lastCaptureTime : Z) : Z :=
  match calls with
  | [] => lastCaptureTime
  | SetLastCaptureTime t :: rest => nextCaptureTime rest t
  | _ :: rest => nextCaptureTime rest lastCaptureTime
  end.

(** What happens to the frame processor, in order: a frame arrives and the
    current worklet processes it; or the component renders again and
    [useFrameProcessor] creates the worklet anew, over the [lastCaptureTime]
    of that render (it is one of its dependencies). *)
Inductive TriggerEvent : Type :=
| FrameArrives (input : FrameInput)
| Rerender.

(** [lastCaptureTime] twice: the React state, which the
    [runOnJS(setLastCaptureTime)] of a worklet writes, and the value that the
    current worklet closes over, which is the state of the render that
    created it. *)
Record Trigger : Type := { stateTime : Z; workletTime : Z }.

(** The worklet of a render in which [lastCaptureTime] is the given value. *)
Definition rendered (lastCaptureTime : Z) : Trigger :=
  {| stateTime := lastCaptureTime; workletTime := lastCaptureTime |}.

(** The times at which a sequence of events dispatched a capture. *)
Fixpoint captureTimes (events : list TriggerEvent) (t : Trigger) : list Z :=
  match events with
  | [] => []
  | FrameArrives input :: rest =>
      let calls := frameProcessor input (workletTime t) in
      let times :=
        captureTimes rest {| stateTime := nextCaptureTime calls (stateTime t);
                             workletTime := workletTime t |} in
      if fired calls then now input :: times else times
  | Rerender :: rest => captureTimes rest (rendered (stateTime t))
  end.

End CaptureTrigger.

Export CaptureTrigger.

(** ** utils/database.ts: saving, looking up, deleting and counting users *)

Module UserRecords.

(** [Array.isArray(embedding) ? embedding : Array.from(embedding)], on a value
    that [isValidUser] has accepted: an array or an array-like object. *)
Definition embeddingArrayOf (embedding : JsVal) : list JsVal :=
  match embedding with
  | JArray items => items
  | JArrayLike items => items
  | _ => []
  end.

(** The numbers among the items; after [isValidUser] every item is one. *)
Definition numbersOf (items : list JsVal) : list float :=
  flat_map (fun item => match item with JNumber n => [n] | _ => [] end) items.

(** What [JSON.parse] reads back from the [JSON.stringify] of a finite
    number: the number itself, except that [-0] is written "0". *)
Definition jsonNumber (n : float) : float := if is_zero n then 0%float else n.

(** [JSON.stringify] of an array of finite numbers. *)
Definition JSON_stringify (numbers : list float) : EmbeddingText :=
  JsonNumbers (map jsonNumber numbers).

Definition hasUserId (userId : string) (row : UsersRow) : bool :=
  (row_userId row =? userId)%string.

(** [INSERT OR REPLACE INTO Users (userId, embedding, updatedAt)]: [userId] is
    UNIQUE, so a row with the same [userId] is deleted and the new row is
    added.  [DELETE FROM Users WHERE userId = ?] likewise deletes the row.
    [foreignKeys] tells whether the connection enforces foreign keys: the
    deletion of a user row then cascades to the verification log
    ([ON DELETE CASCADE]). *)
Definition cascade (foreignKeys : bool) (userId : string) (db : Db) : list string :=
  if foreignKeys && existsb (hasUserId userId) (Users db)
  then filter (fun logged => negb (logged =? userId)%string) (VerificationLogs db)
  else VerificationLogs db.

Definition insertOrReplace (foreignKeys : bool) (userId : string)
           (text : EmbeddingText) : M Db unit :=
  fun db =>
    if failing db then (Thrown "SQL error", db)
    else (Returned tt,
          {| Users := (filter (fun row => negb (hasUserId userId row)) (Users db)
                       ++ [ {| row_userId := userId; row_embedding := text |} ])%list;
             VerificationLogs := cascade foreignKeys userId db;
             failing := failing db |}).

(** [saveUser(userId, embedding)] *)
Definition saveUser (foreignKeys : bool) (userId : string) (embedding : JsVal)
  : M Db unit :=
  if negb (isValidUser userId embedding) then throw "Invalid user data"
  else
    let embeddingArray := embeddingArrayOf embedding in
    insertOrReplace foreignKeys userId (JSON_stringify (numbersOf embeddingArray)).

(** An [embedding: number[]] as the [any] argument of [isValidUser]. *)
Definition asJsArray (embedding : list float) : JsVal := JArray (map JNumber embedding).

(** The [users.forEach] of one transaction. *)
Fixpoint insertAll (foreignKeys : bool) (users : list User) (db : Db) : Db :=
  match users with
  | [] => db
  | user :: rest =>
      insertAll foreignKeys rest
        (snd (insertOrReplace foreignKeys (userId user)
                              (JSON_stringify (embedding user)) db))
  end.

(** [saveMultipleUsers(users)]: every user is validated before the single
    transaction that inserts them all. *)
Definition saveMultipleUsers (foreignKeys : bool) (users : list User) : M Db bool :=
  match find (fun user => negb (isValidUser (userId user) (asJsArray (embedding user))))
             users with
  | Some user => throw ("Invalid data for user: " ++ userId user)
  | None =>
      fun db =>
        if failing db then (Thrown "SQL error", db)
        else (Returned true, insertAll foreignKeys users db)
  end.

(** [getUser(userId)]: the first selected row, parsed; [null] without a row;
    a row whose embedding does not parse rejects. *)
Definition getUser (userId : string) : M Db (option User) :=
  fun db =>
    if failing db then (Thrown "SQL error", db)
    else
      match find (hasUserId userId) (Users db) with
      | Some row =>
          match JSON_parse (row_embedding row) with
          | Returned parsed =>
              (Returned (Some {| Database.userId := row_userId row;
                                 embedding := parsed |}), db)
          | Thrown e => (Thrown e, db)
          end
      | None => (Returned None, db)
      end.

(** [deleteUser(userId)] *)
Definition deleteUser (foreignKeys : bool) (userId : string) : M Db unit :=
  fun db =>
    if failing db then (Thrown "SQL error", db)
    else (Returned tt,
          {| Users := filter (fun row => negb (hasUserId userId row)) (Users db);
             VerificationLogs := cascade foreignKeys userId db;
             failing := failing db |}).

(** [getUsersCount()]: [SELECT COUNT( * ) FROM Users]. *)
Definition getUsersCount : M Db nat :=
  fun db =>
    if failing db then (Thrown "SQL error", db)
    else (Returned (List.length (Users db)), db).

End UserRecords.

Export UserRecords.

(** ** The Gate Link in use: toggling, and histories of events *)

Module GateLinkUse.

(** [toggleBluetoothConnection(shouldConnect)] *)
Definition toggleBluetoothConnection (shouldConnect : bool) (env : ConnectAnswers)
           (answer : Outcome unit) : M Gate (option bool) :=
  if shouldConnect then connectToESP32 env
  else
    disconnected <- disconnectFromESP32 answer ;;
    ret (Some disconnected).

(** The state after a sequence of events, when each of them can happen. *)
Fixpoint runEvents (events : list Event) (g : Gate) : option Gate :=
  match events with
  | [] => Some g
  | ev :: rest =>
      match step g ev with
      | Some g' => runEvents rest g'
      | None => None
      end
  end.

(** The line that [connectToESP32] writes once the link is open. *)
Definition handshake : string := "AUTHENTICATE " ++ PASSWORD ++ LF.

End GateLinkUse.

Export GateLinkUse.

(** ** VerifyScreen.tsx: the retry button *)

Module ScreenHandlers.

(** [handleRetry()]: both errors are cleared, then the users are fetched
    again; the state is the one reached when the fetch has settled. *)
Definition handleRetry : M App unit :=
  setError None ;;;
  setFrameProcessorError None ;;;
  fetchUsers.

End ScreenHandlers.

Export ScreenHandlers.

(** ** VerifyScreen.tsx: [captureAndVerify] as the closure of a render *)

Module Closures.

(** A function of a component reads the state of the render that created it.
    [captureAndVerify] above is the function of the latest render, the one
    the Capture button calls.  The one that the frame processor dispatches
    with [runOnJS] is the function of the render in which the worklet was
    created, which is an earlier render whenever state that is not a
    dependency of the worklet has changed since (the cached users, the flags
    of the Gate Link).  Below, [render] is the state of the render whose
    function is called; what is written goes to the current state. *)

(** [sendCommand(command)] of the hook as [render] returned it: the guards
    read [isConnected], [device] and [isAuthenticated] of that render. *)
Definition sendCommandOf (render : Gate) (command : string) (answer : Outcome unit)
  : M Gate unit :=
  if negb (isConnected render)
     || negb (match device render with Some _ => true | None => false end)
  then Alert_alert "Error" "Not connected to ESP32"
  else if negb (isAuthenticated render) && negb (startsWith command "AUTHENTICATE")
  then Alert_alert "Error" "Must authenticate before sending commands"
  else
    try_catch
      (device_write (command ++ LF) answer ;;;
       addResponse ("Sent: " ++ command))
      (fun _ => ret tt).

Section CaptureAndVerifyOf.
Variable Number_toString : float -> string.

(** The start of [captureAndVerify()]: what runs when the function is called,
    up to its first [await].  [camera.current] is a ref and is read as it is
    now; [isScanning] is the one of [render].  The result tells whether the
    guard let the call through. *)
Definition captureAndVerifyStart (render : App) : M App bool :=
  a <- get ;;
  if negb (cameraMounted a) || isScanning render then ret false
  else
    setIsScanning true ;;;
    setStatus "Processing..." ;;;
    setError None ;;;
    setFrameProcessorError None ;;;
    ret true.

(** The rest of [captureAndVerify()]: its [try], [catch] and [finally], which
    run as the awaited calls settle.  [verifyFace] matches against the
    [cachedUsers] of [render], and the command goes out when the Gate Link
    was connected and authenticated in [render]. *)
Definition captureAndVerifyRest (render : App) (env : CaptureAnswers) : M App unit :=
  try_finally
    (try_catch
       (liftOutcome (takePhoto env) ;;;
        liftOutcome (createResizedImage env) ;;;
        liftOutcome (readFile env) ;;;
        liftOutcome (decode env) ;;;
        embedding <- liftOutcome (runSync env) ;;
        result <- withDb (verifyFace Number_toString (cachedUsers render) embedding) ;;
        let processingTime := (endTime env - startTime env)%Z in
        match (if verified result then truthy (result_userId result) else None) with
        | Some uid =>
            setLastVerifiedUser (Some uid) ;;;
            setStatus ("Verified: " ++ uid ++ " ("
                       ++ ZToString processingTime ++ "ms)") ;;;
            if isConnected (gate render) && isAuthenticated (gate render) then
              withGate (sendCommandOf (gate render) "FACE_DETECTED" (commandWrite env))
            else ret tt
        | None =>
            setStatus (match truthy (message result) with
                       | Some m => m
                       | None => "Verification failed"
                       end)
        end ;;;
        pushPerformanceMetric ("Processed in " ++ ZToString processingTime ++ "ms"))
       (fun message =>
          setError (Some message) ;;;
          setStatus "Error during verification"))
    (setIsScanning false).

(** [captureAndVerify()] of [render]. *)
Definition captureAndVerifyOf (render : App) (env : CaptureAnswers) : M App unit :=
  started <- captureAndVerifyStart render ;;
  if started then captureAndVerifyRest render env else ret tt.

End CaptureAndVerifyOf.

End Closures.

Export Closures.

(** * Properties *)

(** ** Comparison and subtraction of doubles *)

Module FloatFacts.

Local Open Scope float_scope.

(** Case analysis on the comparison of the specification of floats. *)
Ltac sf_compare :=
  unfold SFltb, SFleb, SFeqb, SFcompare;
  repeat match goal with x : spec_float |- _ => destruct x end;
  repeat match goal with s : bool |- _ => destruct s end;
  simpl; try congruence;
  repeat match goal with
    | |- context [Z.compare ?a ?b] => destruct (Z.compare_spec a b); simpl
    | |- context [Pos.compare_cont Eq ?a ?b] =>
        change (Pos.compare_cont Eq a b) with (Pos.compare a b);
        destruct (Pos.compare_spec a b); simpl
    end;
  intros; auto; try congruence; try lia.

Lemma SFltb_trans x y z : SFltb x y = true -> SFltb y z = true -> SFltb x z = true.
Proof. sf_compare. Qed.

Lemma SFleb_ltb_trans x y z : SFleb x y = true -> SFltb y z = true -> SFltb x z = true.
Proof. sf_compare. Qed.

Lemma SFltb_irrefl x : SFltb x x = false.
Proof. sf_compare. Qed.

Lemma SFltb_infinity x y : SFltb x y = true -> SFltb x (S754_infinity false) = true.
Proof. sf_compare. Qed.

Lemma SFltb_false x y :
  SFltb x y = false -> x = S754_nan \/ y = S754_nan \/ SFleb y x = true.
Proof. sf_compare. Qed.

Lemma SFleb_false x y :
  SFleb x y = false -> x = S754_nan \/ y = S754_nan \/ SFltb y x = true.
Proof. sf_compare. Qed.

Lemma SFeqb_self x : SFeqb x x = match x with S754_nan => false | _ => true end.
Proof. sf_compare. Qed.

Lemma SFltb_nan_l x y : SFltb x y = true -> x <> S754_nan.
Proof. sf_compare. Qed.

Lemma Prim2SF_infinity : Prim2SF infinity = S754_infinity false.
Proof. reflexivity. Qed.

Lemma Prim2SF_zero : Prim2SF 0 = S754_zero false.
Proof. reflexivity. Qed.

Lemma is_nan_spec x : is_nan x = true <-> Prim2SF x = S754_nan.
Proof.
  unfold is_nan. rewrite FloatAxioms.eqb_spec, SFeqb_self.
  destruct (Prim2SF x); simpl; split; congruence.
Qed.

Lemma ltb_trans x y z : (x <? y) = true -> (y <? z) = true -> (x <? z) = true.
Proof. rewrite !ltb_spec. apply SFltb_trans. Qed.

Lemma leb_ltb_trans x y z : (x <=? y) = true -> (y <? z) = true -> (x <? z) = true.
Proof. rewrite leb_spec, !ltb_spec. apply SFleb_ltb_trans. Qed.

Lemma ltb_irrefl x : (x <? x) = false.
Proof. rewrite ltb_spec. apply SFltb_irrefl. Qed.

Lemma ltb_below_infinity x y : (x <? y) = true -> (x <? infinity) = true.
Proof. rewrite !ltb_spec, Prim2SF_infinity. apply SFltb_infinity. Qed.

Lemma ltb_not_nan x y : (x <? y) = true -> is_nan x = false.
Proof.
  rewrite ltb_spec. intros H. apply SFltb_nan_l in H.
  destruct (is_nan x) eqn:E; [ | reflexivity ].
  apply is_nan_spec in E. contradiction.
Qed.

Lemma ltb_false x y :
  (x <? y) = false -> is_nan x = true \/ is_nan y = true \/ (y <=? x) = true.
Proof.
  rewrite ltb_spec, leb_spec, !is_nan_spec. apply SFltb_false.
Qed.

Lemma leb_false x y :
  (x <=? y) = false -> is_nan x = true \/ is_nan y = true \/ (y <? x) = true.
Proof.
  rewrite ltb_spec, leb_spec, !is_nan_spec. apply SFleb_false.
Qed.

(** A finite double is a zero or has a mantissa and an exponent. *)
Lemma is_finite_spec x :
  is_finite x = true ->
  (exists s, Prim2SF x = S754_zero s) \/ (exists s m e, Prim2SF x = S754_finite s m e).
Proof.
  unfold is_finite, is_nan, is_infinity.
  rewrite !FloatAxioms.eqb_spec, abs_spec, Prim2SF_infinity, SFeqb_self.
  destruct (Prim2SF x) as [s|s| |s m e]; simpl; intros H; try discriminate.
  - left. eauto.
  - right. eauto.
Qed.

(** [x - x] is [+0] for every finite [x]. *)
Lemma sub_self x : is_finite x = true -> x - x = 0.
Proof.
  intros H. apply Prim2SF_inj. rewrite sub_spec, Prim2SF_zero.
  destruct (is_finite_spec x H) as [[s E]|[s [m [e E]]]]; rewrite E.
  - destruct s; reflexivity.
  - unfold SF64sub, SFsub. rewrite Z.sub_diag. reflexivity.
Qed.

End FloatFacts.

(** ** The matcher *)

Module MatcherFacts.

Import FloatFacts.
Local Open Scope float_scope.

(** [d] is the distance the matcher computes between the probe and [user]. *)
Definition distanceIs (newEmbedding : list float) (user : User) (d : float) : Prop :=
  calculateEuclideanDistance newEmbedding (embedding user) = Returned d.

(** The nearest-neighbour selection of the specification, on doubles:
    [closest] holds the first user, in the order of [users], among those at
    the least distance, provided that distance is below [+Infinity]; a NaN
    distance never competes.  When no distance is below [+Infinity], no user
    is selected. *)
Definition FirstMinimum (newEmbedding : list float) (users : list User)
           (closest : ClosestMatch) : Prop :=
  match cm_user closest with
  | Some u =>
      exists before after,
        users = (before ++ u :: after)%list
        /\ distanceIs newEmbedding u (cm_distance closest)
        /\ (cm_distance closest <? infinity) = true
        /\ (forall v dv, In v before -> distanceIs newEmbedding v dv ->
                         (cm_distance closest <? dv) = true \/ is_nan dv = true)
        /\ (forall v dv, In v after -> distanceIs newEmbedding v dv ->
                         (cm_distance closest <=? dv) = true \/ is_nan dv = true)
  | None =>
      cm_distance closest = infinity
      /\ forall v dv, In v users -> distanceIs newEmbedding v dv ->
                      (dv <? infinity) = false
  end.

(** The invariant of the scanning loop after the users [seen]. *)
Definition ScanInvariant (newEmbedding : list float) (seen : list User)
           (c : ClosestMatch) : Prop :=
  (forall v dv, In v seen -> distanceIs newEmbedding v dv ->
                (dv <? cm_distance c) = false)
  /\ match cm_user c with
     | Some u =>
         exists before after,
           seen = (before ++ u :: after)%list
           /\ distanceIs newEmbedding u (cm_distance c)
           /\ (cm_distance c <? infinity) = true
           /\ (forall v dv, In v before -> distanceIs newEmbedding v dv ->
                            (dv <=? cm_distance c) = false)
     | None => cm_distance c = infinity
     end.

Lemma calculateEuclideanDistance_same_length emb1 emb2 :
  List.length emb1 = List.length emb2 ->
  exists d, calculateEuclideanDistance emb1 emb2 = Returned d.
Proof.
  intros H. unfold calculateEuclideanDistance.
  rewrite H, Nat.eqb_refl. simpl. eauto.
Qed.

Lemma calculateEuclideanDistance_length_mismatch emb1 emb2 :
  List.length emb1 <> List.length emb2 ->
  exists e, calculateEuclideanDistance emb1 emb2 = Thrown e.
Proof.
  intros H. unfold calculateEuclideanDistance.
  apply Nat.eqb_neq in H. rewrite H. simpl. eauto.
Qed.

Lemma ScanInvariant_initial newEmbedding : ScanInvariant newEmbedding [] noMatch.
Proof. split; [ intros v dv [] | reflexivity ]. Qed.

Lemma ScanInvariant_step newEmbedding seen c user d :
  ScanInvariant newEmbedding seen c ->
  distanceIs newEmbedding user d ->
  ScanInvariant newEmbedding (seen ++ [user])
    (if d <? cm_distance c then {| cm_distance := d; cm_user := Some user |} else c).
Proof.
  intros [Hall Hsel] Hd.
  destruct (d <? cm_distance c) eqn:Hlt.
  - split; simpl.
    + intros v dv Hin Hv. apply in_app_or in Hin. destruct Hin as [Hin|[<-|[]]].
      * destruct (dv <? d) eqn:E; [ | reflexivity ].
        rewrite <- (Hall v dv Hin Hv). symmetry. eapply ltb_trans; eassumption.
      * unfold distanceIs in *. rewrite Hd in Hv. injection Hv as <-.
        apply ltb_irrefl.
    + exists seen, []. repeat split; auto.
      * eapply ltb_below_infinity; eassumption.
      * intros v dv Hin Hv. destruct (dv <=? d) eqn:E; [ | reflexivity ].
        rewrite <- (Hall v dv Hin Hv). symmetry. eapply leb_ltb_trans; eassumption.
  - split.
    + intros v dv Hin Hv. apply in_app_or in Hin. destruct Hin as [Hin|[<-|[]]].
      * eauto.
      * unfold distanceIs in *. rewrite Hd in Hv. injection Hv as <-. exact Hlt.
    + destruct (cm_user c) as [u|]; [ | exact Hsel ].
      destruct Hsel as (before & after & -> & Hu & Hinf & Hbefore).
      exists before, (after ++ [user])%list. repeat split; auto.
      rewrite <- app_assoc. reflexivity.
Qed.

Lemma scanUsers_invariant newEmbedding rest : forall seen c,
  Forall (fun u => List.length (embedding u) = List.length newEmbedding) rest ->
  ScanInvariant newEmbedding seen c ->
  exists c', scanUsers newEmbedding rest c = Returned c'
             /\ ScanInvariant newEmbedding (seen ++ rest) c'.
Proof.
  induction rest as [|user rest IH]; intros seen c Hlen Hinv.
  - exists c. rewrite app_nil_r. split; [ reflexivity | assumption ].
  - inversion Hlen as [|? ? Hu Hrest]; subst.
    destruct (calculateEuclideanDistance_same_length newEmbedding (embedding user))
      as [d Hd]; [ congruence | ].
    simpl. rewrite Hd.
    destruct (IH (seen ++ [user])%list
                 (if d <? cm_distance c
                  then {| cm_distance := d; cm_user := Some user |} else c)
                 Hrest (ScanInvariant_step _ _ _ _ _ Hinv Hd))
      as (c' & Hscan & Hinv').
    exists c'. split; [ exact Hscan | ].
    rewrite <- app_assoc in Hinv'. exact Hinv'.
Qed.

Lemma ScanInvariant_FirstMinimum newEmbedding users c :
  ScanInvariant newEmbedding users c -> FirstMinimum newEmbedding users c.
Proof.
  unfold ScanInvariant, FirstMinimum. intros [Hall Hsel].
  destruct (cm_user c) as [u|].
  - destruct Hsel as (before & after & -> & Hu & Hinf & Hbefore).
    pose proof (ltb_not_nan _ _ Hinf) as Hnan.
    exists before, after. repeat split; auto.
    + intros v dv Hin Hv.
      destruct (leb_false _ _ (Hbefore v dv Hin Hv)) as [H|[H|H]]; auto; congruence.
    + intros v dv Hin Hv.
      assert (Hin' : In v (before ++ u :: after)) by (apply in_or_app; right; right; exact Hin).
      destruct (ltb_false _ _ (Hall v dv Hin' Hv)) as [H|[H|H]]; auto; congruence.
  - split; [ exact Hsel | ]. intros v dv Hin Hv.
    rewrite <- Hsel. eauto.
Qed.

(** The scanning loop of [verifyFace] computes the first minimum. *)
Lemma scanUsers_FirstMinimum newEmbedding cachedUsers :
  Forall (fun u => List.length (embedding u) = List.length newEmbedding) cachedUsers ->
  exists closest, scanUsers newEmbedding cachedUsers noMatch = Returned closest
                  /\ FirstMinimum newEmbedding cachedUsers closest.
Proof.
  intros Hlen.
  destruct (scanUsers_invariant newEmbedding cachedUsers [] noMatch Hlen
              (ScanInvariant_initial newEmbedding)) as (c & Hscan & Hinv).
  exists c. split; [ exact Hscan | ].
  apply ScanInvariant_FirstMinimum. exact Hinv.
Qed.

(** The sum of squares of [v - v] is [+0] when [v] has finite components. *)
Lemma reduce_self rest : forall seen,
  Forall (fun x => is_finite x = true) rest ->
  reduce_from (fun sum val i => sum + Math_pow2 (val - at_index (seen ++ rest) i))
              rest (List.length seen) 0 = 0.
Proof.
  induction rest as [|val rest IH]; intros seen Hfin; [ reflexivity | ].
  inversion Hfin as [|? ? Hval Hrest]; subst. simpl.
  unfold at_index at 2. rewrite nth_middle, (sub_self val Hval).
  change (0 + Math_pow2 0) with 0.
  specialize (IH (seen ++ [val])%list Hrest).
  rewrite <- app_assoc, length_app, Nat.add_1_r in IH. exact IH.
Qed.

Lemma distance_to_self v :
  Forall (fun x => is_finite x = true) v ->
  calculateEuclideanDistance v v = Returned 0.
Proof.
  intros Hfin. unfold calculateEuclideanDistance, reduce.
  rewrite Nat.eqb_refl. simpl negb. cbv iota.
  pose proof (reduce_self v [] Hfin) as H. simpl in H. rewrite H. reflexivity.
Qed.

End MatcherFacts.

Module MatcherOutcome.

Import FloatFacts MatcherFacts.
Local Open Scope float_scope.

(** The three shapes of result that [verifyFace] builds, and the database
    after [logVerification]. *)
Definition verifiedResult (user : User) (d : float) : VerificationResult :=
  {| verified := true; result_userId := Some (userId user);
     distance := Some d; message := None |}.

Definition unverifiedResult (reason : string) : VerificationResult :=
  {| verified := false; result_userId := None; distance := None;
     message := Some reason |}.

Definition logged (uid : string) (db : Db) : Db :=
  {| Users := Users db;
     VerificationLogs := (VerificationLogs db ++ [uid])%list;
     failing := failing db |}.

(** [verifyFace] once the scan has returned [closest]. *)
Definition decisionOn (Number_toString : float -> string) (closest : ClosestMatch)
           (db : Db) : Outcome VerificationResult * Db :=
  match cm_user closest with
  | Some user =>
      if cm_distance closest <? 0.6 then
        if failing db then (Returned (unverifiedResult "Error during verification"), db)
        else (Returned (verifiedResult user (cm_distance closest)),
              logged (userId user) db)
      else (Returned (unverifiedResult (noMatchMessage Number_toString closest)), db)
  | None => (Returned (unverifiedResult (noMatchMessage Number_toString closest)), db)
  end.

Lemma verifyFace_after_scan N2S cachedUsers newEmbedding db closest :
  List.length newEmbedding = 128%nat ->
  cachedUsers <> [] ->
  scanUsers newEmbedding cachedUsers noMatch = Returned closest ->
  verifyFace N2S cachedUsers newEmbedding db = decisionOn N2S closest db.
Proof.
  intros Hlen Hne Hscan.
  unfold verifyFace, decisionOn, try_catch, bind, liftOutcome, ret.
  rewrite Hlen, Nat.eqb_refl. change (negb true) with false. cbv beta iota.
  destruct cachedUsers as [|u0 rest]; [ congruence | ].
  change (List.length (u0 :: rest) =? 0)%nat with false. cbv beta iota.
  rewrite Hscan. unfold threshold.
  destruct (cm_user closest) as [user|].
  - destruct (cm_distance closest <? 0.6); [ | reflexivity ].
    unfold logVerification, logged. destruct (failing db); reflexivity.
  - destruct (cm_distance closest <? 0.6); reflexivity.
Qed.

Lemma verifyFace_scan_throws N2S cachedUsers newEmbedding db e :
  List.length newEmbedding = 128%nat ->
  cachedUsers <> [] ->
  scanUsers newEmbedding cachedUsers noMatch = Thrown e ->
  verifyFace N2S cachedUsers newEmbedding db
  = (Returned (unverifiedResult "Error during verification"), db).
Proof.
  intros Hlen Hne Hscan.
  unfold verifyFace, try_catch, bind, liftOutcome, ret.
  rewrite Hlen, Nat.eqb_refl. change (negb true) with false. cbv beta iota.
  destruct cachedUsers as [|u0 rest]; [ congruence | ].
  change (List.length (u0 :: rest) =? 0)%nat with false. cbv beta iota.
  rewrite Hscan. reflexivity.
Qed.

Lemma verifyFace_invalid_length N2S cachedUsers newEmbedding db :
  List.length newEmbedding <> 128%nat ->
  verifyFace N2S cachedUsers newEmbedding db
  = (Returned (unverifiedResult
                 ("Invalid embedding length: "
                  ++ natToString (List.length newEmbedding))), db).
Proof.
  intros Hlen. unfold verifyFace, try_catch, ret.
  apply Nat.eqb_neq in Hlen. rewrite Hlen. reflexivity.
Qed.

Lemma verifyFace_no_users N2S newEmbedding db :
  List.length newEmbedding = 128%nat ->
  verifyFace N2S [] newEmbedding db
  = (Returned (unverifiedResult "No users registered"), db).
Proof.
  intros Hlen. unfold verifyFace, try_catch, ret.
  rewrite Hlen. reflexivity.
Qed.

(** Every call of [verifyFace] falls in one of the cases above. *)
Lemma verifyFace_cases N2S cachedUsers newEmbedding db :
  (exists reason,
      verifyFace N2S cachedUsers newEmbedding db
      = (Returned (unverifiedResult reason), db))
  \/ (exists closest,
         scanUsers newEmbedding cachedUsers noMatch = Returned closest
         /\ verifyFace N2S cachedUsers newEmbedding db = decisionOn N2S closest db).
Proof.
  destruct (Nat.eq_dec (List.length newEmbedding) 128) as [Hlen|Hlen].
  - destruct cachedUsers as [|u0 rest].
    + left. eexists. apply verifyFace_no_users. exact Hlen.
    + destruct (scanUsers newEmbedding (u0 :: rest) noMatch) as [closest|e] eqn:Hscan.
      * right. exists closest. split; [ reflexivity | ].
        apply verifyFace_after_scan; [ exact Hlen | discriminate | exact Hscan ].
      * left. eexists. eapply verifyFace_scan_throws; [ exact Hlen | discriminate | exact Hscan ].
  - left. eexists. apply verifyFace_invalid_length. exact Hlen.
Qed.

Lemma verifyFace_returns N2S cachedUsers newEmbedding db :
  exists result, fst (verifyFace N2S cachedUsers newEmbedding db) = Returned result.
Proof.
  destruct (verifyFace_cases N2S cachedUsers newEmbedding db)
    as [[reason ->]|(closest & _ & ->)].
  - eexists. reflexivity.
  - unfold decisionOn.
    destruct (cm_user closest);
      [ destruct (cm_distance closest <? 0.6);
        [ destruct (failing db) | ] | ];
      eexists; reflexivity.
Qed.

End MatcherOutcome.

(** Concrete populations, probes and databases used below. *)
Module Scenario.

Local Open Scope float_scope.

(** A stand-in for [Number::toString] on doubles from 10^21 on, which no
    scenario reaches. *)
Definition printLarge (x : float) : string := "1e+21".

Definition v : list float := repeat 0 128.
Definition alice : User := {| userId := "alice"; embedding := v |}.
Definition noisy : list float := 0.8 :: repeat 0 127.
(** A user at distance 0.8 from [v], and a second user with the embedding of
    [alice]. *)
Definition erin : User := {| userId := "erin"; embedding := noisy |}.
Definition twin : User := {| userId := "twin"; embedding := v |}.
Definition huge : list float := repeat 1e200 128.
Definition farAway : User := {| userId := "alice"; embedding := repeat (-1e200) 128 |}.
Definition healthyDb : Db := {| Users := []; VerificationLogs := []; failing := false |}.
Definition failingDb : Db := {| Users := []; VerificationLogs := []; failing := true |}.
Definition shortRow : UsersRow :=
  {| row_userId := "bob"; row_embedding := JsonNumbers [1] |}.
Definition shortDb : Db :=
  {| Users := [shortRow]; VerificationLogs := []; failing := false |}.

(** The screen once mounted, over a given database and population, before
    the Gate Link has connected. *)
Definition app (database : Db) (population : list User) : App :=
  {| status := "Ready to scan"; isScanning := false; lastVerifiedUser := None;
     error := None; frameProcessorError := None; cachedUsers := population;
     lastCaptureTime := 0%Z; performanceMetrics := []; cameraMounted := true;
     db := database; gate := initialGate |}.

(** That screen with [alice] enrolled and cached. *)
Definition idle : App := app healthyDb [alice].

(** A run in which the camera fails to take the photo. *)
Definition cameraFails : CaptureAnswers :=
  {| startTime := 1000%Z; takePhoto := Thrown "Camera is closed";
     createResizedImage := Returned "file:///resized.jpg";
     readFile := Returned "/9j/4AAQ"; decode := Returned tt;
     runSync := Returned v; endTime := 1400%Z; commandWrite := Returned tt |}.

End Scenario.

Section MatcherClaims.

Import FloatFacts MatcherFacts MatcherOutcome.
Local Open Scope float_scope.

(** C1 (as amended).  For a probe of length 128 and a non-empty population
    whose embeddings all have length 128, the linear scan of [verifyFace]
    ends on the first user, in population order, among those at the least
    Euclidean distance from the probe, provided some distance is below
    [+Infinity]; otherwise it selects no user.  [verifyFace] reports the
    selected user: as [userId], with the distance, when the result is
    verified, and in the diagnostic message when it is not, unless the write
    of the verification event failed. *)
Theorem verifyFace_selects_first_closest_user
        (N2S : float -> string) (cachedUsers : list User)
        (newEmbedding : list float) (db : Db) :
  List.length newEmbedding = 128%nat ->
  cachedUsers <> [] ->
  Forall (fun u => List.length (embedding u) = 128%nat) cachedUsers ->
  exists closest,
    scanUsers newEmbedding cachedUsers noMatch = Returned closest
    /\ FirstMinimum newEmbedding cachedUsers closest
    /\ exists result,
         fst (verifyFace N2S cachedUsers newEmbedding db) = Returned result
         /\ if verified result then
              exists u, cm_user closest = Some u
                        /\ result_userId result = Some (userId u)
                        /\ distance result = Some (cm_distance closest)
            else
              message result = Some (noMatchMessage N2S closest)
              \/ (failing db = true
                  /\ message result = Some "Error during verification").
Proof.
  intros Hlen Hne Hpop.
  destruct (scanUsers_FirstMinimum newEmbedding cachedUsers)
    as (closest & Hscan & Hmin).
  { eapply Forall_impl; [ | exact Hpop ]. simpl. intros u Hu. congruence. }
  exists closest. split; [ exact Hscan | ]. split; [ exact Hmin | ].
  rewrite (verifyFace_after_scan N2S _ _ db closest Hlen Hne Hscan).
  unfold decisionOn.
  destruct (cm_user closest) as [u|] eqn:Hu.
  - destruct (cm_distance closest <? 0.6).
    + destruct (failing db) eqn:Hf; eexists; (split; [ reflexivity | ]); simpl.
      * right. split; reflexivity.
      * exists u. repeat split.
    + eexists. split; [ reflexivity | ]. simpl. left. reflexivity.
  - eexists. split; [ reflexivity | ]. simpl. left. reflexivity.
Qed.

Lemma verifyFace_selects_first_closest_user_witness :
  exists closest,
    scanUsers Scenario.v [Scenario.erin; Scenario.alice; Scenario.twin] noMatch
    = Returned closest
    /\ FirstMinimum Scenario.v [Scenario.erin; Scenario.alice; Scenario.twin] closest
    /\ exists result,
         fst (verifyFace Scenario.printLarge
                         [Scenario.erin; Scenario.alice; Scenario.twin] Scenario.v
                         Scenario.healthyDb) = Returned result
         /\ if verified result then
              exists u, cm_user closest = Some u
                        /\ result_userId result = Some (userId u)
                        /\ distance result = Some (cm_distance closest)
            else
              message result = Some (noMatchMessage Scenario.printLarge closest)
              \/ (failing Scenario.healthyDb = true
                  /\ message result = Some "Error during verification").
Proof.
  apply (verifyFace_selects_first_closest_user
           Scenario.printLarge [Scenario.erin; Scenario.alice; Scenario.twin]
           Scenario.v Scenario.healthyDb).
  - reflexivity.
  - discriminate.
  - repeat constructor.
Defined.

(** In that population [erin] is at distance 0.8 and [alice] and [twin] are
    both at distance 0: the scan ends on [alice], the first of the two. *)
Example first_of_two_closest_users_is_selected :
  scanUsers Scenario.v [Scenario.erin; Scenario.alice; Scenario.twin] noMatch
  = Returned {| cm_distance := 0; cm_user := Some Scenario.alice |}
  /\ calculateEuclideanDistance Scenario.v (embedding Scenario.erin) = Returned 0.8
  /\ calculateEuclideanDistance Scenario.v (embedding Scenario.twin) = Returned 0.
Proof. repeat split; vm_compute; reflexivity. Qed.

(** C1 as stated fails: finite embeddings of length 128 whose distance
    overflows to [+Infinity] never replace the initial candidate, so the
    single enrolled user, although at the least distance, is not selected. *)
Lemma overflowing_distances_select_no_user :
  List.length Scenario.huge = 128%nat
  /\ List.length (embedding Scenario.farAway) = 128%nat
  /\ forallb is_finite Scenario.huge = true
  /\ forallb is_finite (embedding Scenario.farAway) = true
  /\ calculateEuclideanDistance Scenario.huge (embedding Scenario.farAway)
     = Returned infinity
  /\ scanUsers Scenario.huge [Scenario.farAway] noMatch = Returned noMatch
  /\ (fun N2S => verifyFace N2S [Scenario.farAway] Scenario.huge Scenario.healthyDb)
     = (fun _ => (Returned (unverifiedResult
                              "No match found (closest: undefined Infinity)"),
                  Scenario.healthyDb)).
Proof. repeat split; vm_compute; reflexivity. Qed.

(** C2 (as amended).  For a probe of length 128 and a non-empty population
    whose embeddings all have length 128: when a user was selected at a
    distance strictly below 0.6, the result is verified, with that user's id
    and distance, and the event is logged, if the database accepts the write
    of the verification event, and it is unverified with the message "Error
    during verification" if the write fails; otherwise the result is
    unverified with the message "No match found (closest: <id> <distance with
    two decimals>)".  In particular a probe equal to the single enrolled
    embedding (finite components) is verified at distance 0 when the event is
    written, and a selected user at distance 0.8 gives the message ending in
    "<id> 0.80)". *)
Theorem verifyFace_threshold_decision
        (N2S : float -> string) (cachedUsers : list User)
        (newEmbedding : list float) (db : Db) :
  List.length newEmbedding = 128%nat ->
  cachedUsers <> [] ->
  Forall (fun u => List.length (embedding u) = 128%nat) cachedUsers ->
  exists closest,
    scanUsers newEmbedding cachedUsers noMatch = Returned closest
    /\ verifyFace N2S cachedUsers newEmbedding db
       = match cm_user closest with
         | Some user =>
             if cm_distance closest <? 0.6 then
               if failing db then
                 (Returned (unverifiedResult "Error during verification"), db)
               else
                 (Returned (verifiedResult user (cm_distance closest)),
                  logged (userId user) db)
             else
               (Returned (unverifiedResult
                            ("No match found (closest: " ++ userId user ++ " "
                             ++ toFixed2 N2S (cm_distance closest) ++ ")")), db)
         | None =>
             (Returned (unverifiedResult
                          ("No match found (closest: undefined "
                           ++ toFixed2 N2S (cm_distance closest) ++ ")")), db)
         end
    /\ (forall u, cachedUsers = [u] -> embedding u = newEmbedding ->
                  Forall (fun x => is_finite x = true) newEmbedding ->
                  verifyFace N2S cachedUsers newEmbedding db
                  = if failing db then
                      (Returned (unverifiedResult "Error during verification"), db)
                    else (Returned (verifiedResult u 0), logged (userId u) db))
    /\ (forall u, cm_user closest = Some u -> cm_distance closest = 0.8 ->
                  verifyFace N2S cachedUsers newEmbedding db
                  = (Returned (unverifiedResult
                                 ("No match found (closest: " ++ userId u
                                  ++ " 0.80)")), db)).
Proof.
  intros Hlen Hne Hpop.
  destruct (scanUsers_FirstMinimum newEmbedding cachedUsers)
    as (closest & Hscan & _).
  { eapply Forall_impl; [ | exact Hpop ]. simpl. intros u Hu. congruence. }
  exists closest. split; [ exact Hscan | ].
  rewrite (verifyFace_after_scan N2S _ _ db closest Hlen Hne Hscan).
  unfold decisionOn, noMatchMessage, closestUserIdText.
  split; [ | split ].
  - destruct (cm_user closest); reflexivity.
  - intros u -> Hu Hfin. simpl in Hscan. rewrite Hu in Hscan.
    rewrite (distance_to_self newEmbedding Hfin) in Hscan.
    change (0 <? cm_distance noMatch) with true in Hscan. cbv iota in Hscan.
    injection Hscan as <-. reflexivity.
  - intros u Hu Hd. rewrite Hu, Hd. reflexivity.
Qed.

Lemma verifyFace_threshold_decision_witness :
  (  exists closest,
    scanUsers Scenario.v [Scenario.alice] noMatch = Returned closest
    /\ verifyFace Scenario.printLarge [Scenario.alice] Scenario.v Scenario.healthyDb
       = match cm_user closest with
         | Some user =>
             if cm_distance closest <? 0.6 then
               if failing Scenario.healthyDb then
                 (Returned (unverifiedResult "Error during verification"), Scenario.healthyDb)
               else
                 (Returned (verifiedResult user (cm_distance closest)),
                  logged (userId user) Scenario.healthyDb)
             else
               (Returned (unverifiedResult
                            ("No match found (closest: " ++ userId user ++ " "
                             ++ toFixed2 Scenario.printLarge (cm_distance closest)
                             ++ ")")), Scenario.healthyDb)
         | None =>
             (Returned (unverifiedResult
                          ("No match found (closest: undefined "
                           ++ toFixed2 Scenario.printLarge (cm_distance closest)
                           ++ ")")), Scenario.healthyDb)
         end
    /\ (forall u, [Scenario.alice] = [u] -> embedding u = Scenario.v ->
                  Forall (fun x => is_finite x = true) Scenario.v ->
                  verifyFace Scenario.printLarge [Scenario.alice] Scenario.v Scenario.healthyDb
                  = if failing Scenario.healthyDb then
                      (Returned (unverifiedResult "Error during verification"), Scenario.healthyDb)
                    else (Returned (verifiedResult u 0), logged (userId u) Scenario.healthyDb))
    /\ (forall u, cm_user closest = Some u -> cm_distance closest = 0.8 ->
                  verifyFace Scenario.printLarge [Scenario.alice] Scenario.v Scenario.healthyDb
                  = (Returned (unverifiedResult
                                 ("No match found (closest: " ++ userId u
                                  ++ " 0.80)")), Scenario.healthyDb)))
  /\
  (  exists closest,
    scanUsers Scenario.noisy [Scenario.alice] noMatch = Returned closest
    /\ verifyFace Scenario.printLarge [Scenario.alice] Scenario.noisy Scenario.healthyDb
       = match cm_user closest with
         | Some user =>
             if cm_distance closest <? 0.6 then
               if failing Scenario.healthyDb then
                 (Returned (unverifiedResult "Error during verification"), Scenario.healthyDb)
               else
                 (Returned (verifiedResult user (cm_distance closest)),
                  logged (userId user) Scenario.healthyDb)
             else
               (Returned (unverifiedResult
                            ("No match found (closest: " ++ userId user ++ " "
                             ++ toFixed2 Scenario.printLarge (cm_distance closest)
                             ++ ")")), Scenario.healthyDb)
         | None =>
             (Returned (unverifiedResult
                          ("No match found (closest: undefined "
                           ++ toFixed2 Scenario.printLarge (cm_distance closest)
                           ++ ")")), Scenario.healthyDb)
         end
    /\ (forall u, [Scenario.alice] = [u] -> embedding u = Scenario.noisy ->
                  Forall (fun x => is_finite x = true) Scenario.noisy ->
                  verifyFace Scenario.printLarge [Scenario.alice] Scenario.noisy Scenario.healthyDb
                  = if failing Scenario.healthyDb then
                      (Returned (unverifiedResult "Error during verification"), Scenario.healthyDb)
                    else (Returned (verifiedResult u 0), logged (userId u) Scenario.healthyDb))
    /\ (forall u, cm_user closest = Some u -> cm_distance closest = 0.8 ->
                  verifyFace Scenario.printLarge [Scenario.alice] Scenario.noisy Scenario.healthyDb
                  = (Returned (unverifiedResult
                                 ("No match found (closest: " ++ userId u
                                  ++ " 0.80)")), Scenario.healthyDb)))
  /\
  (  exists closest,
    scanUsers Scenario.v [Scenario.alice] noMatch = Returned closest
    /\ verifyFace Scenario.printLarge [Scenario.alice] Scenario.v Scenario.failingDb
       = match cm_user closest with
         | Some user =>
             if cm_distance closest <? 0.6 then
               if failing Scenario.failingDb then
                 (Returned (unverifiedResult "Error during verification"), Scenario.failingDb)
               else
                 (Returned (verifiedResult user (cm_distance closest)),
                  logged (userId user) Scenario.failingDb)
             else
               (Returned (unverifiedResult
                            ("No match found (closest: " ++ userId user ++ " "
                             ++ toFixed2 Scenario.printLarge (cm_distance closest)
                             ++ ")")), Scenario.failingDb)
         | None =>
             (Returned (unverifiedResult
                          ("No match found (closest: undefined "
                           ++ toFixed2 Scenario.printLarge (cm_distance closest)
                           ++ ")")), Scenario.failingDb)
         end
    /\ (forall u, [Scenario.alice] = [u] -> embedding u = Scenario.v ->
                  Forall (fun x => is_finite x = true) Scenario.v ->
                  verifyFace Scenario.printLarge [Scenario.alice] Scenario.v Scenario.failingDb
                  = if failing Scenario.failingDb then
                      (Returned (unverifiedResult "Error during verification"), Scenario.failingDb)
                    else (Returned (verifiedResult u 0), logged (userId u) Scenario.failingDb))
    /\ (forall u, cm_user closest = Some u -> cm_distance closest = 0.8 ->
                  verifyFace Scenario.printLarge [Scenario.alice] Scenario.v Scenario.failingDb
                  = (Returned (unverifiedResult
                                 ("No match found (closest: " ++ userId u
                                  ++ " 0.80)")), Scenario.failingDb))).
Proof.
  split; [ | split ].
  - apply (verifyFace_threshold_decision
             Scenario.printLarge [Scenario.alice] Scenario.v Scenario.healthyDb).
    + reflexivity.
    + discriminate.
    + repeat constructor.
  - apply (verifyFace_threshold_decision
             Scenario.printLarge [Scenario.alice] Scenario.noisy Scenario.healthyDb).
    + reflexivity.
    + discriminate.
    + repeat constructor.
  - apply (verifyFace_threshold_decision
             Scenario.printLarge [Scenario.alice] Scenario.v Scenario.failingDb).
    + reflexivity.
    + discriminate.
    + repeat constructor.
Defined.

(** C2 as stated fails: the probe equals the single enrolled embedding, so
    the least distance is 0, below 0.6; yet when the database rejects the
    write of the verification event the result is unverified, with the
    generic error reason. *)
Lemma failed_event_write_unverifies_exact_match :
  scanUsers Scenario.v [Scenario.alice] noMatch
  = Returned {| cm_distance := 0; cm_user := Some Scenario.alice |}
  /\ (0 <? 0.6) = true
  /\ (fun N2S => verifyFace N2S [Scenario.alice] Scenario.v Scenario.failingDb)
     = (fun _ => (Returned (unverifiedResult "Error during verification"),
                  Scenario.failingDb)).
Proof. repeat split; vm_compute; reflexivity. Qed.

End MatcherClaims.

Section MatcherEffects.

Import MatcherOutcome.
Local Open Scope float_scope.



(** C6.  A probe whose length is not 128 is rejected, whatever the
    population and the database: [verifyFace] returns normally, unverified,
    with the reason "Invalid embedding length: <length>", and leaves the
    database as it was. *)
Theorem verifyFace_rejects_invalid_length
        (N2S : float -> string) (cachedUsers : list User)
        (newEmbedding : list float) (db : Db) :
  List.length newEmbedding <> 128%nat ->
  verifyFace N2S cachedUsers newEmbedding db
  = (Returned {| verified := false; result_userId := None; distance := None;
                 message := Some ("Invalid embedding length: "
                                  ++ natToString (List.length newEmbedding)) |},
     db).
Proof. apply verifyFace_invalid_length. Qed.

Lemma verifyFace_rejects_invalid_length_witness :
  verifyFace Scenario.printLarge [Scenario.alice] [0.5; 0.5; 0.5] Scenario.healthyDb
  = (Returned {| verified := false; result_userId := None; distance := None;
                 message := Some ("Invalid embedding length: "
                                  ++ natToString (List.length [0.5; 0.5; 0.5])) |},
     Scenario.healthyDb).
Proof.
  apply (verifyFace_rejects_invalid_length
           Scenario.printLarge [Scenario.alice] [0.5; 0.5; 0.5] Scenario.healthyDb).
  simpl. lia.
Defined.

End MatcherEffects.

(** ** The Gate Link *)

Module GateFacts.

(** What the hook state maintains: authenticated implies connected, connected
    implies that a device is held, and an open link implies connected. *)
Definition GateInvariant (g : Gate) : Prop :=
  (isAuthenticated g = true -> isConnected g = true)
  /\ (isConnected g = true -> device g <> None)
  /\ (linkOpen g = true -> isConnected g = true).

Ltac gate_unfold :=
  unfold handleRetryPermissions, cleanup, connectToESP32, disconnectFromESP32,
    sendCommand, checkPermissions, requestAndroidPermissions, device_connect,
    device_disconnect, device_write, onDataReceived,
    setIsConnected, setIsAuthenticated, setDevice, addResponse, setHasPermissions,
    setLinkOpen, addListener, transmit, Alert_alert,
    try_catch, try_finally, bind, ret, throw, get, modify, liftOutcome.

Ltac gate_cases :=
  repeat (match goal with
          | |- context [match ?x with Returned _ => _ | Thrown _ => _ end] => destruct x
          | |- context [match find ?f ?l with _ => _ end] => destruct (find f l)
          | |- context [match ?x with Some _ => _ | None => _ end] => destruct x eqn:?
          | |- context [if negb ?b then _ else _] => destruct b eqn:?
          | |- context [if ?b then _ else _] => destruct b eqn:?
          end; simpl).

Ltac gate_finish :=
  repeat split; intros; try discriminate; try congruence;
  first [ left; congruence | right; eexists; reflexivity | right; eexists; eassumption
        | eexists; reflexivity | eexists; eassumption ].

Ltac gate_solve :=
  first [ solve [ gate_finish ] | solve [ left; gate_finish ] | solve [ right; gate_finish ] ].

(** The effect of a call on the four cells that matter: either none, or the
    one of a successful connection. *)
Definition unchanged (g g' : Gate) : Prop :=
  isConnected g' = isConnected g
  /\ isAuthenticated g' = isAuthenticated g
  /\ linkOpen g' = linkOpen g
  /\ (device g' = device g \/ exists d, device g' = Some d).

Definition connected (g g' : Gate) : Prop :=
  isConnected g' = true
  /\ isAuthenticated g' = isAuthenticated g
  /\ linkOpen g' = true
  /\ exists d, device g' = Some d.

Definition disconnected (g g' : Gate) : Prop :=
  isConnected g' = false
  /\ isAuthenticated g' = false
  /\ linkOpen g' = false
  /\ device g' = None.

Lemma connectToESP32_effect env g :
  unchanged g (snd (connectToESP32 env g)) \/ connected g (snd (connectToESP32 env g)).
Proof.
  destruct env as [eb pc pr bd cr aw]. unfold unchanged, connected.
  gate_unfold; simpl. gate_cases.
  all: gate_solve.
Qed.

Lemma handleRetryPermissions_effect env g :
  unchanged g (snd (handleRetryPermissions env g))
  \/ connected g (snd (handleRetryPermissions env g)).
Proof.
  destruct env as [eb pc pr bd cr aw]. unfold unchanged, connected.
  gate_unfold; simpl. gate_cases.
  all: gate_solve.
Qed.

Lemma disconnectFromESP32_effect answer g :
  (unchanged g (snd (disconnectFromESP32 answer g))
   /\ (answer = Returned tt -> isConnected g = false \/ device g = None))
  \/ disconnected g (snd (disconnectFromESP32 answer g)).
Proof.
  unfold unchanged, disconnected. gate_unfold; simpl. gate_cases.
  all: gate_solve.
Qed.

(** The cleanup does nothing: the [device] of the first render is [null]. *)
Lemma cleanup_effect answer g : cleanup answer g = (Returned tt, g).
Proof. reflexivity. Qed.

Lemma sendCommand_effect command answer g :
  unchanged g (snd (sendCommand command answer g)).
Proof.
  unfold unchanged. gate_unfold; simpl. gate_cases.
  all: gate_solve.
Qed.

Lemma onDataReceived_effect data g :
  let g' := snd (onDataReceived data g) in
  isConnected g' = isConnected g
  /\ linkOpen g' = linkOpen g
  /\ device g' = device g
  /\ isAuthenticated g'
     = if (trim data =? "AUTH_SUCCESS")%string then true
       else if (trim data =? "AUTH_FAILED")%string then false
            else isAuthenticated g.
Proof.
  gate_unfold; simpl.
  destruct (trim data =? "AUTH_SUCCESS")%string; simpl; auto.
  destruct (trim data =? "AUTH_FAILED")%string; simpl; auto.
  destruct (trim data =? "NOT_AUTHENTICATED")%string; simpl; auto.
Qed.

Lemma deliver_effect data n : forall g,
  let g' := snd (deliver n data g) in
  isConnected g' = isConnected g
  /\ linkOpen g' = linkOpen g
  /\ device g' = device g
  /\ (isAuthenticated g' = isAuthenticated g
      \/ isAuthenticated g' = false
      \/ trim data = "AUTH_SUCCESS").
Proof.
  induction n as [|n IH]; intros g; simpl.
  - auto.
  - unfold bind. destruct (onDataReceived data g) as [o g1] eqn:E.
    pose proof (onDataReceived_effect data g) as H. rewrite E in H. simpl in H.
    destruct H as (Hc & Hl & Hd & Ha).
    assert (Ho : o = Returned tt).
    { revert E. gate_unfold; simpl.
      destruct (trim data =? "AUTH_SUCCESS")%string; simpl; [ congruence | ].
      destruct (trim data =? "AUTH_FAILED")%string; simpl; [ congruence | ].
      destruct (trim data =? "NOT_AUTHENTICATED")%string; simpl; congruence. }
    subst o. destruct (IH g1) as (Hc' & Hl' & Hd' & Ha'). simpl in *.
    repeat split; try congruence.
    destruct (trim data =? "AUTH_SUCCESS")%string eqn:Es.
    + right. right. apply String.eqb_eq. exact Es.
    + destruct Ha' as [Ha'|[Ha'|Ha']]; auto.
      destruct (trim data =? "AUTH_FAILED")%string.
      * right. left. congruence.
      * left. congruence.
Qed.

Lemma step_preserves_invariant g ev g' :
  GateInvariant g -> step g ev = Some g' -> GateInvariant g'.
Proof.
  unfold GateInvariant. intros (Ha & Hd & Hl) Hstep.
  destruct ev as [env|answer|command answer|env|answer|data| ]; simpl in Hstep.
  - injection Hstep as <-.
    destruct (connectToESP32_effect env g) as [(Ec & Ea & El & Ed)|(Ec & Ea & El & d & Ed)];
      rewrite Ec, Ea, El; repeat split; auto.
    + intros H. destruct Ed as [Ed|[d Ed]]; rewrite Ed; [ auto | discriminate ].
    + rewrite Ed. discriminate.
  - injection Hstep as <-.
    destruct (disconnectFromESP32_effect answer g)
      as [((Ec & Ea & El & Ed) & _)|(Ec & Ea & El & Ed)];
      rewrite Ec, Ea, El; repeat split; auto; try discriminate.
    intros H. destruct Ed as [Ed|[d Ed]]; rewrite Ed; [ auto | discriminate ].
  - injection Hstep as <-.
    destruct (sendCommand_effect command answer g) as (Ec & Ea & El & Ed).
    rewrite Ec, Ea, El; repeat split; auto.
    intros H. destruct Ed as [Ed|[d Ed]]; rewrite Ed; [ auto | discriminate ].
  - injection Hstep as <-.
    destruct (handleRetryPermissions_effect env g)
      as [(Ec & Ea & El & Ed)|(Ec & Ea & El & d & Ed)];
      rewrite Ec, Ea, El; repeat split; auto.
    + intros H. destruct Ed as [Ed|[d Ed]]; rewrite Ed; [ auto | discriminate ].
    + rewrite Ed. discriminate.
  - injection Hstep as <-. repeat split; auto.
  - destruct (linkOpen g) eqn:Hopen; [ | discriminate ]. injection Hstep as <-.
    destruct (deliver_effect data (listeners g) g) as (Ec & El & Ed & Ea).
    rewrite Ec, El, Ed, Hopen. repeat split; auto.
  - injection Hstep as <-. unfold setLinkOpen, modify. simpl.
    repeat split; auto. discriminate.
Qed.

Lemma reachable_invariant g : reachable g -> GateInvariant g.
Proof.
  induction 1 as [|g ev g' _ IH Hstep].
  - unfold GateInvariant. simpl. repeat split; discriminate.
  - eapply step_preserves_invariant; eassumption.
Qed.

(** Only a received AUTH_SUCCESS line raises [isAuthenticated]. *)
Lemma step_raises_isAuthenticated g ev g' :
  step g ev = Some g' ->
  isAuthenticated g = false -> isAuthenticated g' = true ->
  exists data, ev = DataReceived data /\ trim data = "AUTH_SUCCESS"
               /\ linkOpen g = true.
Proof.
  intros Hstep Hbefore Hafter.
  destruct ev as [env|answer|command answer|env|answer|data| ]; simpl in Hstep.
  - injection Hstep as <-.
    destruct (connectToESP32_effect env g) as [(_ & Ea & _)|(_ & Ea & _)]; congruence.
  - injection Hstep as <-.
    destruct (disconnectFromESP32_effect answer g)
      as [((_ & Ea & _) & _)|(_ & Ea & _)]; congruence.
  - injection Hstep as <-.
    destruct (sendCommand_effect command answer g) as (_ & Ea & _). congruence.
  - injection Hstep as <-.
    destruct (handleRetryPermissions_effect env g) as [(_ & Ea & _)|(_ & Ea & _)];
      congruence.
  - injection Hstep as <-. congruence.
  - destruct (linkOpen g) eqn:Hopen; [ | discriminate ]. injection Hstep as <-.
    destruct (deliver_effect data (listeners g) g) as (_ & _ & _ & [Ea|[Ea|Ea]]);
      try congruence.
    exists data. auto.
  - injection Hstep as <-. simpl in Hafter. congruence.
Qed.

End GateFacts.

Module GateScenario.

Definition gateDevice : BluetoothDevice := {| name := "ESP32_Gate" |}.

(** The platform grants everything and the gate controller is bonded. *)
Definition allGranted : ConnectAnswers :=
  {| enableBluetooth := Returned tt;
     permissionCheck := Returned true;
     permissionRequest := Returned true;
     bondedDevices := Returned [gateDevice];
     connectResult := Returned true;
     authWrite := Returned tt |}.

(** The hook after the connection of the mount effect: connected, the
    AUTHENTICATE line written, no answer received yet. *)
Definition connectedGate : Gate := snd (connectToESP32 allGranted initialGate).

(** The hook once the gate controller has answered AUTH_SUCCESS. *)
Definition authenticated : Gate :=
  snd (deliver (listeners connectedGate) ("AUTH_SUCCESS" ++ LF) connectedGate).

End GateScenario.

Section GateClaims.

Import GateFacts.

(** C3 (as amended).  When the link is not both connected and authenticated,
    [sendCommand] of a command that does not start with AUTHENTICATE writes
    nothing to the transport, changes nothing in the hook state and returns
    normally after one alert: "Must authenticate before sending commands"
    when the hook is connected and holds a device, "Not connected to ESP32"
    when it is not. *)
Theorem sendCommand_rejects_without_transport_write
        (command : string) (answer : Outcome unit) (g : Gate) :
  startsWith command "AUTHENTICATE" = false ->
  isConnected g && isAuthenticated g = false ->
  sendCommand command answer g
  = (Returned tt,
     {| isConnected := isConnected g; isAuthenticated := isAuthenticated g;
        device := device g; responses := responses g;
        hasPermissions := hasPermissions g;
        linkOpen := linkOpen g; listeners := listeners g;
        written := written g;
        alerts := (alerts g
                   ++ [("Error",
                        if isConnected g
                           && match device g with Some _ => true | None => false end
                        then "Must authenticate before sending commands"
                        else "Not connected to ESP32")])%list |}).
Proof.
  intros Hcmd Hstate.
  destruct g as [connected authenticated dev resp perms link n wr al].
  unfold sendCommand, bind, get, Alert_alert, modify. simpl in *. rewrite Hcmd.
  destruct connected, dev; simpl in *; subst; reflexivity.
Qed.

Lemma sendCommand_rejects_without_transport_write_witness :
  sendCommand "FACE_DETECTED" (Returned tt) GateScenario.connectedGate
  = (Returned tt,
     {| isConnected := isConnected GateScenario.connectedGate;
        isAuthenticated := isAuthenticated GateScenario.connectedGate;
        device := device GateScenario.connectedGate;
        responses := responses GateScenario.connectedGate;
        hasPermissions := hasPermissions GateScenario.connectedGate;
        linkOpen := linkOpen GateScenario.connectedGate;
        listeners := listeners GateScenario.connectedGate;
        written := written GateScenario.connectedGate;
        alerts := (alerts GateScenario.connectedGate
                   ++ [("Error",
                        if isConnected GateScenario.connectedGate
                           && match device GateScenario.connectedGate with
                              | Some _ => true
                              | None => false
                              end
                        then "Must authenticate before sending commands"
                        else "Not connected to ESP32")])%list |}).
Proof.
  apply (sendCommand_rejects_without_transport_write
           "FACE_DETECTED" (Returned tt) GateScenario.connectedGate).
  - reflexivity.
  - reflexivity.
Defined.

(** C3 as stated fails: before any connection the state is not Authenticated
    and FACE_DETECTED does not start with AUTHENTICATE, yet what is reported
    is that the link is not connected, not that it is not authenticated.  (No
    line is written, as the claim says.) *)
Lemma sendCommand_when_disconnected_reports_not_connected :
  isConnected initialGate && isAuthenticated initialGate = false
  /\ startsWith "FACE_DETECTED" "AUTHENTICATE" = false
  /\ sendCommand "FACE_DETECTED" (Returned tt) initialGate
     = (Returned tt,
        {| isConnected := false; isAuthenticated := false; device := None;
           responses := []; hasPermissions := false;
           linkOpen := false; listeners := 0; written := [];
           alerts := [("Error", "Not connected to ESP32")] |}).
Proof. repeat split. Qed.

(** C10.  In every reachable state of the Gate Link, authenticated implies
    connected.  [isAuthenticated] becomes true only when a line that trims to
    AUTH_SUCCESS is received, on an open link of a connected hook; and an
    explicit disconnection whose [device.disconnect()] does not throw leaves
    both [isConnected] and [isAuthenticated] false.  The teardown does not
    reset them: the cleanup of the mount effect tests the [device] of the
    first render, which is [null], so it never disconnects and leaves the
    hook as it is, connected and authenticated if it was. *)
Theorem authenticated_implies_connected (g : Gate) :
  reachable g ->
  (isAuthenticated g = true -> isConnected g = true)
  /\ (forall ev g',
         step g ev = Some g' ->
         isAuthenticated g = false -> isAuthenticated g' = true ->
         exists data, ev = DataReceived data /\ trim data = "AUTH_SUCCESS"
                      /\ linkOpen g = true /\ isConnected g = true)
  /\ (forall g',
         step g (Disconnect (Returned tt)) = Some g' ->
         isConnected g' = false /\ isAuthenticated g' = false)
  /\ (forall answer, step g (Cleanup answer) = Some g).
Proof.
  intros Hreach.
  destruct (reachable_invariant g Hreach) as (Ha & Hd & Hl).
  split; [ exact Ha | split; [ | split ] ].
  - intros ev g' Hstep Hbefore Hafter.
    destruct (step_raises_isAuthenticated g ev g' Hstep Hbefore Hafter)
      as (data & -> & Htrim & Hopen).
    exists data. auto.
  - assert (Hoff : isConnected g = false \/ device g = None ->
                   isConnected g = false /\ isAuthenticated g = false).
    { intros [H|H].
      - split; [ exact H | ]. destruct (isAuthenticated g); [ | reflexivity ].
        rewrite Ha in H; [ discriminate | reflexivity ].
      - destruct (isConnected g) eqn:Hc.
        + exfalso. apply Hd; [ reflexivity | exact H ].
        + split; [ reflexivity | ]. destruct (isAuthenticated g); [ | reflexivity ].
          discriminate Ha. reflexivity. }
    intros g' Hstep. simpl in Hstep. injection Hstep as <-.
    destruct (disconnectFromESP32_effect (Returned tt) g)
      as [((Ec & Ea & _) & Hwhy)|(Ec & Ea & _)]; [ | auto ].
    rewrite Ec, Ea. apply Hoff. apply Hwhy. reflexivity.
  - intros answer. reflexivity.
Qed.

Lemma authenticated_implies_connected_witness :
  (isAuthenticated GateScenario.authenticated = true ->
   isConnected GateScenario.authenticated = true)
  /\ (forall ev g',
         step GateScenario.authenticated ev = Some g' ->
         isAuthenticated GateScenario.authenticated = false ->
         isAuthenticated g' = true ->
         exists data, ev = DataReceived data /\ trim data = "AUTH_SUCCESS"
                      /\ linkOpen GateScenario.authenticated = true
                      /\ isConnected GateScenario.authenticated = true)
  /\ (forall g',
         step GateScenario.authenticated (Disconnect (Returned tt)) = Some g' ->
         isConnected g' = false /\ isAuthenticated g' = false)
  /\ (forall answer,
         step GateScenario.authenticated (Cleanup answer)
         = Some GateScenario.authenticated).
Proof.
  apply (authenticated_implies_connected GateScenario.authenticated).
  apply (reachable_step GateScenario.connectedGate
                        (DataReceived ("AUTH_SUCCESS" ++ LF))).
  - apply (reachable_step initialGate (Connect GateScenario.allGranted)).
    + apply reachable_initial.
    + cbv delta [step GateScenario.connectedGate] beta iota. reflexivity.
  - vm_compute. reflexivity.
Defined.

(** The teardown of a connected, authenticated hook: the line that opened
    the gate controller's session is never closed. *)
Example cleanup_leaves_the_link_authenticated :
  isConnected GateScenario.authenticated = true
  /\ isAuthenticated GateScenario.authenticated = true
  /\ linkOpen GateScenario.authenticated = true
  /\ cleanup (Returned tt) GateScenario.authenticated
     = (Returned tt, GateScenario.authenticated).
Proof. repeat split. Qed.

End GateClaims.

(** ** The capture trigger *)

Module TriggerFacts.

Local Open Scope Z_scope.

(** The capture times are at least 3000 ms apart, starting from [last]. *)
Fixpoint SpacedFrom (last : Z) (times : list Z) : Prop :=
  match times with
  | [] => True
  | t :: rest => 3000 <= t - last /\ SpacedFrom t rest
  end.

Lemma autoCapture_fired detections frame lastCaptureTime now :
  fired (autoCapture detections frame lastCaptureTime now) = true ->
  3000 <= now - lastCaptureTime
  /\ nextCaptureTime (autoCapture detections frame lastCaptureTime now) lastCaptureTime
     = now.
Proof.
  unfold autoCapture.
  destruct (List.length detections =? 0)%nat; [ discriminate | ].
  destruct (now - lastCaptureTime <? 3000) eqn:Hcool; [ discriminate | ].
  apply Z.ltb_ge in Hcool.
  destruct (find (isValidFace frame) detections); [ | discriminate ].
  intros _. split; [ exact Hcool | reflexivity ].
Qed.

Lemma autoCapture_not_fired detections frame lastCaptureTime now :
  fired (autoCapture detections frame lastCaptureTime now) = false ->
  nextCaptureTime (autoCapture detections frame lastCaptureTime now) lastCaptureTime
  = lastCaptureTime.
Proof.
  unfold autoCapture.
  destruct (List.length detections =? 0)%nat; [ reflexivity | ].
  destruct (now - lastCaptureTime <? 3000); [ reflexivity | ].
  destruct (find (isValidFace frame) detections); [ discriminate | reflexivity ].
Qed.

Lemma autoCapture_cooldown detections frame lastCaptureTime now :
  now - lastCaptureTime < 3000 ->
  autoCapture detections frame lastCaptureTime now = []
  \/ autoCapture detections frame lastCaptureTime now = [SetStatus "No face detected"].
Proof.
  intros Hcool. apply Z.ltb_lt in Hcool. unfold autoCapture. rewrite Hcool.
  destruct (List.length detections =? 0)%nat; auto.
Qed.

(** The calls of an invocation: nothing that concerns captures, or the
    detections and metrics followed by the calls of the auto-capture logic. *)
Lemma frameProcessor_calls input lastCaptureTime :
  (fired (frameProcessor input lastCaptureTime) = false
   /\ nextCaptureTime (frameProcessor input lastCaptureTime) lastCaptureTime
      = lastCaptureTime)
  \/ exists detections,
       fired (frameProcessor input lastCaptureTime)
       = fired (autoCapture detections (frame input) lastCaptureTime (now input))
       /\ nextCaptureTime (frameProcessor input lastCaptureTime) lastCaptureTime
          = nextCaptureTime
              (autoCapture detections (frame input) lastCaptureTime (now input))
              lastCaptureTime.
Proof.
  unfold frameProcessor.
  destruct (negb (modelPresent input) || scanning input); [ left; auto | ].
  destruct (negb (modelLoaded input)); [ left; auto | ].
  destruct (outputs input) as [[boxes scores]|e]; [ | left; auto ].
  destruct (parseDetections (frame input) boxes scores) as [detections|e];
    [ | left; auto ].
  right. exists detections. split; reflexivity.
Qed.

Lemma frameProcessor_fired input lastCaptureTime :
  fired (frameProcessor input lastCaptureTime) = true ->
  3000 <= now input - lastCaptureTime
  /\ nextCaptureTime (frameProcessor input lastCaptureTime) lastCaptureTime = now input.
Proof.
  destruct (frameProcessor_calls input lastCaptureTime)
    as [[Hf _]|(detections & Hf & Hn)]; rewrite Hf; [ discriminate | ].
  rewrite Hn. apply autoCapture_fired.
Qed.

Lemma frameProcessor_not_fired input lastCaptureTime :
  fired (frameProcessor input lastCaptureTime) = false ->
  nextCaptureTime (frameProcessor input lastCaptureTime) lastCaptureTime
  = lastCaptureTime.
Proof.
  destruct (frameProcessor_calls input lastCaptureTime)
    as [[_ Hn]|(detections & Hf & Hn)]; [ auto | ].
  rewrite Hf, Hn. apply autoCapture_not_fired.
Qed.

(** The frames of [inputs], each followed by a render before the next one
    arrives: every frame is processed by a worklet that has seen the
    [lastCaptureTime] written by the frames before it. *)
Definition renderedAfterEach (inputs : list FrameInput) : list TriggerEvent :=
  flat_map (fun input => [FrameArrives input; Rerender]) inputs.

Lemma captureTimes_spaced inputs : forall lastCaptureTime,
  SpacedFrom lastCaptureTime
             (captureTimes (renderedAfterEach inputs) (rendered lastCaptureTime)).
Proof.
  induction inputs as [|input inputs IH]; intros lastCaptureTime; simpl; [ exact I | ].
  destruct (fired (frameProcessor input lastCaptureTime)) eqn:Hf.
  - destruct (frameProcessor_fired _ _ Hf) as [Hcool ->].
    split; [ exact Hcool | apply IH ].
  - rewrite (frameProcessor_not_fired _ _ Hf). apply IH.
Qed.

Lemma SpacedFrom_In times : forall last t,
  SpacedFrom last times -> In t times -> 3000 <= t - last.
Proof.
  induction times as [|t0 times IH]; intros last t Hs Hin; [ destruct Hin | ].
  destruct Hs as [H0 Hrest]. destruct Hin as [<-|Hin]; [ exact H0 | ].
  specialize (IH t0 t Hrest Hin). lia.
Qed.

Lemma SpacedFrom_pairs times : forall last i j ti tj,
  SpacedFrom last times -> (i < j)%nat ->
  nth_error times i = Some ti -> nth_error times j = Some tj ->
  3000 <= tj - ti.
Proof.
  induction times as [|t0 times IH]; intros last i j ti tj Hs Hij Hi Hj.
  - destruct i; discriminate.
  - destruct Hs as [_ Hrest]. destruct j as [|j]; [ lia | ].
    destruct i as [|i]; simpl in Hi, Hj.
    + injection Hi as <-. apply nth_error_In in Hj.
      eapply SpacedFrom_In; eassumption.
    + apply (IH t0 i j ti tj Hrest); [ lia | assumption | assumption ].
Qed.

Lemma find_first {A} (f : A -> bool) (l : list A) :
  match find f l with
  | Some x =>
      exists before after, l = (before ++ x :: after)%list /\ f x = true
                           /\ forall y, In y before -> f y = false
  | None => forall y, In y l -> f y = false
  end.
Proof.
  induction l as [|a l IH]; simpl.
  - intros y [].
  - destruct (f a) eqn:Ha.
    + exists [], l. repeat split; auto. intros y [].
    + destruct (find f l) as [x|].
      * destruct IH as (before & after & -> & Hx & Hbefore).
        exists (a :: before), after. repeat split; auto.
        intros y [<-|Hy]; auto.
      * intros y [<-|Hy]; auto.
Qed.

End TriggerFacts.

Module TriggerScenario.

Local Open Scope float_scope.

Definition portrait : Frame := {| frame_width := 720; frame_height := 1280 |}.

(** A face in the middle of the frame, half the frame wide, scored 0.9. *)
Definition centeredFace : FaceDetection :=
  {| det_x := 180; det_y := 460; det_width := 360; det_height := 360;
     det_score := 0.9 |}.

(** A face in a corner of the frame. *)
Definition cornerFace : FaceDetection :=
  {| det_x := 0; det_y := 0; det_width := 300; det_height := 300;
     det_score := 0.95 |}.

(** A frame processed at [time], in which the detection model finds
    [centeredFace]. *)
Definition faceAt (time : Z) : FrameInput :=
  {| modelPresent := true; modelLoaded := true; scanning := false;
     frame := portrait;
     outputs := Returned ([ {| ymin := 0.359375; xmin := 0.25;
                               ymax := 0.640625; xmax := 0.75 |} ], [0.9]);
     now := time |}.

End TriggerScenario.

Section TriggerClaims.

Import TriggerFacts.

(** C7.  While less than 3000 ms have passed since the [lastCaptureTime] that
    the worklet closes over, the auto-capture logic, and so the frame
    processor, dispatches no capture and writes no [lastCaptureTime],
    whatever the detections.  When every frame is processed by a worklet
    created after the frames before it have written [lastCaptureTime], every
    capture is at least 3000 ms after [lastCaptureTime] and any two captures
    are at least 3000 ms apart.  Without that render in between the cooldown
    fails: two frames showing a valid face at 5000 ms and 5033 ms, processed
    by the worklet mounted with [lastCaptureTime = 0], both dispatch a
    capture; with a render between them only the first does. *)
Theorem capture_cooldown :
  (forall detections frame lastCaptureTime now,
      (now - lastCaptureTime < 3000)%Z ->
      fired (autoCapture detections frame lastCaptureTime now) = false
      /\ nextCaptureTime (autoCapture detections frame lastCaptureTime now)
                         lastCaptureTime = lastCaptureTime)
  /\ (forall input lastCaptureTime,
         (now input - lastCaptureTime < 3000)%Z ->
         fired (frameProcessor input lastCaptureTime) = false
         /\ nextCaptureTime (frameProcessor input lastCaptureTime) lastCaptureTime
            = lastCaptureTime)
  /\ (forall inputs lastCaptureTime t,
         In t (captureTimes (renderedAfterEach inputs) (rendered lastCaptureTime)) ->
         (3000 <= t - lastCaptureTime)%Z)
  /\ (forall inputs lastCaptureTime i j ti tj,
         (i < j)%nat ->
         nth_error (captureTimes (renderedAfterEach inputs) (rendered lastCaptureTime)) i
         = Some ti ->
         nth_error (captureTimes (renderedAfterEach inputs) (rendered lastCaptureTime)) j
         = Some tj ->
         (3000 <= tj - ti)%Z)
  /\ captureTimes [FrameArrives (TriggerScenario.faceAt 5000);
                   FrameArrives (TriggerScenario.faceAt 5033)] (rendered 0)
     = [5000%Z; 5033%Z]
  /\ captureTimes [FrameArrives (TriggerScenario.faceAt 5000); Rerender;
                   FrameArrives (TriggerScenario.faceAt 5033)] (rendered 0)
     = [5000%Z].
Proof.
  split; [ | split; [ | split; [ | split; [ | split ] ] ] ].
  - intros detections frame lastCaptureTime now Hcool.
    destruct (autoCapture_cooldown detections frame lastCaptureTime now Hcool)
      as [-> | ->]; split; reflexivity.
  - intros input lastCaptureTime Hcool.
    destruct (fired (frameProcessor input lastCaptureTime)) eqn:Hf.
    + destruct (frameProcessor_fired _ _ Hf) as [H _]. lia.
    + split; [ reflexivity | apply frameProcessor_not_fired; exact Hf ].
  - intros inputs lastCaptureTime t Hin.
    eapply SpacedFrom_In; [ apply captureTimes_spaced | exact Hin ].
  - intros inputs lastCaptureTime i j ti tj Hij Hi Hj.
    eapply SpacedFrom_pairs; [ apply captureTimes_spaced | eassumption .. ].
  - vm_compute. reflexivity.
  - vm_compute. reflexivity.
Qed.

Local Open Scope float_scope.

(** C8.  With a non-empty list of detections and the cooldown elapsed, the
    auto-capture logic dispatches a capture, stamped [now], exactly when some
    detection is a valid face, and the face that [find] returns is the first
    valid one in the order of the list; when none is valid nothing is
    dispatched.  A face is valid when its centre is less than 0.2 x
    [frame.width] away from the frame's centre on both axes, its width and
    height are within [0.3 x frame.width, 0.7 x frame.width], and its score
    is above 0.7. *)
Theorem autoCapture_selects_first_valid_face
        (detections : list FaceDetection) (frame : Frame)
        (lastCaptureTime now : Z) :
  detections <> [] ->
  (3000 <= now - lastCaptureTime)%Z ->
  (forall det,
      isValidFace frame det = true <->
      ((abs (det_x det + det_width det / 2 - frame_width frame / 2)
          <? frame_width frame * 0.2) = true
       /\ (abs (det_y det + det_height det / 2 - frame_height frame / 2)
             <? frame_width frame * 0.2) = true)
      /\ ((frame_width frame * 0.3 <=? det_width det) = true
          /\ (det_width det <=? frame_width frame * 0.7) = true
          /\ (frame_width frame * 0.3 <=? det_height det) = true
          /\ (det_height det <=? frame_width frame * 0.7) = true)
      /\ (0.7 <? det_score det) = true)
  /\ ((exists before validFace after,
          detections = (before ++ validFace :: after)%list
          /\ isValidFace frame validFace = true
          /\ (forall det, In det before -> isValidFace frame det = false)
          /\ find (isValidFace frame) detections = Some validFace
          /\ autoCapture detections frame lastCaptureTime now
             = [SetLastCaptureTime now; CaptureAndVerify])
      \/ ((forall det, In det detections -> isValidFace frame det = false)
          /\ find (isValidFace frame) detections = None
          /\ autoCapture detections frame lastCaptureTime now = [])).
Proof.
  intros Hne Hcool. split.
  - intros det. unfold isValidFace. cbv zeta.
    rewrite !andb_true_iff. tauto.
  - unfold autoCapture.
    destruct detections as [|d0 rest]; [ congruence | ].
    change (List.length (d0 :: rest) =? 0)%nat with false. cbv iota.
    apply Z.ltb_ge in Hcool. rewrite Hcool.
    pose proof (find_first (isValidFace frame) (d0 :: rest)) as Hfind.
    destruct (find (isValidFace frame) (d0 :: rest)) as [validFace|].
    + left. destruct Hfind as (before & after & Heq & Hvalid & Hbefore).
      exists before, validFace, after. auto.
    + right. auto.
Qed.

Lemma autoCapture_selects_first_valid_face_witness :
  (forall det,
      isValidFace TriggerScenario.portrait det = true <->
      ((abs (det_x det + det_width det / 2 - frame_width TriggerScenario.portrait / 2)
          <? frame_width TriggerScenario.portrait * 0.2) = true
       /\ (abs (det_y det + det_height det / 2
                - frame_height TriggerScenario.portrait / 2)
             <? frame_width TriggerScenario.portrait * 0.2) = true)
      /\ ((frame_width TriggerScenario.portrait * 0.3 <=? det_width det) = true
          /\ (det_width det <=? frame_width TriggerScenario.portrait * 0.7) = true
          /\ (frame_width TriggerScenario.portrait * 0.3 <=? det_height det) = true
          /\ (det_height det <=? frame_width TriggerScenario.portrait * 0.7) = true)
      /\ (0.7 <? det_score det) = true)
  /\ ((exists before validFace after,
          [TriggerScenario.cornerFace; TriggerScenario.centeredFace]
          = (before ++ validFace :: after)%list
          /\ isValidFace TriggerScenario.portrait validFace = true
          /\ (forall det, In det before ->
                          isValidFace TriggerScenario.portrait det = false)
          /\ find (isValidFace TriggerScenario.portrait)
                  [TriggerScenario.cornerFace; TriggerScenario.centeredFace]
             = Some validFace
          /\ autoCapture [TriggerScenario.cornerFace; TriggerScenario.centeredFace]
                         TriggerScenario.portrait 1000 5000
             = [SetLastCaptureTime 5000; CaptureAndVerify])
      \/ ((forall det,
              In det [TriggerScenario.cornerFace; TriggerScenario.centeredFace] ->
              isValidFace TriggerScenario.portrait det = false)
          /\ find (isValidFace TriggerScenario.portrait)
                  [TriggerScenario.cornerFace; TriggerScenario.centeredFace] = None
          /\ autoCapture [TriggerScenario.cornerFace; TriggerScenario.centeredFace]
                         TriggerScenario.portrait 1000 5000 = [])).
Proof.
  apply (autoCapture_selects_first_valid_face
           [TriggerScenario.cornerFace; TriggerScenario.centeredFace]
           TriggerScenario.portrait 1000 5000).
  - discriminate.
  - lia.
Defined.

End TriggerClaims.

(** ** The verification pipeline *)

Module PipelineFacts.

Import MatcherOutcome.

(** The message of the first collaborator that fails during a run, if any:
    the camera, the resizer, the file system, the decoder, the model. *)
Definition firstFailure (env : CaptureAnswers) : option string :=
  match takePhoto env with
  | Thrown e => Some e
  | Returned _ =>
      match createResizedImage env with
      | Thrown e => Some e
      | Returned _ =>
          match readFile env with
          | Thrown e => Some e
          | Returned _ =>
              match decode env with
              | Thrown e => Some e
              | Returned _ =>
                  match runSync env with
                  | Thrown e => Some e
                  | Returned _ => None
                  end
              end
          end
      end
  end.

(** The status line that [captureAndVerify] shows for a result. *)
Definition statusFor (result : VerificationResult) (processingTime : Z) : string :=
  match (if verified result then truthy (result_userId result) else None) with
  | Some uid => "Verified: " ++ uid ++ " (" ++ ZToString processingTime ++ "ms)"
  | None =>
      match truthy (message result) with
      | Some m => m
      | None => "Verification failed"
      end
  end.

Lemma sendCommand_returns command answer g :
  fst (sendCommand command answer g) = Returned tt.
Proof.
  unfold sendCommand, bind, get, Alert_alert, modify, try_catch, device_write,
    transmit, addResponse, throw, ret.
  simpl.
  destruct (negb (isConnected g)
            || negb match device g with Some _ => true | None => false end);
    [ reflexivity | ].
  destruct (negb (isAuthenticated g) && negb (startsWith command "AUTHENTICATE"));
    [ reflexivity | ].
  destruct answer; reflexivity.
Qed.

(** The function of the latest render is the one that reads the state. *)
Lemma sendCommandOf_latest command answer g :
  sendCommandOf g command answer g = sendCommand command answer g.
Proof. reflexivity. Qed.

Lemma sendCommandOf_returns render command answer g :
  fst (sendCommandOf render command answer g) = Returned tt.
Proof.
  unfold sendCommandOf, Alert_alert, modify, try_catch, bind, device_write, transmit,
    addResponse, throw, ret.
  destruct (negb (isConnected render)
            || negb match device render with Some _ => true | None => false end);
    [ reflexivity | ].
  destruct (negb (isAuthenticated render) && negb (startsWith command "AUTHENTICATE"));
    [ reflexivity | ].
  destruct answer; reflexivity.
Qed.

(** The state that the start of a run leaves when the guard lets it through:
    the busy flag is set. *)
Definition dispatched (a : App) : App :=
  {| status := "Processing..."; isScanning := true;
     lastVerifiedUser := lastVerifiedUser a;
     error := None; frameProcessorError := None;
     cachedUsers := cachedUsers a; lastCaptureTime := lastCaptureTime a;
     performanceMetrics := performanceMetrics a; cameraMounted := cameraMounted a;
     db := db a; gate := gate a |}.

(** The state that the rest of a run leaves when a collaborator has failed
    with [reason]. *)
Definition failed (reason : string) (b : App) : App :=
  {| status := "Error during verification"; isScanning := false;
     lastVerifiedUser := lastVerifiedUser b;
     error := Some reason; frameProcessorError := frameProcessorError b;
     cachedUsers := cachedUsers b; lastCaptureTime := lastCaptureTime b;
     performanceMetrics := performanceMetrics b; cameraMounted := cameraMounted b;
     db := db b; gate := gate b |}.

(** The state that the rest of a run leaves when no collaborator has failed
    and the matcher has returned [result], leaving the database [db']. *)
Definition completed (render : App) (env : CaptureAnswers)
           (result : VerificationResult) (db' : Db) (b : App) : App :=
  {| status := statusFor result (endTime env - startTime env);
     isScanning := false;
     lastVerifiedUser :=
       match (if verified result then truthy (result_userId result) else None) with
       | Some uid => Some uid
       | None => lastVerifiedUser b
       end;
     error := error b; frameProcessorError := frameProcessorError b;
     cachedUsers := cachedUsers b; lastCaptureTime := lastCaptureTime b;
     performanceMetrics :=
       ("Processed in " ++ ZToString (endTime env - startTime env) ++ "ms")
         :: firstn 4 (performanceMetrics b);
     cameraMounted := cameraMounted b;
     db := db';
     gate :=
       match (if verified result then truthy (result_userId result) else None) with
       | Some _ =>
           if isConnected (gate render) && isAuthenticated (gate render)
           then snd (sendCommandOf (gate render) "FACE_DETECTED" (commandWrite env)
                                   (gate b))
           else gate b
       | None => gate b
       end |}.

Local Opaque verifyFace sendCommand sendCommandOf.

Lemma captureAndVerifyStart_run render a :
  cameraMounted a = true -> isScanning render = false ->
  captureAndVerifyStart render a = (Returned true, dispatched a).
Proof.
  intros Hcam Hscan. unfold captureAndVerifyStart.
  unfold bind at 1. unfold get at 1. rewrite Hcam, Hscan. reflexivity.
Qed.

Lemma captureAndVerifyStart_skipped render a :
  cameraMounted a = false \/ isScanning render = true ->
  captureAndVerifyStart render a = (Returned false, a).
Proof.
  intros H. unfold captureAndVerifyStart. unfold bind at 1. unfold get at 1.
  destruct H as [-> | ->]; [ reflexivity | ].
  rewrite orb_true_r. reflexivity.
Qed.

Ltac rest_unfold :=
  unfold captureAndVerifyRest, firstFailure, try_finally, try_catch, bind, get, ret,
    liftOutcome, withDb, withGate, zoom, setIsScanning, setStatus, setError,
    setFrameProcessorError, setLastVerifiedUser, pushPerformanceMetric, modify.

Lemma captureAndVerifyRest_failed N2S render env b reason :
  firstFailure env = Some reason ->
  captureAndVerifyRest N2S render env b = (Returned tt, failed reason b).
Proof.
  destruct env as [t0 photo resized file decoded model t1 cw].
  rest_unfold. unfold failed. simpl.
  destruct photo as [p|e]; simpl; [ | intros [= <-]; reflexivity ].
  destruct resized as [r|e]; simpl; [ | intros [= <-]; reflexivity ].
  destruct file as [f|e]; simpl; [ | intros [= <-]; reflexivity ].
  destruct decoded as [d|e]; simpl; [ | intros [= <-]; reflexivity ].
  destruct model as [embedding|e]; simpl; [ discriminate | intros [= <-]; reflexivity ].
Qed.

Lemma captureAndVerifyRest_completed N2S render env b embedding result db' :
  firstFailure env = None ->
  runSync env = Returned embedding ->
  verifyFace N2S (cachedUsers render) embedding (db b) = (Returned result, db') ->
  captureAndVerifyRest N2S render env b = (Returned tt, completed render env result db' b).
Proof.
  destruct env as [t0 photo resized file decoded model t1 cw].
  intros Hnone Hmodel Hverify. unfold firstFailure in Hnone. simpl in Hnone, Hmodel.
  subst model.
  destruct photo as [p|]; [ | discriminate ].
  destruct resized as [r|]; [ | discriminate ].
  destruct file as [f|]; [ | discriminate ].
  destruct decoded as [d|]; [ | discriminate ].
  rest_unfold. unfold completed, statusFor. simpl. rewrite Hverify. simpl.
  destruct (if verified result then truthy (result_userId result) else None)
    as [uid|]; simpl; [ | reflexivity ].
  destruct (isConnected (gate render) && isAuthenticated (gate render)); simpl;
    [ | reflexivity ].
  pose proof (sendCommandOf_returns (gate render) "FACE_DETECTED" cw (gate b)) as Hsend.
  destruct (sendCommandOf (gate render) "FACE_DETECTED" cw (gate b)) as [o g'].
  simpl in Hsend. subst o. reflexivity.
Qed.

Lemma firstFailure_runSync env :
  firstFailure env = None -> exists embedding, runSync env = Returned embedding.
Proof.
  unfold firstFailure.
  destruct (takePhoto env); [ | discriminate ].
  destruct (createResizedImage env); [ | discriminate ].
  destruct (readFile env); [ | discriminate ].
  destruct (decode env); [ | discriminate ].
  destruct (runSync env) as [embedding|]; [ | discriminate ].
  intros _. exists embedding. reflexivity.
Qed.

(** The rest of a run always returns, with the busy flag cleared. *)
Lemma captureAndVerifyRest_releases N2S render env b :
  fst (captureAndVerifyRest N2S render env b) = Returned tt
  /\ isScanning (snd (captureAndVerifyRest N2S render env b)) = false.
Proof.
  destruct (firstFailure env) as [reason|] eqn:Hfail.
  - rewrite (captureAndVerifyRest_failed N2S render env b reason Hfail). split; reflexivity.
  - destruct (firstFailure_runSync env Hfail) as [embedding Hmodel].
    destruct (verifyFace_returns N2S (cachedUsers render) embedding (db b))
      as [result Hres].
    destruct (verifyFace N2S (cachedUsers render) embedding (db b)) as [o db'] eqn:Hverify.
    simpl in Hres. subst o.
    rewrite (captureAndVerifyRest_completed N2S render env b embedding result db'
               Hfail Hmodel Hverify).
    split; reflexivity.
Qed.

Lemma captureAndVerify_run N2S env a :
  cameraMounted a = true -> isScanning a = false ->
  fst (captureAndVerify N2S env a) = Returned tt
  /\ isScanning (snd (captureAndVerify N2S env a)) = false
  /\ match firstFailure env with
     | Some reason =>
         status (snd (captureAndVerify N2S env a)) = "Error during verification"
         /\ error (snd (captureAndVerify N2S env a)) = Some reason
         /\ db (snd (captureAndVerify N2S env a)) = db a
         /\ gate (snd (captureAndVerify N2S env a)) = gate a
     | None =>
         error (snd (captureAndVerify N2S env a)) = None
         /\ exists embedding result,
              runSync env = Returned embedding
              /\ verifyFace N2S (cachedUsers a) embedding (db a)
                 = (Returned result, db (snd (captureAndVerify N2S env a)))
              /\ status (snd (captureAndVerify N2S env a))
                 = statusFor result (endTime env - startTime env)
     end.
Proof.
  intros Hcam Hscan.
  destruct env as [t0 photo resized file decoded model t1 cw].
  destruct (captureAndVerify N2S
              {| startTime := t0; takePhoto := photo; createResizedImage := resized;
                 readFile := file; decode := decoded; runSync := model;
                 endTime := t1; commandWrite := cw |} a) as [o a'] eqn:Hrun.
  revert Hrun.
  unfold captureAndVerify, firstFailure, statusFor.
  unfold bind at 1. unfold get at 1. rewrite Hcam, Hscan.
  unfold try_finally, try_catch, bind, get, ret, liftOutcome, withDb, withGate, zoom,
    setIsScanning, setStatus, setError, setFrameProcessorError, setLastVerifiedUser,
    pushPerformanceMetric, modify.
  simpl.
  destruct photo as [p|e]; simpl; [ | intros [= <- <-]; simpl; repeat split; reflexivity ].
  destruct resized as [r|e]; simpl; [ | intros [= <- <-]; simpl; repeat split; reflexivity ].
  destruct file as [f|e]; simpl; [ | intros [= <- <-]; simpl; repeat split; reflexivity ].
  destruct decoded as [d|e]; simpl; [ | intros [= <- <-]; simpl; repeat split; reflexivity ].
  destruct model as [embedding|e]; simpl; [ | intros [= <- <-]; simpl; repeat split; reflexivity ].
  destruct (verifyFace_returns N2S (cachedUsers a) embedding (db a)) as [result Hres].
  destruct (verifyFace N2S (cachedUsers a) embedding (db a)) as [o1 db'] eqn:Hv.
  simpl in Hres. subst o1. simpl.
  destruct (if verified result then truthy (result_userId result) else None)
    as [uid|] eqn:Hwho; simpl.
  - destruct (isConnected (gate a) && isAuthenticated (gate a)); simpl.
    + pose proof (sendCommand_returns "FACE_DETECTED" cw (gate a)) as Hsend.
      destruct (sendCommand "FACE_DETECTED" cw (gate a)) as [o2 g'].
      simpl in Hsend. subst o2. simpl. intros [= <- <-]. simpl.
      do 3 (split; [ reflexivity | ]). exists embedding, result. rewrite ?Hwho. repeat split; assumption.
    + intros [= <- <-]. simpl.
      do 3 (split; [ reflexivity | ]). exists embedding, result. rewrite ?Hwho. repeat split; assumption.
  - intros [= <- <-]. simpl.
    do 3 (split; [ reflexivity | ]). exists embedding, result. rewrite ?Hwho. repeat split; assumption.
Qed.

Lemma captureAndVerify_skipped N2S env a :
  cameraMounted a = false \/ isScanning a = true ->
  captureAndVerify N2S env a = (Returned tt, a).
Proof.
  intros H. unfold captureAndVerify. unfold bind at 1. unfold get at 1.
  destruct H as [-> | ->]; [ reflexivity | ].
  rewrite orb_true_r. reflexivity.
Qed.

(** Called from the latest render, the function is [captureAndVerify]. *)
Lemma captureAndVerifyOf_latest N2S env a :
  captureAndVerifyOf N2S a env a = captureAndVerify N2S env a.
Proof.
  destruct (cameraMounted a) eqn:Hcam.
  - destruct (isScanning a) eqn:Hscan.
    + rewrite captureAndVerify_skipped by (right; exact Hscan).
      unfold captureAndVerifyOf, bind.
      rewrite captureAndVerifyStart_skipped by (right; exact Hscan). reflexivity.
    + unfold captureAndVerifyOf. unfold bind at 1.
      rewrite (captureAndVerifyStart_run a a Hcam Hscan).
      destruct env as [t0 photo resized file decoded model t1 cw].
      unfold captureAndVerify. unfold bind at 1. unfold get at 1. rewrite Hcam, Hscan.
      rest_unfold. unfold dispatched. simpl.
      destruct photo as [p|e]; simpl; [ | reflexivity ].
      destruct resized as [r|e]; simpl; [ | reflexivity ].
      destruct file as [f|e]; simpl; [ | reflexivity ].
      destruct decoded as [d|e]; simpl; [ | reflexivity ].
      destruct model as [embedding|e]; simpl; [ | reflexivity ].
      destruct (verifyFace N2S (cachedUsers a) embedding (db a)) as [[result|e] db'];
        simpl; [ | reflexivity ].
      destruct (if verified result then truthy (result_userId result) else None)
        as [uid|]; simpl; [ | reflexivity ].
      destruct (isConnected (gate a) && isAuthenticated (gate a)); simpl;
        [ | reflexivity ].
      rewrite sendCommandOf_latest. reflexivity.
  - rewrite captureAndVerify_skipped by (left; exact Hcam).
    unfold captureAndVerifyOf, bind.
    rewrite captureAndVerifyStart_skipped by (left; exact Hcam). reflexivity.
Qed.

End PipelineFacts.

Section PipelineClaims.

Import MatcherOutcome PipelineFacts.

(** C9.  A call of [captureAndVerify] that passes its entry guard (the
    camera is mounted and the render whose function is called saw no run in
    flight) sets [isScanning] at once, before its first [await], with the
    status "Processing..."; the rest of the run, from whatever state it runs
    in and so from the one with the flag set, always returns normally with
    [isScanning] cleared.  When a collaborator fails (capture, resize, file
    read, decoding, embedding model) the run ends with the status "Error
    during verification", the failure's message in [error], and the database
    and the Gate Link untouched.  When none fails, the status is the one of
    the matcher's result; a failure inside the matcher (a population record
    of another length) shows as the status "Error during verification".
    While the flag is set, the function of a render that has seen it does
    nothing.  Called from the latest render, the function is
    [captureAndVerify]. *)
Theorem captureAndVerify_releases_busy_flag
        (N2S : float -> string) (env : CaptureAnswers) (render a : App) :
  cameraMounted a = true ->
  isScanning render = false ->
  captureAndVerifyStart render a = (Returned true, dispatched a)
  /\ isScanning (dispatched a) = true
  /\ captureAndVerifyOf N2S render env a
     = captureAndVerifyRest N2S render env (dispatched a)
  /\ (forall b,
         fst (captureAndVerifyRest N2S render env b) = Returned tt
         /\ isScanning (snd (captureAndVerifyRest N2S render env b)) = false
         /\ match firstFailure env with
            | Some reason =>
                status (snd (captureAndVerifyRest N2S render env b))
                = "Error during verification"
                /\ error (snd (captureAndVerifyRest N2S render env b)) = Some reason
                /\ db (snd (captureAndVerifyRest N2S render env b)) = db b
                /\ gate (snd (captureAndVerifyRest N2S render env b)) = gate b
            | None =>
                error (snd (captureAndVerifyRest N2S render env b)) = error b
                /\ exists embedding result,
                     runSync env = Returned embedding
                     /\ verifyFace N2S (cachedUsers render) embedding (db b)
                        = (Returned result,
                           db (snd (captureAndVerifyRest N2S render env b)))
                     /\ status (snd (captureAndVerifyRest N2S render env b))
                        = statusFor result (endTime env - startTime env)
                     /\ forall e,
                          List.length embedding = 128%nat ->
                          cachedUsers render <> [] ->
                          scanUsers embedding (cachedUsers render) noMatch = Thrown e ->
                          status (snd (captureAndVerifyRest N2S render env b))
                          = "Error during verification"
            end)
  /\ fst (captureAndVerifyOf N2S render env a) = Returned tt
  /\ isScanning (snd (captureAndVerifyOf N2S render env a)) = false
  /\ (forall b env',
         isScanning b = true -> captureAndVerifyOf N2S b env' b = (Returned tt, b))
  /\ (forall b, captureAndVerifyOf N2S b env b = captureAndVerify N2S env b).
Proof.
  intros Hcam Hscan.
  assert (Hrun : captureAndVerifyOf N2S render env a
                 = captureAndVerifyRest N2S render env (dispatched a)).
  { unfold captureAndVerifyOf. unfold bind at 1.
    rewrite (captureAndVerifyStart_run render a Hcam Hscan). reflexivity. }
  split; [ apply captureAndVerifyStart_run; assumption | ].
  split; [ reflexivity | ].
  split; [ exact Hrun | ].
  split; [ | split; [ | split; [ | split ] ] ].
  - intros b.
    split; [ apply captureAndVerifyRest_releases | ].
    split; [ apply captureAndVerifyRest_releases | ].
    destruct (firstFailure env) as [reason|] eqn:Hfail.
    + rewrite (captureAndVerifyRest_failed N2S render env b reason Hfail).
      repeat split.
    + destruct (firstFailure_runSync env Hfail) as [embedding Hmodel].
      destruct (verifyFace_returns N2S (cachedUsers render) embedding (db b))
        as [result Hres].
      destruct (verifyFace N2S (cachedUsers render) embedding (db b))
        as [o db'] eqn:Hverify.
      simpl in Hres. subst o.
      rewrite (captureAndVerifyRest_completed N2S render env b embedding result db'
                 Hfail Hmodel Hverify).
      split; [ reflexivity | ]. exists embedding, result.
      split; [ exact Hmodel | ]. split; [ exact Hverify | ].
      split; [ reflexivity | ].
      intros e Hlen Hne Hthrow.
      rewrite (verifyFace_scan_throws N2S _ _ (db b) e Hlen Hne Hthrow) in Hverify.
      injection Hverify as <- _. reflexivity.
  - rewrite Hrun. apply captureAndVerifyRest_releases.
  - rewrite Hrun. apply captureAndVerifyRest_releases.
  - intros b env' Hbusy. unfold captureAndVerifyOf, bind.
    rewrite captureAndVerifyStart_skipped by (right; exact Hbusy). reflexivity.
  - intros b. apply captureAndVerifyOf_latest.
Qed.

Lemma captureAndVerify_releases_busy_flag_witness :
  captureAndVerifyStart Scenario.idle Scenario.idle
  = (Returned true, dispatched Scenario.idle)
  /\ isScanning (dispatched Scenario.idle) = true
  /\ captureAndVerifyOf Scenario.printLarge Scenario.idle Scenario.cameraFails
                        Scenario.idle
     = captureAndVerifyRest Scenario.printLarge Scenario.idle Scenario.cameraFails
                            (dispatched Scenario.idle)
  /\ (forall b,
         fst (captureAndVerifyRest Scenario.printLarge Scenario.idle
                                   Scenario.cameraFails b) = Returned tt
         /\ isScanning (snd (captureAndVerifyRest Scenario.printLarge Scenario.idle
                                                  Scenario.cameraFails b)) = false
         /\ match firstFailure Scenario.cameraFails with
            | Some reason =>
                status (snd (captureAndVerifyRest Scenario.printLarge Scenario.idle
                                                  Scenario.cameraFails b))
                = "Error during verification"
                /\ error (snd (captureAndVerifyRest Scenario.printLarge Scenario.idle
                                                    Scenario.cameraFails b))
                   = Some reason
                /\ db (snd (captureAndVerifyRest Scenario.printLarge Scenario.idle
                                                 Scenario.cameraFails b)) = db b
                /\ gate (snd (captureAndVerifyRest Scenario.printLarge Scenario.idle
                                                   Scenario.cameraFails b)) = gate b
            | None =>
                error (snd (captureAndVerifyRest Scenario.printLarge Scenario.idle
                                                 Scenario.cameraFails b)) = error b
                /\ exists embedding result,
                     runSync Scenario.cameraFails = Returned embedding
                     /\ verifyFace Scenario.printLarge (cachedUsers Scenario.idle)
                                   embedding (db b)
                        = (Returned result,
                           db (snd (captureAndVerifyRest
                                      Scenario.printLarge Scenario.idle
                                      Scenario.cameraFails b)))
                     /\ status (snd (captureAndVerifyRest
                                       Scenario.printLarge Scenario.idle
                                       Scenario.cameraFails b))
                        = statusFor result (endTime Scenario.cameraFails
                                            - startTime Scenario.cameraFails)
                     /\ forall e,
                          List.length embedding = 128%nat ->
                          cachedUsers Scenario.idle <> [] ->
                          scanUsers embedding (cachedUsers Scenario.idle) noMatch
                          = Thrown e ->
                          status (snd (captureAndVerifyRest
                                         Scenario.printLarge Scenario.idle
                                         Scenario.cameraFails b))
                          = "Error during verification"
            end)
  /\ fst (captureAndVerifyOf Scenario.printLarge Scenario.idle Scenario.cameraFails
                             Scenario.idle) = Returned tt
  /\ isScanning (snd (captureAndVerifyOf Scenario.printLarge Scenario.idle
                                         Scenario.cameraFails Scenario.idle)) = false
  /\ (forall b env',
         isScanning b = true ->
         captureAndVerifyOf Scenario.printLarge b env' b = (Returned tt, b))
  /\ (forall b,
         captureAndVerifyOf Scenario.printLarge b Scenario.cameraFails b
         = captureAndVerify Scenario.printLarge Scenario.cameraFails b).
Proof.
  apply (captureAndVerify_releases_busy_flag
           Scenario.printLarge Scenario.cameraFails Scenario.idle Scenario.idle).
  - reflexivity.
  - reflexivity.
Defined.

End PipelineClaims.

(** ** The scenarios of the specification, evaluated *)

Module Examples.

Import MatcherOutcome.
Local Open Scope float_scope.

Example trim_received_line :
  trim ("  AUTH_SUCCESS" ++ String (ascii_of_nat 13) LF)%string = "AUTH_SUCCESS"%string.
Proof. reflexivity. Qed.

Example toFixed2_rounds_half_up :
  (fun N2S => [toFixed2 N2S 0.8; toFixed2 N2S 0.125; toFixed2 N2S 1.005;
               toFixed2 N2S 0.6; toFixed2 N2S 12; toFixed2 N2S infinity])
  = (fun _ => ["0.80"; "0.13"; "1.00"; "0.60"; "12.00"; "Infinity"]%string).
Proof. vm_compute. reflexivity. Qed.

(** The probe is the enrolled vector itself. *)
Example exact_match_is_verified :
  (fun N2S => verifyFace N2S [Scenario.alice] Scenario.v Scenario.healthyDb)
  = (fun _ => (Returned {| verified := true; result_userId := Some "alice"%string;
                           distance := Some 0; message := None |},
               logged "alice" Scenario.healthyDb)).
Proof. vm_compute. reflexivity. Qed.

(** The probe is at distance 0.8 from the enrolled vector. *)
Example noisy_probe_is_unverified :
  calculateEuclideanDistance Scenario.noisy Scenario.v = Returned 0.8
  /\ (fun N2S => verifyFace N2S [Scenario.alice] Scenario.noisy Scenario.healthyDb)
     = (fun _ => (Returned (unverifiedResult "No match found (closest: alice 0.80)"),
                  Scenario.healthyDb)).
Proof. split; vm_compute; reflexivity. Qed.

(** Two users at the same distance: the earlier one is selected. *)
Example tie_goes_to_the_first_user :
  scanUsers Scenario.noisy
            [ {| userId := "alice"; embedding := Scenario.v |};
              {| userId := "bob"; embedding := Scenario.v |} ] noMatch
  = Returned {| cm_distance := 0.8;
                cm_user := Some {| userId := "alice"; embedding := Scenario.v |} |}.
Proof. vm_compute. reflexivity. Qed.

(** An empty population. *)
Example no_users_registered :
  (fun N2S => verifyFace N2S [] Scenario.v Scenario.healthyDb)
  = (fun _ => (Returned (unverifiedResult "No users registered"), Scenario.healthyDb)).
Proof. vm_compute. reflexivity. Qed.

(** AUTH_FAILED on a connected, unauthenticated link: the link stays connected
    and unauthenticated, and FACE_DETECTED is then rejected without a write. *)
Example auth_failed_then_send_is_rejected :
  exists g,
    step GateScenario.connectedGate (DataReceived ("AUTH_FAILED" ++ LF)) = Some g
    /\ isConnected g = true
    /\ isAuthenticated g = false
    /\ written (snd (sendCommand "FACE_DETECTED" (Returned tt) g)) = written g
    /\ written g = ["AUTHENTICATE MySecurePass123" ++ LF]%string
    /\ alerts (snd (sendCommand "FACE_DETECTED" (Returned tt) g))
       = [("Authentication Error", "Incorrect password");
          ("Error", "Must authenticate before sending commands")]%string.
Proof. eexists. split; [ vm_compute; reflexivity | ]. repeat split. Qed.

(** AUTH_SUCCESS authenticates, and FACE_DETECTED is then written. *)
Example auth_success_then_send_is_written :
  exists g,
    step GateScenario.connectedGate (DataReceived ("AUTH_SUCCESS" ++ LF)) = Some g
    /\ isAuthenticated g = true
    /\ written (snd (sendCommand "FACE_DETECTED" (Returned tt) g))
       = ["AUTHENTICATE MySecurePass123" ++ LF; "FACE_DETECTED" ++ LF]%string.
Proof. eexists. split; [ vm_compute; reflexivity | ]. repeat split. Qed.

(** A centred face of half the frame width, scored 0.9, with the cooldown
    elapsed: the trigger fires; evaluated again at the same instant with the
    timestamp it has just set, it does not. *)
Example trigger_fires_then_cools_down :
  autoCapture [TriggerScenario.centeredFace] TriggerScenario.portrait 0 5000
  = [SetLastCaptureTime 5000; CaptureAndVerify]
  /\ autoCapture [TriggerScenario.centeredFace] TriggerScenario.portrait 5000 5000 = []
  /\ isValidFace TriggerScenario.portrait TriggerScenario.cornerFace = false.
Proof. repeat split; vm_compute; reflexivity. Qed.

End Examples.

(** ** Saving, looking up, deleting and counting users *)

Module UserRecordsFacts.

Import FloatFacts.

Definition userIds (db : Db) : list string := map row_userId (Users db).

Definition isMalformed (row : UsersRow) : bool :=
  match row_embedding row with Malformed => true | JsonNumbers _ => false end.

Lemma isValidUser_items userId embedding :
  isValidUser userId embedding = true ->
  exists numbers,
    embeddingArrayOf embedding = map JNumber numbers
    /\ numbers <> []
    /\ Forall (fun n => is_finite n = true) numbers.
Proof.
  unfold isValidUser.
  destruct ((userId =? EmptyString) || (trim userId =? EmptyString))%bool;
    [ discriminate | ].
  assert (Hitems : forall items,
             (if (List.length items =? 0)%nat || negb (forallb isFiniteNumber items)
              then false else true) = true ->
             exists numbers, items = map JNumber numbers /\ numbers <> []
                             /\ Forall (fun n => is_finite n = true) numbers).
  { intros items Hi.
    destruct ((List.length items =? 0)%nat || negb (forallb isFiniteNumber items))%bool
             eqn:E; [ discriminate | ].
    apply orb_false_iff in E. destruct E as [Hlen Hall].
    apply negb_false_iff in Hall.
    assert (Hnum : exists numbers, items = map JNumber numbers
                                   /\ Forall (fun n => is_finite n = true) numbers).
    { clear Hlen Hi. induction items as [|item items IH].
      - exists []. split; constructor.
      - simpl in Hall. apply andb_true_iff in Hall. destruct Hall as [Hitem Hall].
        destruct (IH Hall) as (numbers & -> & Hfin).
        destruct item; try discriminate. simpl in Hitem.
        exists (n :: numbers). split; [ reflexivity | constructor; assumption ]. }
    destruct Hnum as (numbers & -> & Hfin). exists numbers.
    repeat split; auto. intros ->. discriminate. }
  destruct embedding as [ | |b|n|s|items|items| ]; try discriminate; simpl.
  - apply Hitems.
  - destruct (0 <? List.length items)%nat; [ apply Hitems | discriminate ].
Qed.

Lemma numbersOf_numbers numbers : numbersOf (map JNumber numbers) = numbers.
Proof.
  induction numbers as [|n numbers IH]; [ reflexivity | ].
  unfold numbersOf in *. simpl. rewrite IH. reflexivity.
Qed.

Lemma SFeqb_sym x y : SFeqb x y = SFeqb y x.
Proof.
  unfold SFeqb, SFcompare.
  destruct x as [s1|s1| |s1 m1 e1], y as [s2|s2| |s2 m2 e2];
    try destruct s1; try destruct s2; simpl; try reflexivity.
  all: rewrite (Z.compare_antisym e1 e2);
    change (Pos.compare_cont Eq m1 m2) with (Pos.compare m1 m2);
    change (Pos.compare_cont Eq m2 m1) with (Pos.compare m2 m1);
    rewrite (Pos.compare_antisym m1 m2);
    destruct (Z.compare e1 e2), (Pos.compare m1 m2); reflexivity.
Qed.

(** The number read back from the stored text equals the one saved. *)
Lemma jsonNumber_eqb n :
  is_finite n = true ->
  PrimFloat.eqb (jsonNumber n) n = true /\ is_finite (jsonNumber n) = true.
Proof.
  intros Hfin. unfold jsonNumber, is_zero.
  destruct (PrimFloat.eqb n PrimFloat.zero) eqn:Hz.
  - split; [ | reflexivity ].
    rewrite FloatAxioms.eqb_spec in *. rewrite SFeqb_sym. exact Hz.
  - split; [ | exact Hfin ].
    rewrite FloatAxioms.eqb_spec, SFeqb_self.
    destruct (is_finite_spec n Hfin) as [[s E]|[s [m [e E]]]]; rewrite E; reflexivity.
Qed.

Lemma find_after_replace userId row rows :
  row_userId row = userId ->
  find (hasUserId userId)
       (filter (fun r => negb (hasUserId userId r)) rows ++ [row]) = Some row.
Proof.
  intros Hid. induction rows as [|r rows IH]; simpl.
  - unfold hasUserId. rewrite Hid, String.eqb_refl. reflexivity.
  - destruct (hasUserId userId r) eqn:Hr; simpl; [ exact IH | ].
    rewrite Hr. exact IH.
Qed.

Lemma find_after_delete userId rows :
  find (hasUserId userId) (filter (fun r => negb (hasUserId userId r)) rows) = None.
Proof.
  induction rows as [|r rows IH]; simpl; [ reflexivity | ].
  destruct (hasUserId userId r) eqn:Hr; simpl; [ exact IH | ].
  rewrite Hr. exact IH.
Qed.

Lemma usersOfRows_app rows1 rows2 :
  usersOfRows (rows1 ++ rows2) = (usersOfRows rows1 ++ usersOfRows rows2)%list.
Proof.
  induction rows1 as [|r rows1 IH]; simpl; [ reflexivity | ].
  destruct (JSON_parse (row_embedding r)); simpl; rewrite IH; reflexivity.
Qed.

Lemma usersOfRows_filter uid rows :
  usersOfRows (filter (fun r => negb (hasUserId uid r)) rows)
  = filter (fun u => negb (userId u =? uid)%string) (usersOfRows rows).
Proof.
  induction rows as [|r rows IH]; simpl; [ reflexivity | ].
  unfold hasUserId at 1.
  destruct (row_userId r =? uid)%string eqn:Hr; simpl.
  - destruct (JSON_parse (row_embedding r)); simpl; [ rewrite Hr; simpl | ]; exact IH.
  - destruct (JSON_parse (row_embedding r)); simpl; [ rewrite Hr; simpl | ];
      rewrite IH; reflexivity.
Qed.

Lemma saveUser_valid foreignKeys uid embedding numbers :
  isValidUser uid embedding = true ->
  embeddingArrayOf embedding = map JNumber numbers ->
  saveUser foreignKeys uid embedding
  = insertOrReplace foreignKeys uid (JSON_stringify numbers).
Proof.
  intros Hvalid Hitems. unfold saveUser. rewrite Hvalid, Hitems, numbersOf_numbers.
  reflexivity.
Qed.

Lemma filter_keeps_NoDup uid rows :
  NoDup (map row_userId rows) ->
  NoDup (map row_userId (filter (fun r => negb (hasUserId uid r)) rows)).
Proof.
  induction rows as [|r rows IH]; simpl; intros Hnd; [ constructor | ].
  inversion Hnd as [|? ? Hnotin Hrest]; subst.
  destruct (hasUserId uid r); simpl; [ auto | ].
  constructor; [ | auto ].
  intros Hin. apply Hnotin. apply in_map_iff in Hin.
  destruct Hin as (r' & Hid & Hin'). apply filter_In in Hin'.
  apply in_map_iff. exists r'. tauto.
Qed.

Lemma insert_keeps_NoDup uid text rows :
  NoDup (map row_userId rows) ->
  NoDup (map row_userId
             (filter (fun r => negb (hasUserId uid r)) rows
              ++ [ {| row_userId := uid; row_embedding := text |} ])).
Proof.
  intros Hnd. rewrite map_app. simpl.
  apply NoDup_app_remove_l with (l := []). simpl.
  apply NoDup_Add with (a := uid)
                       (l := map row_userId (filter (fun r => negb (hasUserId uid r)) rows)).
  - clear Hnd. induction (map row_userId (filter (fun r => negb (hasUserId uid r)) rows));
      simpl; constructor; assumption.
  - split; [ apply filter_keeps_NoDup; exact Hnd | ].
    intros Hin. apply in_map_iff in Hin. destruct Hin as (r & Hid & Hin).
    apply filter_In in Hin. destruct Hin as [_ Hneg]. unfold hasUserId in Hneg.
    rewrite Hid, String.eqb_refl in Hneg. discriminate.
Qed.

Lemma insertAll_keeps_NoDup foreignKeys users : forall db,
  failing db = false ->
  NoDup (userIds db) -> NoDup (userIds (insertAll foreignKeys users db)).
Proof.
  induction users as [|u users IH]; intros db Hdb Hnd; simpl; [ exact Hnd | ].
  unfold insertOrReplace. rewrite Hdb. simpl. apply IH; [ reflexivity | ].
  unfold userIds. simpl. apply insert_keeps_NoDup. exact Hnd.
Qed.


End UserRecordsFacts.

Module RecordScenario.

Local Open Scope float_scope.

(** An embedding as the registration hands it over: a typed array. *)
Definition enrolled : JsVal := JArrayLike (map JNumber Scenario.noisy).

(** An embedding with a component that is not finite. *)
Definition overflowed : JsVal := JArray [JNumber 0.5; JNumber infinity].

Definition carol : User := {| userId := "carol"; embedding := [0.25; 0.75] |}.
Definition blank : User := {| userId := "   "; embedding := [0.25; 0.75] |}.
Definition dave : User := {| userId := "dave"; embedding := [0.5] |}.

(** A table with a row that parses and a row that does not. *)
Definition mixedDb : Db :=
  {| Users := [ {| row_userId := "carol"; row_embedding := JsonNumbers [0.25; 0.75] |};
                {| row_userId := "erin"; row_embedding := Malformed |} ];
     VerificationLogs := ["carol"]; failing := false |}.

End RecordScenario.

(** ** The user records: validation and the matching population *)

Module PopulationFacts.

Import UserRecordsFacts.

(** What [isValidUser] asks of a record, its embedding being the array of
    the numbers [numbers]: an id that is not blank, and a non-empty array of
    finite numbers.  Nothing is asked of the length. *)
Definition validRecord (userId : string) (numbers : list float) : Prop :=
  trim userId <> EmptyString
  /\ numbers <> []
  /\ Forall (fun n => is_finite n = true) numbers.

Definition validRow (row : UsersRow) : Prop :=
  exists numbers,
    row_embedding row = JsonNumbers numbers /\ validRecord (row_userId row) numbers.

Definition validRows (db : Db) : Prop := Forall validRow (Users db).

Lemma forallb_numbers numbers :
  forallb isFiniteNumber (map JNumber numbers) = true
  <-> Forall (fun n => is_finite n = true) numbers.
Proof.
  induction numbers as [|n numbers IH]; simpl.
  - split; [ constructor | reflexivity ].
  - rewrite andb_true_iff, IH. split.
    + intros [Hn Hrest]. constructor; assumption.
    + intros H. inversion H; subst. auto.
Qed.

Lemma isValidUser_array uid items :
  isValidUser uid (JArray items) = isValidUser uid (JArrayLike items).
Proof.
  unfold isValidUser.
  destruct ((uid =? EmptyString) || (trim uid =? EmptyString))%bool; [ reflexivity | ].
  destruct items; reflexivity.
Qed.

Lemma isValidUser_numbers uid numbers :
  isValidUser uid (JArray (map JNumber numbers)) = true <-> validRecord uid numbers.
Proof.
  unfold isValidUser, validRecord. split.
  - intros H.
    destruct ((uid =? EmptyString) || (trim uid =? EmptyString))%bool eqn:Hid;
      [ discriminate | ].
    apply orb_false_iff in Hid. destruct Hid as [_ Hid]. apply String.eqb_neq in Hid.
    destruct ((List.length (map JNumber numbers) =? 0)%nat
              || negb (forallb isFiniteNumber (map JNumber numbers)))%bool eqn:E;
      [ discriminate | ].
    apply orb_false_iff in E. destruct E as [Hlen Hall].
    apply negb_false_iff in Hall. apply forallb_numbers in Hall.
    repeat split; auto. intros ->. discriminate.
  - intros (Hid & Hne & Hfin).
    assert (Huid : (uid =? EmptyString)%string = false).
    { apply String.eqb_neq. intros ->. apply Hid. reflexivity. }
    apply String.eqb_neq in Hid. rewrite Huid, Hid. simpl.
    apply forallb_numbers in Hfin. rewrite Hfin.
    destruct numbers; [ congruence | reflexivity ].
Qed.

Lemma isValidUser_iff uid embedding :
  isValidUser uid embedding = true <->
  exists numbers,
    (embedding = JArray (map JNumber numbers)
     \/ embedding = JArrayLike (map JNumber numbers))
    /\ validRecord uid numbers.
Proof.
  split.
  - intros H. destruct (isValidUser_items uid embedding H) as (numbers & Hitems & _).
    exists numbers.
    assert (Hshape : embedding = JArray (map JNumber numbers)
                     \/ embedding = JArrayLike (map JNumber numbers)).
    { destruct embedding; simpl in Hitems; subst;
        try (unfold isValidUser in H;
             destruct ((uid =? EmptyString) || (trim uid =? EmptyString))%bool;
             discriminate); auto. }
    split; [ exact Hshape | ].
    apply isValidUser_numbers. destruct Hshape as [->| ->]; [ exact H | ].
    rewrite isValidUser_array. exact H.
  - intros (numbers & [->| ->] & Hvalid).
    + apply isValidUser_numbers. exact Hvalid.
    + rewrite <- isValidUser_array. apply isValidUser_numbers. exact Hvalid.
Qed.

Lemma jsonNumber_finite n : is_finite n = true -> is_finite (jsonNumber n) = true.
Proof. unfold jsonNumber. intros H. destruct (is_zero n); [ reflexivity | exact H ]. Qed.

Lemma validRecord_stored uid numbers :
  validRecord uid numbers -> validRecord uid (map jsonNumber numbers).
Proof.
  intros (Hid & Hne & Hfin). repeat split; auto.
  - destruct numbers; [ congruence | discriminate ].
  - rewrite Forall_forall in *. intros x Hx. apply in_map_iff in Hx.
    destruct Hx as (n & <- & Hn). apply jsonNumber_finite. apply Hfin. exact Hn.
Qed.

Lemma insertOrReplace_validRows foreignKeys uid numbers d :
  validRecord uid numbers ->
  validRows d ->
  validRows (snd (insertOrReplace foreignKeys uid (JSON_stringify numbers) d)).
Proof.
  intros Hvalid Hrows. unfold insertOrReplace, validRows in *.
  destruct (failing d); [ exact Hrows | ]. simpl.
  apply Forall_app. split.
  - rewrite Forall_forall in *. intros row Hrow. apply filter_In in Hrow.
    apply Hrows, Hrow.
  - constructor; [ | constructor ].
    exists (map jsonNumber numbers). split; [ reflexivity | ].
    apply validRecord_stored. exact Hvalid.
Qed.

Lemma saveUser_validRows foreignKeys uid embedding d :
  validRows d -> validRows (snd (saveUser foreignKeys uid embedding d)).
Proof.
  intros Hrows. destruct (isValidUser uid embedding) eqn:Hvalid.
  - pose proof Hvalid as Hiff. apply isValidUser_iff in Hiff.
    destruct Hiff as (numbers & Hshape & Hrecord).
    rewrite (saveUser_valid foreignKeys uid embedding numbers Hvalid).
    + apply insertOrReplace_validRows; assumption.
    + destruct Hshape as [->| ->]; reflexivity.
  - unfold saveUser. rewrite Hvalid. exact Hrows.
Qed.

Lemma insertAll_validRows foreignKeys users : forall d,
  Forall (fun u => isValidUser (userId u) (asJsArray (embedding u)) = true) users ->
  validRows d -> validRows (insertAll foreignKeys users d).
Proof.
  induction users as [|user users IH]; intros d Hall Hrows; [ exact Hrows | ].
  inversion Hall as [|? ? Huser Hrest]; subst. simpl. apply IH; [ exact Hrest | ].
  apply insertOrReplace_validRows; [ | exact Hrows ].
  apply isValidUser_numbers. exact Huser.
Qed.

Lemma saveMultipleUsers_validRows foreignKeys users d :
  validRows d -> validRows (snd (saveMultipleUsers foreignKeys users d)).
Proof.
  intros Hrows. unfold saveMultipleUsers.
  destruct (find (fun user => negb (isValidUser (userId user)
                                                (asJsArray (embedding user)))) users)
    as [user|] eqn:Hfind; [ exact Hrows | ].
  destruct (failing d); [ exact Hrows | ]. simpl.
  apply insertAll_validRows; [ | exact Hrows ].
  apply Forall_forall. intros u Hu.
  pose proof (find_none _ _ Hfind u Hu) as H. simpl in H.
  apply negb_false_iff in H. exact H.
Qed.

Lemma deleteUser_validRows foreignKeys uid d :
  validRows d -> validRows (snd (deleteUser foreignKeys uid d)).
Proof.
  intros Hrows. unfold deleteUser, validRows in *.
  destruct (failing d); [ exact Hrows | ]. simpl.
  rewrite Forall_forall in *. intros row Hrow. apply filter_In in Hrow.
  apply Hrows, Hrow.
Qed.

Lemma logVerification_validRows uid d :
  validRows d -> validRows (snd (logVerification uid d)).
Proof.
  intros Hrows. unfold logVerification. destruct (failing d); exact Hrows.
Qed.

Lemma usersOfRows_valid rows :
  Forall validRow rows ->
  forall u, In u (usersOfRows rows) -> validRecord (userId u) (embedding u).
Proof.
  induction rows as [|row rows IH]; intros Hrows u Hu; [ destruct Hu | ].
  inversion Hrows as [|? ? Hrow Hrest]; subst. simpl in Hu.
  destruct Hrow as (numbers & Htext & Hvalid). rewrite Htext in Hu. simpl in Hu.
  destruct Hu as [<-|Hu]; [ exact Hvalid | apply IH; assumption ].
Qed.

Lemma fetchUsers_caches a :
  failing (db a) = false ->
  fetchUsers a
  = (Returned tt,
     {| status := status a; isScanning := isScanning a;
        lastVerifiedUser := lastVerifiedUser a;
        error := error a; frameProcessorError := frameProcessorError a;
        cachedUsers := usersOfRows (Users (db a));
        lastCaptureTime := lastCaptureTime a;
        performanceMetrics := performanceMetrics a; cameraMounted := cameraMounted a;
        db := db a; gate := gate a |}).
Proof.
  intros Hdb.
  unfold fetchUsers, try_catch, bind, withDb, zoom, getUsers, setCachedUsers, modify.
  rewrite Hdb. destruct a as [st sc lv er fe cu lc pm cm d g]. destruct d. reflexivity.
Qed.

End PopulationFacts.

Section PopulationClaims.

Import MatcherOutcome UserRecordsFacts PopulationFacts.

Lemma usersOfRows_In rows : forall u,
  In u (usersOfRows rows) <->
  exists row, In row rows /\ row_userId row = userId u
              /\ row_embedding row = JsonNumbers (embedding u).
Proof.
  induction rows as [|row rows IH]; intros u; simpl.
  - split; [ intros [] | intros (row & [] & _) ].
  - destruct (row_embedding row) as [numbers|] eqn:Hrow; simpl.
    + split.
      * intros [<-|Hin].
        -- exists row. simpl. auto.
        -- apply IH in Hin. destruct Hin as (r & Hr & H1 & H2). exists r. auto.
      * intros (r & [<-|Hr] & H1 & H2).
        -- left. destruct u as [uid emb]. simpl in *. congruence.
        -- right. apply IH. exists r. auto.
    + rewrite IH. split.
      * intros (r & Hr & H1 & H2). exists r. auto.
      * intros (r & [<-|Hr] & H1 & H2); [ congruence | ]. exists r. auto.
Qed.

(** C5 (as amended).  A record is validated when it is saved, and only then:
    [isValidUser] accepts exactly the records with an id that is not blank
    and an embedding that is a non-empty array (or array-like) of finite
    numbers, of any length.  The rows of [Users] are written by [saveUser]
    and [saveMultipleUsers] only, and [saveUser] rejects any other record
    without writing, so, starting from the empty table, every row holds such
    a record.  The matching population that [fetchUsers]
    caches is [getUsers]' answer: every row of [Users] whose embedding text
    parses, with the embedding as parsed; so every user of the population has
    an id that is not blank and a non-empty embedding of finite numbers.  No
    record is excluded for the length of its embedding: a valid record of any
    length, once saved, is in the population with that length. *)
Theorem population_is_every_parsable_row (a : App) :
  failing (db a) = false ->
  validRows (db a) ->
  (forall userId embedding,
      isValidUser userId embedding = true <->
      exists numbers,
        (embedding = JArray (map JNumber numbers)
         \/ embedding = JArrayLike (map JNumber numbers))
        /\ validRecord userId numbers)
  /\ (forall logs failing,
         validRows {| Users := []; VerificationLogs := logs; failing := failing |})
  /\ (forall foreignKeys userId embedding users d,
         validRows d ->
         validRows (snd (saveUser foreignKeys userId embedding d))
         /\ validRows (snd (saveMultipleUsers foreignKeys users d))
         /\ validRows (snd (deleteUser foreignKeys userId d))
         /\ validRows (snd (logVerification userId d)))
  /\ (forall foreignKeys userId embedding d,
         isValidUser userId embedding = false ->
         saveUser foreignKeys userId embedding d = (Thrown "Invalid user data", d))
  /\ fst (fetchUsers a) = Returned tt
  /\ cachedUsers (snd (fetchUsers a)) = usersOfRows (Users (db a))
  /\ (forall u, In u (cachedUsers (snd (fetchUsers a))) <->
                exists row, In row (Users (db a))
                            /\ row_userId row = userId u
                            /\ row_embedding row = JsonNumbers (embedding u))
  /\ (forall u, In u (cachedUsers (snd (fetchUsers a))) ->
                validRecord (userId u) (embedding u))
  /\ (forall foreignKeys uid numbers,
         validRecord uid numbers ->
         exists u,
           In u (cachedUsers
                   (snd (fetchUsers
                           (snd (withDb (saveUser foreignKeys uid (asJsArray numbers))
                                        a)))))
           /\ userId u = uid
           /\ List.length (embedding u) = List.length numbers).
Proof.
  intros Hdb Hrows.
  rewrite (fetchUsers_caches a Hdb). cbn [fst snd cachedUsers].
  split; [ exact isValidUser_iff | ].
  split; [ intros logs bad; constructor | ].
  split.
  { intros foreignKeys uid emb users d Hd.
    split; [ apply saveUser_validRows; exact Hd | ].
    split; [ apply saveMultipleUsers_validRows; exact Hd | ].
    split; [ apply deleteUser_validRows; exact Hd
           | apply logVerification_validRows; exact Hd ]. }
  split.
  { intros foreignKeys uid emb d Hinvalid. unfold saveUser. rewrite Hinvalid.
    reflexivity. }
  split; [ reflexivity | ]. split; [ reflexivity | ].
  split; [ intros u; apply usersOfRows_In | ].
  split; [ apply usersOfRows_valid; exact Hrows | ].
  intros foreignKeys uid numbers Hvalid.
  assert (Hok : isValidUser uid (asJsArray numbers) = true).
  { apply isValidUser_numbers. exact Hvalid. }
  unfold withDb, zoom.
  rewrite (saveUser_valid foreignKeys uid (asJsArray numbers) numbers Hok eq_refl).
  unfold insertOrReplace. rewrite Hdb. cbn [snd].
  rewrite fetchUsers_caches by reflexivity. cbn [snd cachedUsers db Users].
  exists {| userId := uid; embedding := map jsonNumber numbers |}.
  split; [ | split; [ reflexivity | apply length_map ] ].
  rewrite usersOfRows_app. apply in_or_app. right. left. reflexivity.
Qed.

Lemma population_is_every_parsable_row_witness :
  (forall userId embedding,
      isValidUser userId embedding = true <->
      exists numbers,
        (embedding = JArray (map JNumber numbers)
         \/ embedding = JArrayLike (map JNumber numbers))
        /\ validRecord userId numbers)
  /\ (forall logs failing,
         validRows {| Users := []; VerificationLogs := logs; failing := failing |})
  /\ (forall foreignKeys userId embedding users d,
         validRows d ->
         validRows (snd (saveUser foreignKeys userId embedding d))
         /\ validRows (snd (saveMultipleUsers foreignKeys users d))
         /\ validRows (snd (deleteUser foreignKeys userId d))
         /\ validRows (snd (logVerification userId d)))
  /\ (forall foreignKeys userId embedding d,
         isValidUser userId embedding = false ->
         saveUser foreignKeys userId embedding d = (Thrown "Invalid user data", d))
  /\ fst (fetchUsers (Scenario.app Scenario.shortDb [])) = Returned tt
  /\ cachedUsers (snd (fetchUsers (Scenario.app Scenario.shortDb [])))
     = usersOfRows (Users (db (Scenario.app Scenario.shortDb [])))
  /\ (forall u, In u (cachedUsers (snd (fetchUsers (Scenario.app Scenario.shortDb [])))) <->
                exists row, In row (Users (db (Scenario.app Scenario.shortDb [])))
                            /\ row_userId row = userId u
                            /\ row_embedding row = JsonNumbers (embedding u))
  /\ (forall u, In u (cachedUsers (snd (fetchUsers (Scenario.app Scenario.shortDb [])))) ->
                validRecord (userId u) (embedding u))
  /\ (forall foreignKeys uid numbers,
         validRecord uid numbers ->
         exists u,
           In u (cachedUsers
                   (snd (fetchUsers
                           (snd (withDb (saveUser foreignKeys uid (asJsArray numbers))
                                        (Scenario.app Scenario.shortDb []))))))
           /\ userId u = uid
           /\ List.length (embedding u) = List.length numbers).
Proof.
  apply (population_is_every_parsable_row (Scenario.app Scenario.shortDb [])).
  - reflexivity.
  - constructor; [ | constructor ].
    exists [1%float]. split; [ reflexivity | ].
    repeat split; [ vm_compute; discriminate | discriminate | repeat constructor ].
Defined.

(** C5 as stated fails: a record whose embedding has a single component
    passes the validation applied on saving, is returned by [getUsers], and
    is part of the population: matching a probe of length 128 against it then
    ends in the generic error outcome. *)
Lemma short_embedding_enters_the_population :
  isValidUser "bob" (JArray [JNumber 1%float]) = true
  /\ getUsers Scenario.shortDb
     = (Returned [ {| userId := "bob"; embedding := [1%float] |} ], Scenario.shortDb)
  /\ cachedUsers (snd (fetchUsers (Scenario.app Scenario.shortDb [])))
     = [ {| userId := "bob"; embedding := [1%float] |} ]
  /\ List.length (embedding {| userId := "bob"; embedding := [1%float] |}) = 1%nat
  /\ (fun N2S => verifyFace N2S [ {| userId := "bob"; embedding := [1%float] |} ]
                            Scenario.v Scenario.healthyDb)
     = (fun _ => (Returned (unverifiedResult "Error during verification"),
                  Scenario.healthyDb)).
Proof. repeat split; vm_compute; reflexivity. Qed.

End PopulationClaims.

Section UserRecordsProperties.

Import UserRecordsFacts.

(** X1.  Saving a valid record and looking it up returns it: on a database
    that accepts the transaction, [saveUser] returns normally and [getUser]
    of the same id then returns a user with that id whose embedding has the
    saved components, each equal as a number to the one saved (a [-0] is read
    back as [0]) and finite. *)
Theorem saveUser_then_getUser
        (foreignKeys : bool) (uid : string) (embedding : JsVal) (db : Db) :
  isValidUser uid embedding = true ->
  failing db = false ->
  exists numbers stored,
    embeddingArrayOf embedding = map JNumber numbers
    /\ fst (saveUser foreignKeys uid embedding db) = Returned tt
    /\ getUser uid (snd (saveUser foreignKeys uid embedding db))
       = (Returned (Some {| userId := uid; embedding := stored |}),
          snd (saveUser foreignKeys uid embedding db))
    /\ Forall2 (fun x n => PrimFloat.eqb x n = true /\ is_finite x = true)
               stored numbers.
Proof.
  intros Hvalid Hdb.
  destruct (isValidUser_items uid embedding Hvalid) as (numbers & Hitems & _ & Hfin).
  exists numbers, (map jsonNumber numbers).
  rewrite (saveUser_valid foreignKeys uid embedding numbers Hvalid Hitems).
  unfold insertOrReplace, getUser. rewrite Hdb. simpl.
  rewrite find_after_replace by reflexivity. simpl.
  repeat split; auto.
  clear Hitems. induction Hfin as [|n numbers Hn Hfin IH]; simpl; constructor; auto.
  apply jsonNumber_eqb. exact Hn.
Qed.

Lemma saveUser_then_getUser_witness :
  exists numbers stored,
    embeddingArrayOf RecordScenario.enrolled = map JNumber numbers
    /\ fst (saveUser true "alice" RecordScenario.enrolled RecordScenario.mixedDb)
       = Returned tt
    /\ getUser "alice"
               (snd (saveUser true "alice" RecordScenario.enrolled
                              RecordScenario.mixedDb))
       = (Returned (Some {| userId := "alice"; embedding := stored |}),
          snd (saveUser true "alice" RecordScenario.enrolled RecordScenario.mixedDb))
    /\ Forall2 (fun x n => PrimFloat.eqb x n = true /\ is_finite x = true)
               stored numbers.
Proof.
  apply (saveUser_then_getUser true "alice" RecordScenario.enrolled
                               RecordScenario.mixedDb).
  - vm_compute. reflexivity.
  - reflexivity.
Defined.

(** X2.  Saving replaces: after a successful [saveUser], [getUsers] lists the
    users it listed before except those with the saved id, in the same order,
    followed by the saved user; so exactly one listed user has that id. *)
Theorem saveUser_replaces_in_listing
        (foreignKeys : bool) (uid : string) (embedding : JsVal) (db : Db) :
  isValidUser uid embedding = true ->
  failing db = false ->
  fst (getUsers (snd (saveUser foreignKeys uid embedding db)))
  = Returned
      (filter (fun u => negb (userId u =? uid)%string) (usersOfRows (Users db))
       ++ [ {| userId := uid;
               embedding := map jsonNumber (numbersOf (embeddingArrayOf embedding)) |} ])%list.
Proof.
  intros Hvalid Hdb.
  destruct (isValidUser_items uid embedding Hvalid) as (numbers & Hitems & _ & _).
  rewrite (saveUser_valid foreignKeys uid embedding numbers Hvalid Hitems).
  rewrite Hitems, numbersOf_numbers.
  unfold insertOrReplace, getUsers. rewrite Hdb. simpl.
  rewrite usersOfRows_app, usersOfRows_filter. reflexivity.
Qed.

Lemma saveUser_replaces_in_listing_witness :
  fst (getUsers (snd (saveUser false "carol" RecordScenario.enrolled
                               RecordScenario.mixedDb)))
  = Returned
      (filter (fun u => negb (userId u =? "carol")%string)
              (usersOfRows (Users RecordScenario.mixedDb))
       ++ [ {| userId := "carol";
               embedding := map jsonNumber
                                (numbersOf (embeddingArrayOf RecordScenario.enrolled)) |} ])%list.
Proof.
  apply (saveUser_replaces_in_listing false "carol" RecordScenario.enrolled
                                      RecordScenario.mixedDb).
  - vm_compute. reflexivity.
  - reflexivity.
Defined.

(** X3.  A call of [saveUser], [saveMultipleUsers] or [deleteUser] that throws
    (invalid data, or a failed transaction) has written nothing. *)
Theorem failed_write_leaves_database_unchanged
        (foreignKeys : bool) (uid : string) (embedding : JsVal)
        (users : list User) (db : Db) :
  (forall e, fst (saveUser foreignKeys uid embedding db) = Thrown e ->
             snd (saveUser foreignKeys uid embedding db) = db)
  /\ (forall e, fst (saveMultipleUsers foreignKeys users db) = Thrown e ->
                snd (saveMultipleUsers foreignKeys users db) = db)
  /\ (forall e, fst (deleteUser foreignKeys uid db) = Thrown e ->
                snd (deleteUser foreignKeys uid db) = db)
  /\ (isValidUser uid embedding = false ->
      saveUser foreignKeys uid embedding db = (Thrown "Invalid user data", db)).
Proof.
  unfold saveUser, saveMultipleUsers, deleteUser, insertOrReplace, throw.
  repeat split.
  - intros e. destruct (isValidUser uid embedding); simpl; [ | reflexivity ].
    destruct (failing db); simpl; [ reflexivity | discriminate ].
  - intros e. destruct (find _ users); simpl; [ reflexivity | ].
    destruct (failing db); simpl; [ reflexivity | discriminate ].
  - intros e. destruct (failing db); simpl; [ reflexivity | discriminate ].
  - intros ->. reflexivity.
Qed.

(** X4.  [saveMultipleUsers] validates every user before it writes: when some
    user is invalid it throws "Invalid data for user: <id>" for the first
    invalid one, and no user of the batch is saved. *)
Theorem saveMultipleUsers_rejects_whole_batch
        (foreignKeys : bool) (before after : list User) (invalid : User) (db : Db) :
  Forall (fun u => isValidUser (userId u) (asJsArray (embedding u)) = true) before ->
  isValidUser (userId invalid) (asJsArray (embedding invalid)) = false ->
  saveMultipleUsers foreignKeys (before ++ invalid :: after) db
  = (Thrown ("Invalid data for user: " ++ userId invalid), db).
Proof.
  intros Hbefore Hinvalid. unfold saveMultipleUsers.
  assert (Hfind : find (fun user => negb (isValidUser (userId user)
                                                      (asJsArray (embedding user))))
                       (before ++ invalid :: after) = Some invalid).
  { induction Hbefore as [|u before Hu Hbefore IH]; simpl.
    - rewrite Hinvalid. reflexivity.
    - rewrite Hu. simpl. exact IH. }
  rewrite Hfind. reflexivity.
Qed.

Lemma saveMultipleUsers_rejects_whole_batch_witness :
  saveMultipleUsers true ([RecordScenario.carol] ++ RecordScenario.blank
                                                 :: [RecordScenario.dave])
                    Scenario.healthyDb
  = (Thrown ("Invalid data for user: " ++ userId RecordScenario.blank),
     Scenario.healthyDb).
Proof.
  apply (saveMultipleUsers_rejects_whole_batch
           true [RecordScenario.carol] [RecordScenario.dave] RecordScenario.blank
           Scenario.healthyDb).
  - repeat constructor.
  - vm_compute. reflexivity.
Defined.

(** X5.  A batch of valid users saved by [saveMultipleUsers] leaves the
    database as saving them one after the other with [saveUser] does (a later
    user of the batch replaces an earlier one with the same id). *)
Theorem saveMultipleUsers_is_repeated_saveUser
        (foreignKeys : bool) (users : list User) (db : Db) :
  Forall (fun u => isValidUser (userId u) (asJsArray (embedding u)) = true) users ->
  snd (saveMultipleUsers foreignKeys users db)
  = fold_left
      (fun d u => snd (saveUser foreignKeys (userId u) (asJsArray (embedding u)) d))
      users db.
Proof.
  intros Hvalid. unfold saveMultipleUsers.
  assert (Hfind : find (fun user => negb (isValidUser (userId user)
                                                      (asJsArray (embedding user))))
                       users = None).
  { induction Hvalid as [|u users Hu Hvalid IH]; simpl; [ reflexivity | ].
    rewrite Hu. simpl. exact IH. }
  rewrite Hfind.
  destruct (failing db) eqn:Hdb; simpl.
  - clear Hfind. induction Hvalid as [|u users Hu Hvalid IH]; simpl; [ reflexivity | ].
    rewrite (saveUser_valid foreignKeys _ _ (embedding u) Hu eq_refl).
    unfold insertOrReplace at 1. rewrite Hdb. simpl. exact IH.
  - clear Hfind. revert db Hdb.
    induction Hvalid as [|u users Hu Hvalid IH]; intros db Hdb; simpl; [ reflexivity | ].
    rewrite (saveUser_valid foreignKeys _ _ (embedding u) Hu eq_refl).
    apply IH. unfold insertOrReplace. rewrite Hdb. reflexivity.
Qed.

Lemma saveMultipleUsers_is_repeated_saveUser_witness :
  snd (saveMultipleUsers true [RecordScenario.carol; RecordScenario.dave;
                               RecordScenario.carol] RecordScenario.mixedDb)
  = fold_left
      (fun d u => snd (saveUser true (userId u) (asJsArray (embedding u)) d))
      [RecordScenario.carol; RecordScenario.dave; RecordScenario.carol]
      RecordScenario.mixedDb.
Proof.
  apply (saveMultipleUsers_is_repeated_saveUser
           true [RecordScenario.carol; RecordScenario.dave; RecordScenario.carol]
           RecordScenario.mixedDb).
  repeat constructor.
Defined.

(** X6.  After a successful [deleteUser], [getUser] of that id returns [null]
    and [getUsers] lists the users it listed before except those with that
    id; deleting an id that has no row leaves the table of users as it was. *)
Theorem deleteUser_removes_the_user (foreignKeys : bool) (uid : string) (db : Db) :
  failing db = false ->
  fst (deleteUser foreignKeys uid db) = Returned tt
  /\ fst (getUser uid (snd (deleteUser foreignKeys uid db))) = Returned None
  /\ fst (getUsers (snd (deleteUser foreignKeys uid db)))
     = Returned (filter (fun u => negb (userId u =? uid)%string)
                        (usersOfRows (Users db)))
  /\ (find (hasUserId uid) (Users db) = None ->
      Users (snd (deleteUser foreignKeys uid db)) = Users db).
Proof.
  intros Hdb. unfold deleteUser, getUser, getUsers. rewrite Hdb. simpl.
  rewrite find_after_delete, usersOfRows_filter.
  repeat split.
  intros Hnone. induction (Users db) as [|r rows IH]; simpl; [ reflexivity | ].
  simpl in Hnone. destruct (hasUserId uid r); [ discriminate | ].
  simpl. rewrite (IH Hnone). reflexivity.
Qed.

Lemma deleteUser_removes_the_user_witness :
  fst (deleteUser true "carol" RecordScenario.mixedDb) = Returned tt
  /\ fst (getUser "carol" (snd (deleteUser true "carol" RecordScenario.mixedDb)))
     = Returned None
  /\ fst (getUsers (snd (deleteUser true "carol" RecordScenario.mixedDb)))
     = Returned (filter (fun u => negb (userId u =? "carol")%string)
                        (usersOfRows (Users RecordScenario.mixedDb)))
  /\ (find (hasUserId "carol") (Users RecordScenario.mixedDb) = None ->
      Users (snd (deleteUser true "carol" RecordScenario.mixedDb))
      = Users RecordScenario.mixedDb).
Proof.
  apply (deleteUser_removes_the_user true "carol" RecordScenario.mixedDb).
  reflexivity.
Defined.

(** X7.  [getUsersCount] counts every row, [getUsers] lists only the rows
    whose embedding parses: the count is the number of listed users plus the
    number of rows with an unparsable embedding. *)
Theorem getUsersCount_counts_unparsable_rows (db : Db) :
  failing db = false ->
  exists users,
    fst (getUsers db) = Returned users
    /\ fst (getUsersCount db)
       = Returned (List.length users + List.length (filter isMalformed (Users db)))%nat.
Proof.
  intros Hdb. unfold getUsers, getUsersCount. rewrite Hdb. simpl.
  eexists. split; [ reflexivity | ]. f_equal.
  induction (Users db) as [|r rows IH]; simpl; [ reflexivity | ].
  unfold isMalformed at 1. destruct (row_embedding r); simpl.
  - rewrite IH. reflexivity.
  - rewrite IH. rewrite Nat.add_succ_r. reflexivity.
Qed.

Lemma getUsersCount_counts_unparsable_rows_witness :
  exists users,
    fst (getUsers RecordScenario.mixedDb) = Returned users
    /\ fst (getUsersCount RecordScenario.mixedDb)
       = Returned (List.length users
                   + List.length (filter isMalformed (Users RecordScenario.mixedDb)))%nat.
Proof.
  apply (getUsersCount_counts_unparsable_rows RecordScenario.mixedDb).
  reflexivity.
Defined.

(** X8.  With unique user ids in the table, looking up agrees with listing:
    a user is listed by [getUsers] exactly when [getUser] of its id returns
    it; and where [getUsers] skips a row whose embedding does not parse,
    [getUser] of that id rejects. *)
Theorem getUser_agrees_with_getUsers (db : Db) :
  failing db = false ->
  NoDup (userIds db) ->
  (forall u, In u (usersOfRows (Users db)) <->
             fst (getUser (userId u) db) = Returned (Some u))
  /\ (forall row, In row (Users db) -> row_embedding row = Malformed ->
                  exists e, fst (getUser (row_userId row) db) = Thrown e).
Proof.
  intros Hdb Hnd. unfold getUser, userIds in *. rewrite Hdb.
  assert (Hfind : forall row, In row (Users db) ->
                              find (hasUserId (row_userId row)) (Users db) = Some row).
  { induction (Users db) as [|r rows IH]; intros row Hin; [ destruct Hin | ].
    simpl in Hnd. inversion Hnd as [|? ? Hnotin Hrest]; subst. simpl.
    destruct Hin as [<-|Hin].
    - unfold hasUserId. rewrite String.eqb_refl. reflexivity.
    - unfold hasUserId at 1. destruct (row_userId r =? row_userId row)%string eqn:E.
      + apply String.eqb_eq in E. exfalso. apply Hnotin. rewrite E.
        apply in_map. exact Hin.
      + apply IH; assumption. }
  split.
  - intros u. rewrite usersOfRows_In. split.
    + intros (row & Hin & Hid & Hemb). rewrite <- Hid, (Hfind row Hin), Hemb. simpl.
      destruct u as [uid emb]. simpl in *. subst. reflexivity.
    + intros Hget. destruct (find (hasUserId (userId u)) (Users db)) as [row|] eqn:E;
        [ | discriminate ].
      apply find_some in E. destruct E as [Hin Hid]. unfold hasUserId in Hid.
      apply String.eqb_eq in Hid. exists row.
      destruct (row_embedding row) as [numbers|]; simpl in Hget; [ | discriminate ].
      injection Hget as <-. simpl. auto.
  - intros row Hin Hmal. rewrite (Hfind row Hin), Hmal. simpl. eauto.
Qed.

Lemma getUser_agrees_with_getUsers_witness :
  (forall u, In u (usersOfRows (Users RecordScenario.mixedDb)) <->
             fst (getUser (userId u) RecordScenario.mixedDb) = Returned (Some u))
  /\ (forall row, In row (Users RecordScenario.mixedDb) ->
                  row_embedding row = Malformed ->
                  exists e, fst (getUser (row_userId row) RecordScenario.mixedDb)
                            = Thrown e).
Proof.
  apply (getUser_agrees_with_getUsers RecordScenario.mixedDb).
  - reflexivity.
  - repeat constructor; simpl; intuition discriminate.
Defined.

(** X9.  The user ids of the table stay unique: if no two rows share an id
    before a call of [saveUser], [saveMultipleUsers] or [deleteUser], none do
    after it. *)
Theorem writes_keep_user_ids_unique
        (foreignKeys : bool) (uid : string) (embedding : JsVal)
        (users : list User) (db : Db) :
  NoDup (userIds db) ->
  NoDup (userIds (snd (saveUser foreignKeys uid embedding db)))
  /\ NoDup (userIds (snd (saveMultipleUsers foreignKeys users db)))
  /\ NoDup (userIds (snd (deleteUser foreignKeys uid db))).
Proof.
  intros Hnd.
  unfold saveUser, saveMultipleUsers, deleteUser, insertOrReplace, throw.
  repeat split.
  - destruct (isValidUser uid embedding); simpl; [ | exact Hnd ].
    destruct (failing db); simpl; [ exact Hnd | ].
    unfold userIds. simpl. apply insert_keeps_NoDup. exact Hnd.
  - destruct (find _ users); simpl; [ exact Hnd | ].
    destruct (failing db) eqn:Hdb; simpl; [ exact Hnd | ].
    apply insertAll_keeps_NoDup; assumption.
  - destruct (failing db); simpl; [ exact Hnd | ].
    unfold userIds. simpl. apply filter_keeps_NoDup. exact Hnd.
Qed.

Lemma writes_keep_user_ids_unique_witness :
  NoDup (userIds (snd (saveUser true "carol" RecordScenario.enrolled
                                RecordScenario.mixedDb)))
  /\ NoDup (userIds (snd (saveMultipleUsers
                            true [RecordScenario.carol; RecordScenario.dave]
                            RecordScenario.mixedDb)))
  /\ NoDup (userIds (snd (deleteUser true "carol" RecordScenario.mixedDb))).
Proof.
  apply (writes_keep_user_ids_unique
           true "carol" RecordScenario.enrolled
           [RecordScenario.carol; RecordScenario.dave] RecordScenario.mixedDb).
  repeat constructor; simpl; intuition discriminate.
Defined.

End UserRecordsProperties.

(** ** More on distances and on the matcher *)

Module DistanceFacts.

Import FloatFacts MatcherFacts.
Local Open Scope float_scope.

Lemma SFleb_antisym x y : SFleb x y = true -> SFleb y x = true -> SFeqb x y = true.
Proof. sf_compare. Qed.

Lemma SFltb_leb x y : SFltb x y = true -> SFleb x y = true.
Proof. sf_compare. Qed.

Lemma leb_antisym x y : (x <=? y) = true -> (y <=? x) = true -> (x =? y) = true.
Proof. rewrite !leb_spec, FloatAxioms.eqb_spec. apply SFleb_antisym. Qed.

Lemma ltb_leb x y : (x <? y) = true -> (x <=? y) = true.
Proof. rewrite ltb_spec, leb_spec. apply SFltb_leb. Qed.

(** Rounding keeps the sign it is given. *)
Lemma binary_round_aux_sign s m e l :
  binary_round_aux prec emax s m e l = S754_nan
  \/ binary_round_aux prec emax s m e l = S754_zero s
  \/ binary_round_aux prec emax s m e l = S754_infinity s
  \/ exists m' e', binary_round_aux prec emax s m e l = S754_finite s m' e'.
Proof.
  unfold binary_round_aux.
  destruct (shr_fexp prec emax m e l) as [mrs' e'].
  destruct (shr_fexp prec emax _ e' loc_Exact) as [mrs'' e''].
  destruct (shr_m mrs'') as [|p|p]; auto.
  destruct (Z.leb e'' (Z.sub emax prec)); eauto 6.
Qed.

Lemma binary_round_aux_opp s m e l :
  binary_round_aux prec emax (negb s) m e l
  = SFopp (binary_round_aux prec emax s m e l).
Proof.
  unfold binary_round_aux.
  destruct (shr_fexp prec emax m e l) as [mrs' e'].
  destruct (shr_fexp prec emax _ e' loc_Exact) as [mrs'' e''].
  destruct (shr_m mrs'') as [|p|p]; try reflexivity.
  destruct (Z.leb e'' (Z.sub emax prec)); reflexivity.
Qed.

(** A square root is never below zero. *)
Lemma sqrt_not_negative x : (sqrt x <? 0) = false.
Proof.
  rewrite ltb_spec, sqrt_spec, Prim2SF_zero. unfold SF64sqrt, SFsqrt.
  destruct (Prim2SF x) as [s|s| |s m e]; try destruct s; try reflexivity.
  destruct (SFsqrt_core_binary prec emax (Zpos m) e) as [[mz ez] lz].
  destruct (binary_round_aux_sign false mz ez lz) as [H|[H|[H|(m' & e' & H)]]];
    rewrite H; reflexivity.
Qed.

(** [y - x] is the opposite of [x - y], or both are zeros. *)
Lemma SFsub_swap x y :
  SF64sub y x = SFopp (SF64sub x y)
  \/ ((exists s, SF64sub x y = S754_zero s) /\ (exists s, SF64sub y x = S754_zero s)).
Proof.
  unfold SF64sub, SFsub.
  destruct x as [sx|sx| |sx mx ex], y as [sy|sy| |sy my ey].
  all: try solve [ repeat match goal with s : bool |- _ => destruct s end; simpl;
                   first [ left; reflexivity | right; split; eexists; reflexivity ] ].
  rewrite (Z.min_comm ey ex).
  set (a := cond_Zopp sx (Zpos (fst (shl_align mx ex (Z.min ex ey))))).
  set (b := cond_Zopp sy (Zpos (fst (shl_align my ey (Z.min ex ey))))).
  replace (Z.sub b a) with (Z.opp (Z.sub a b)) by lia.
  destruct (Z.sub a b) as [|p|p]; simpl.
  - right. eauto.
  - left. unfold binary_round.
    destruct (shl_align p (Z.min ex ey) _) as [mz ez].
    apply (binary_round_aux_opp false).
  - left. unfold binary_round.
    destruct (shl_align p (Z.min ex ey) _) as [mz ez].
    rewrite <- (binary_round_aux_opp true). reflexivity.
Qed.

Lemma SFmul_opp z : SF64mul (SFopp z) (SFopp z) = SF64mul z z.
Proof.
  unfold SF64mul, SFmul. destruct z as [s|s| |s m e]; simpl; try reflexivity;
    destruct s; reflexivity.
Qed.

Lemma SFmul_zeros s1 s2 :
  SF64mul (S754_zero s1) (S754_zero s1) = SF64mul (S754_zero s2) (S754_zero s2).
Proof. destruct s1, s2; reflexivity. Qed.

(** The squared difference does not depend on the order of its operands. *)
Lemma pow2_sub_swap x y : Math_pow2 (x - y) = Math_pow2 (y - x).
Proof.
  unfold Math_pow2. apply Prim2SF_inj. rewrite !mul_spec, !sub_spec.
  destruct (SFsub_swap (Prim2SF x) (Prim2SF y)) as [H|[[s1 H1] [s2 H2]]].
  - rewrite H, SFmul_opp. reflexivity.
  - rewrite H1, H2. apply SFmul_zeros.
Qed.

(** The loop of [reduce], with the other embedding read from the index on. *)
Lemma reduce_from_pairs (f : float -> float -> float) emb1 : forall seen emb2 acc,
  List.length emb1 = List.length emb2 ->
  reduce_from (fun sum val i => f sum (val - at_index (seen ++ emb2) i))
              emb1 (List.length seen) acc
  = fold_left (fun sum ab => f sum (fst ab - snd ab)) (combine emb1 emb2) acc.
Proof.
  induction emb1 as [|a emb1 IH]; intros seen emb2 acc Hlen; [ reflexivity | ].
  destruct emb2 as [|b emb2]; [ discriminate | ]. simpl.
  unfold at_index at 2. rewrite nth_middle.
  specialize (IH (seen ++ [b])%list emb2 (f acc (a - b))).
  rewrite <- app_assoc, length_app, Nat.add_1_r in IH. simpl in IH.
  apply IH. simpl in Hlen. congruence.
Qed.

Lemma sum_of_squares_swap emb1 : forall emb2 acc,
  fold_left (fun sum ab => sum + Math_pow2 (fst ab - snd ab)) (combine emb1 emb2) acc
  = fold_left (fun sum ab => sum + Math_pow2 (fst ab - snd ab)) (combine emb2 emb1) acc.
Proof.
  induction emb1 as [|a emb1 IH]; intros emb2 acc.
  - destruct emb2; reflexivity.
  - destruct emb2 as [|b emb2]; [ reflexivity | ]. simpl.
    rewrite (pow2_sub_swap a b). apply IH.
Qed.

Lemma calculateEuclideanDistance_pairs emb1 emb2 :
  List.length emb1 = List.length emb2 ->
  calculateEuclideanDistance emb1 emb2
  = Returned
      (sqrt (fold_left (fun sum ab => sum + Math_pow2 (fst ab - snd ab))
                       (combine emb1 emb2) 0)).
Proof.
  intros Hlen. unfold calculateEuclideanDistance, reduce.
  rewrite Hlen, Nat.eqb_refl. simpl negb. cbv iota.
  pose proof (reduce_from_pairs (fun sum d => sum + Math_pow2 d) emb1 [] emb2 0 Hlen)
    as H.
  simpl in H. rewrite H. reflexivity.
Qed.

(** The distance to the embedding read back from the database is zero. *)
Lemma pow2_sub_stored x : is_finite x = true -> Math_pow2 (x - jsonNumber x) = 0.
Proof.
  intros Hfin. unfold jsonNumber, is_zero.
  destruct (PrimFloat.eqb x PrimFloat.zero) eqn:Hz.
  - unfold Math_pow2. apply Prim2SF_inj. rewrite mul_spec, sub_spec, Prim2SF_zero.
    rewrite FloatAxioms.eqb_spec in Hz.
    change (Prim2SF PrimFloat.zero) with (S754_zero false) in Hz.
    destruct (Prim2SF x) as [s|s| |s m e]; try destruct s; try discriminate;
      reflexivity.
  - rewrite (sub_self x Hfin). reflexivity.
Qed.

Lemma distance_to_stored v :
  Forall (fun x => is_finite x = true) v ->
  calculateEuclideanDistance v (map jsonNumber v) = Returned 0.
Proof.
  intros Hfin.
  rewrite calculateEuclideanDistance_pairs by (rewrite length_map; reflexivity).
  assert (H : fold_left (fun sum ab => sum + Math_pow2 (fst ab - snd ab))
                        (combine v (map jsonNumber v)) 0 = 0).
  { induction Hfin as [|x v Hx Hfin IH]; [ reflexivity | ]. simpl.
    rewrite (pow2_sub_stored x Hx). exact IH. }
  rewrite H. reflexivity.
Qed.

(** A scan that returns has found every embedding of the probe's length. *)
Lemma scanUsers_returned_lengths newEmbedding users : forall c c',
  scanUsers newEmbedding users c = Returned c' ->
  Forall (fun u => List.length (embedding u) = List.length newEmbedding) users.
Proof.
  induction users as [|u users IH]; intros c c' Hscan; [ constructor | ].
  simpl in Hscan.
  destruct (calculateEuclideanDistance newEmbedding (embedding u)) as [d|e] eqn:Hd;
    [ | discriminate ].
  constructor; [ | eapply IH; exact Hscan ].
  destruct (Nat.eq_dec (List.length newEmbedding) (List.length (embedding u)))
    as [Heq|Hneq]; [ congruence | ].
  destruct (calculateEuclideanDistance_length_mismatch _ _ Hneq) as [e He].
  congruence.
Qed.

(** A scan over a population with an embedding of another length throws. *)
Lemma scanUsers_throws newEmbedding users : forall c u,
  In u users ->
  List.length (embedding u) <> List.length newEmbedding ->
  exists e, scanUsers newEmbedding users c = Thrown e.
Proof.
  intros c u Hin Hlen.
  destruct (scanUsers newEmbedding users c) as [c'|e] eqn:Hscan; [ | eauto ].
  pose proof (scanUsers_returned_lengths _ _ _ _ Hscan) as Hall.
  rewrite Forall_forall in Hall. specialize (Hall u Hin). contradiction.
Qed.

End DistanceFacts.

Module MatcherMore.

Import FloatFacts MatcherFacts MatcherOutcome DistanceFacts UserRecordsFacts.
Local Open Scope float_scope.

Lemma distance_not_negative emb1 emb2 d :
  calculateEuclideanDistance emb1 emb2 = Returned d -> (d <? 0) = false.
Proof.
  unfold calculateEuclideanDistance.
  destruct (negb (List.length emb1 =? List.length emb2)%nat); [ discriminate | ].
  intros [= <-]. apply sqrt_not_negative.
Qed.

(** With a user at distance zero in the population, the probe is verified,
    at distance zero. *)
Lemma zero_distance_is_verified N2S cachedUsers newEmbedding db u :
  List.length newEmbedding = 128%nat ->
  Forall (fun u => List.length (embedding u) = 128%nat) cachedUsers ->
  In u cachedUsers ->
  distanceIs newEmbedding u 0 ->
  failing db = false ->
  exists w d,
    verifyFace N2S cachedUsers newEmbedding db
    = (Returned (verifiedResult w d), logged (userId w) db)
    /\ In w cachedUsers
    /\ (d =? 0) = true.
Proof.
  intros Hlen Hpop Hin Hzero Hdb.
  destruct (scanUsers_FirstMinimum newEmbedding cachedUsers)
    as (closest & Hscan & Hmin).
  { eapply Forall_impl; [ | exact Hpop ]. simpl. intros v Hv. congruence. }
  assert (Hne : cachedUsers <> []) by (intros ->; destruct Hin).
  rewrite (verifyFace_after_scan N2S _ _ db closest Hlen Hne Hscan).
  unfold FirstMinimum in Hmin. unfold decisionOn.
  destruct (cm_user closest) as [w|].
  - destruct Hmin as (before & after & Husers & Hw & Hinf & Hbefore & Hafter).
    pose proof (distance_not_negative _ _ _ Hw) as Hpos.
    assert (Hle : (cm_distance closest <=? 0) = true).
    { rewrite Husers in Hin. apply in_app_or in Hin. destruct Hin as [Hin|[<-|Hin]].
      - destruct (Hbefore u 0 Hin Hzero) as [H|H]; [ congruence | discriminate H ].
      - unfold distanceIs in *. rewrite Hw in Hzero. injection Hzero as ->. reflexivity.
      - destruct (Hafter u 0 Hin Hzero) as [H|H]; [ exact H | discriminate H ]. }
    assert (Hge : (0 <=? cm_distance closest) = true).
    { destruct (ltb_false _ _ Hpos) as [H|[H|H]]; [ | discriminate H | exact H ].
      rewrite (ltb_not_nan _ _ Hinf) in H. discriminate. }
    rewrite (leb_ltb_trans _ 0 0.6 Hle eq_refl), Hdb.
    exists w, (cm_distance closest). repeat split.
    + rewrite Husers. apply in_or_app. right. left. reflexivity.
    + apply leb_antisym; assumption.
  - destruct Hmin as [_ Hall]. specialize (Hall u 0 Hin Hzero). discriminate.
Qed.

End MatcherMore.

Module MatcherScenario.

Local Open Scope float_scope.

Definition bob : User := {| userId := "bob"; embedding := Scenario.noisy |}.

(** A record whose embedding has only two components. *)
Definition short : User := {| userId := "eve"; embedding := [0.25; 0.75] |}.

End MatcherScenario.

Section MatcherProperties.

Import FloatFacts MatcherFacts MatcherOutcome DistanceFacts MatcherMore
       UserRecordsFacts.
Local Open Scope float_scope.

(** X10.  The distance does not depend on the order of its arguments: for
    embeddings of the same length [calculateEuclideanDistance] returns the
    same double both ways; for embeddings of different lengths it throws both
    ways. *)
Theorem calculateEuclideanDistance_symmetric (emb1 emb2 : list float) :
  (List.length emb1 = List.length emb2 ->
   calculateEuclideanDistance emb1 emb2 = calculateEuclideanDistance emb2 emb1)
  /\ (List.length emb1 <> List.length emb2 ->
      (exists e, calculateEuclideanDistance emb1 emb2 = Thrown e)
      /\ (exists e, calculateEuclideanDistance emb2 emb1 = Thrown e)).
Proof.
  split.
  - intros Hlen.
    rewrite (calculateEuclideanDistance_pairs emb1 emb2 Hlen).
    rewrite (calculateEuclideanDistance_pairs emb2 emb1 (eq_sym Hlen)).
    rewrite sum_of_squares_swap. reflexivity.
  - intros Hlen. split; apply calculateEuclideanDistance_length_mismatch; congruence.
Qed.

(** X11.  A distance that [calculateEuclideanDistance] returns is never below
    zero, whatever the embeddings hold. *)
Theorem calculateEuclideanDistance_not_negative (emb1 emb2 : list float) (d : float) :
  calculateEuclideanDistance emb1 emb2 = Returned d -> (d <? 0) = false.
Proof. apply distance_not_negative. Qed.

Lemma calculateEuclideanDistance_not_negative_witness :
  (0.8 <? 0) = false.
Proof.
  apply (calculateEuclideanDistance_not_negative Scenario.noisy Scenario.v 0.8).
  vm_compute. reflexivity.
Defined.

(** X12.  A verified result is sound: whenever [verifyFace] returns
    [verified: true], the user it names is in the cached population, the
    distance it reports is the one computed for that user, it is below 0.6,
    no user of the population is strictly closer, and the verification event
    of that user, and nothing else, has been added to the database. *)
Theorem verified_result_is_sound
        (N2S : float -> string) (cachedUsers : list User)
        (newEmbedding : list float) (db db' : Db) (result : VerificationResult) :
  verifyFace N2S cachedUsers newEmbedding db = (Returned result, db') ->
  verified result = true ->
  exists u d,
    In u cachedUsers
    /\ result = verifiedResult u d
    /\ db' = logged (userId u) db
    /\ calculateEuclideanDistance newEmbedding (embedding u) = Returned d
    /\ (d <? 0.6) = true
    /\ (forall v dv, In v cachedUsers ->
                     calculateEuclideanDistance newEmbedding (embedding v) = Returned dv ->
                     (dv <? d) = false).
Proof.
  intros Hrun Hverified.
  destruct (verifyFace_cases N2S cachedUsers newEmbedding db)
    as [[reason Hcase]|(closest & Hscan & Hcase)]; rewrite Hcase in Hrun.
  - injection Hrun as <- _. discriminate.
  - pose proof (scanUsers_returned_lengths _ _ _ _ Hscan) as Hlen.
    destruct (scanUsers_invariant newEmbedding cachedUsers [] noMatch Hlen
                (ScanInvariant_initial newEmbedding)) as (c & Hscan' & [Hall Hsel]).
    simpl in Hscan'. rewrite Hscan in Hscan'. injection Hscan' as <-.
    unfold decisionOn in Hrun.
    destruct (cm_user closest) as [u|];
      [ | injection Hrun as <- _; discriminate ].
    destruct (cm_distance closest <? 0.6) eqn:Hthr;
      [ | injection Hrun as <- _; discriminate ].
    destruct (failing db); injection Hrun as <- <-; [ discriminate | ].
    destruct Hsel as (before & after & Husers & Hu & _).
    exists u, (cm_distance closest). repeat split; auto.
    simpl in Husers. rewrite Husers. apply in_or_app. right. left. reflexivity.
Qed.

Lemma verified_result_is_sound_witness :
  exists u d,
    In u [MatcherScenario.bob; Scenario.alice]
    /\ verifiedResult Scenario.alice 0 = verifiedResult u d
    /\ logged "alice" Scenario.healthyDb = logged (userId u) Scenario.healthyDb
    /\ calculateEuclideanDistance Scenario.v (embedding u) = Returned d
    /\ (d <? 0.6) = true
    /\ (forall v dv, In v [MatcherScenario.bob; Scenario.alice] ->
                     calculateEuclideanDistance Scenario.v (embedding v) = Returned dv ->
                     (dv <? d) = false).
Proof.
  apply (verified_result_is_sound
           Scenario.printLarge [MatcherScenario.bob; Scenario.alice] Scenario.v
           Scenario.healthyDb (logged "alice" Scenario.healthyDb)
           (verifiedResult Scenario.alice 0)).
  - vm_compute. reflexivity.
  - reflexivity.
Defined.

(** X13.  A probe equal to an enrolled embedding is verified: with a probe
    of length 128 and finite components, a population of embeddings of length
    128 one of which is the probe itself, and a database that accepts the
    event, [verifyFace] returns [verified: true] at a distance equal to zero,
    for a user of the population (the first one at distance zero). *)
Theorem enrolled_probe_is_verified
        (N2S : float -> string) (cachedUsers : list User)
        (newEmbedding : list float) (db : Db) (u : User) :
  List.length newEmbedding = 128%nat ->
  Forall (fun x => is_finite x = true) newEmbedding ->
  Forall (fun u => List.length (embedding u) = 128%nat) cachedUsers ->
  In u cachedUsers ->
  embedding u = newEmbedding ->
  failing db = false ->
  exists w d,
    verifyFace N2S cachedUsers newEmbedding db
    = (Returned (verifiedResult w d), logged (userId w) db)
    /\ In w cachedUsers
    /\ (d =? 0) = true.
Proof.
  intros Hlen Hfin Hpop Hin Hu Hdb.
  apply (zero_distance_is_verified N2S cachedUsers newEmbedding db u); auto.
  unfold distanceIs. rewrite Hu. apply distance_to_self. exact Hfin.
Qed.

Lemma enrolled_probe_is_verified_witness :
  exists w d,
    verifyFace Scenario.printLarge [Scenario.alice; MatcherScenario.bob]
               Scenario.noisy Scenario.healthyDb
    = (Returned (verifiedResult w d), logged (userId w) Scenario.healthyDb)
    /\ In w [Scenario.alice; MatcherScenario.bob]
    /\ (d =? 0) = true.
Proof.
  apply (enrolled_probe_is_verified
           Scenario.printLarge [Scenario.alice; MatcherScenario.bob]
           Scenario.noisy Scenario.healthyDb MatcherScenario.bob).
  - reflexivity.
  - apply Forall_forall. intros x Hx.
    destruct Hx as [<-|Hx]; [ reflexivity | ].
    apply repeat_spec in Hx. subst. reflexivity.
  - repeat constructor.
  - right. left. reflexivity.
  - reflexivity.
  - reflexivity.
Defined.

(** X14.  One record of another length disables matching for everyone: if
    the cached population holds a user whose embedding is not of length 128,
    [verifyFace] of any probe of length 128 returns the unverified result
    "Error during verification" and writes nothing, whoever else is
    enrolled. *)
Theorem record_of_other_length_disables_matching
        (N2S : float -> string) (cachedUsers : list User)
        (newEmbedding : list float) (db : Db) (u : User) :
  List.length newEmbedding = 128%nat ->
  In u cachedUsers ->
  List.length (embedding u) <> 128%nat ->
  verifyFace N2S cachedUsers newEmbedding db
  = (Returned (unverifiedResult "Error during verification"), db).
Proof.
  intros Hlen Hin Hshort.
  destruct (scanUsers_throws newEmbedding cachedUsers noMatch u Hin) as [e Hscan];
    [ congruence | ].
  apply (verifyFace_scan_throws N2S _ _ db e Hlen); [ | exact Hscan ].
  intros ->. destruct Hin.
Qed.

Lemma record_of_other_length_disables_matching_witness :
  verifyFace Scenario.printLarge [Scenario.alice; MatcherScenario.short]
             Scenario.v Scenario.healthyDb
  = (Returned (unverifiedResult "Error during verification"), Scenario.healthyDb).
Proof.
  apply (record_of_other_length_disables_matching
           Scenario.printLarge [Scenario.alice; MatcherScenario.short]
           Scenario.v Scenario.healthyDb MatcherScenario.short).
  - reflexivity.
  - right. left. reflexivity.
  - simpl. lia.
Defined.

(** X15.  With an empty population nothing is ever verified or logged: a
    probe of length 128 gets the reason "No users registered", any other
    probe the reason of its invalid length. *)
Theorem empty_population_is_never_verified
        (N2S : float -> string) (newEmbedding : list float) (db : Db) :
  verifyFace N2S [] newEmbedding db
  = (Returned (unverifiedResult
                 (if (List.length newEmbedding =? 128)%nat
                  then "No users registered"
                  else ("Invalid embedding length: "
                        ++ natToString (List.length newEmbedding))%string)), db).
Proof.
  destruct (List.length newEmbedding =? 128)%nat eqn:Hlen.
  - apply Nat.eqb_eq in Hlen. apply verifyFace_no_users. exact Hlen.
  - apply Nat.eqb_neq in Hlen. apply verifyFace_invalid_length. exact Hlen.
Qed.

(** X16.  Enrol, then verify: after a valid record with an embedding of
    length 128 has been saved into a database whose parsable rows all hold
    embeddings of length 128, matching that same embedding against the users
    that [getUsers] then lists is verified, at a distance equal to zero. *)
Theorem saved_embedding_is_verified
        (N2S : float -> string) (foreignKeys : bool) (uid : string)
        (embedding : JsVal) (probe : list float) (db : Db) :
  isValidUser uid embedding = true ->
  embeddingArrayOf embedding = map JNumber probe ->
  List.length probe = 128%nat ->
  failing db = false ->
  Forall (fun u => List.length (Database.embedding u) = 128%nat)
         (usersOfRows (Users db)) ->
  exists population w d,
    fst (getUsers (snd (saveUser foreignKeys uid embedding db))) = Returned population
    /\ verifyFace N2S population probe (snd (saveUser foreignKeys uid embedding db))
       = (Returned (verifiedResult w d),
          logged (userId w) (snd (saveUser foreignKeys uid embedding db)))
    /\ In w population
    /\ (d =? 0) = true.
Proof.
  intros Hvalid Hitems Hlen Hdb Hrows.
  destruct (isValidUser_items uid embedding Hvalid) as (numbers & Hnum & _ & Hfin).
  assert (Hsame : numbers = probe).
  { rewrite Hitems in Hnum. clear - Hnum. revert numbers Hnum.
    induction probe as [|x probe IH]; intros [|n numbers] H; try discriminate;
      [ reflexivity | ].
    simpl in H. injection H as -> H. f_equal. apply IH. exact H. }
  subst numbers.
  rewrite (saveUser_valid foreignKeys uid embedding probe Hvalid Hitems).
  unfold insertOrReplace, getUsers. rewrite Hdb. simpl.
  rewrite usersOfRows_app, usersOfRows_filter. simpl.
  set (saved := {| userId := uid; Database.embedding := map jsonNumber probe |}).
  set (population := (filter (fun u => negb (userId u =? uid)%string)
                             (usersOfRows (Users db)) ++ [saved])%list).
  destruct (zero_distance_is_verified
              N2S population probe
              {| Users := (filter (fun row => negb (hasUserId uid row)) (Users db)
                           ++ [ {| row_userId := uid;
                                   row_embedding := JSON_stringify probe |} ])%list;
                 VerificationLogs := cascade foreignKeys uid db;
                 failing := false |} saved) as (w & d & Hrun & Hw & Hd).
  - exact Hlen.
  - unfold population. apply Forall_app. split.
    + rewrite Forall_forall in *. intros u Hu. apply filter_In in Hu. apply Hrows, Hu.
    + constructor; [ | constructor ]. simpl. rewrite length_map. exact Hlen.
  - unfold population. apply in_or_app. right. left. reflexivity.
  - unfold distanceIs. simpl. apply distance_to_stored. exact Hfin.
  - reflexivity.
  - exists population, w, d. auto.
Qed.

Lemma saved_embedding_is_verified_witness :
  exists population w d,
    fst (getUsers (snd (saveUser true "bob" RecordScenario.enrolled
                                 Scenario.healthyDb))) = Returned population
    /\ verifyFace Scenario.printLarge population Scenario.noisy
                  (snd (saveUser true "bob" RecordScenario.enrolled Scenario.healthyDb))
       = (Returned (verifiedResult w d),
          logged (userId w)
                 (snd (saveUser true "bob" RecordScenario.enrolled Scenario.healthyDb)))
    /\ In w population
    /\ (d =? 0) = true.
Proof.
  apply (saved_embedding_is_verified
           Scenario.printLarge true "bob" RecordScenario.enrolled Scenario.noisy
           Scenario.healthyDb).
  - vm_compute. reflexivity.
  - reflexivity.
  - reflexivity.
  - reflexivity.
  - constructor.
Defined.

End MatcherProperties.


(** ** More on the Gate Link *)

Module GateWire.

Import GateFacts.

Definition hasDevice (g : Gate) : bool :=
  match device g with Some _ => true | None => false end.


(** What [sendCommand] does, in full. *)
Lemma sendCommand_run command answer g :
  sendCommand command answer g
  = if negb (isConnected g) || negb (hasDevice g) then
      (Returned tt, snd (Alert_alert "Error" "Not connected to ESP32" g))
    else if negb (isAuthenticated g) && negb (startsWith command "AUTHENTICATE") then
      (Returned tt,
       snd (Alert_alert "Error" "Must authenticate before sending commands" g))
    else
      match answer with
      | Returned _ =>
          (Returned tt,
           snd (addResponse ("Sent: " ++ command) (snd (transmit (command ++ LF) g))))
      | Thrown _ => (Returned tt, g)
      end.
Proof.
  unfold sendCommand, hasDevice, bind, get.
  destruct (negb (isConnected g)
            || negb match device g with Some _ => true | None => false end);
    [ reflexivity | ].
  destruct (negb (isAuthenticated g) && negb (startsWith command "AUTHENTICATE"));
    [ reflexivity | ].
  destruct answer; reflexivity.
Qed.






Lemma cleanup_written answer g : written (snd (cleanup answer g)) = written g.
Proof. reflexivity. Qed.

Lemma onDataReceived_written data g :
  written (snd (onDataReceived data g)) = written g
  /\ fst (onDataReceived data g) = Returned tt.
Proof.
  gate_unfold; simpl.
  destruct (trim data =? "AUTH_SUCCESS")%string; simpl; auto.
  destruct (trim data =? "AUTH_FAILED")%string; simpl; auto.
  destruct (trim data =? "NOT_AUTHENTICATED")%string; simpl; auto.
Qed.

Lemma deliver_written data n : forall g,
  written (snd (deliver n data g)) = written g.
Proof.
  induction n as [|n IH]; intros g; simpl; [ reflexivity | ].
  unfold bind. destruct (onDataReceived_written data g) as [Hw Hr].
  destruct (onDataReceived data g) as [o g1]. simpl in *. subst o.
  rewrite IH. exact Hw.
Qed.



End GateWire.

Module GateFlows.

Import GateFacts GateWire.




Lemma deliver_sets data n : forall g,
  (0 < n)%nat ->
  isAuthenticated (snd (deliver n data g))
  = if (trim data =? "AUTH_SUCCESS")%string then true
    else if (trim data =? "AUTH_FAILED")%string then false
         else isAuthenticated g.
Proof.
  induction n as [|n IH]; intros g Hn; [ lia | ].
  simpl. unfold bind.
  destruct (onDataReceived_written data g) as [_ Hr].
  pose proof (onDataReceived_effect data g) as He.
  destruct (onDataReceived data g) as [o g1]. simpl in *. subst o.
  destruct He as (_ & _ & _ & Ha).
  destruct n as [|n]; [ simpl; exact Ha | ].
  rewrite IH by lia. rewrite Ha.
  destruct (trim data =? "AUTH_SUCCESS")%string; [ reflexivity | ].
  destruct (trim data =? "AUTH_FAILED")%string; reflexivity.
Qed.

End GateFlows.

Module GateFlowScenario.

(** The handshake line is written, then rejected by the transport. *)
Definition handshakeFails : ConnectAnswers :=
  {| enableBluetooth := Returned tt;
     permissionCheck := Returned true;
     permissionRequest := Returned true;
     bondedDevices := Returned [GateScenario.gateDevice];
     connectResult := Returned true;
     authWrite := Thrown "Not connected" |}.


End GateFlowScenario.

Section GateProperties.

Import GateFacts GateWire GateFlows.



(** X18.  [connectToESP32] never throws.  When it returns [true] the hook is
    connected on an open link, holds a device, has its permissions, and the
    handshake line "AUTHENTICATE MySecurePass123" followed by a line feed is
    the one line it has written; when it returns anything else it has written
    nothing.  It never changes [isAuthenticated]. *)
Theorem connectToESP32_outcome (env : ConnectAnswers) (g : Gate) :
  exists r,
    fst (connectToESP32 env g) = Returned r
    /\ isAuthenticated (snd (connectToESP32 env g)) = isAuthenticated g
    /\ match r with
       | Some true =>
           isConnected (snd (connectToESP32 env g)) = true
           /\ linkOpen (snd (connectToESP32 env g)) = true
           /\ hasPermissions (snd (connectToESP32 env g)) = true
           /\ hasDevice (snd (connectToESP32 env g)) = true
           /\ written (snd (connectToESP32 env g)) = (written g ++ [handshake])%list
       | _ => written (snd (connectToESP32 env g)) = written g
       end.
Proof.
  destruct env as [eb pc pr bd cr aw].
  gate_unfold; simpl. gate_cases.
  all: eexists; split; [ reflexivity | ]; simpl; repeat split; reflexivity.
Qed.

(** X19.  When the link opens but the write of the handshake is rejected,
    [connectToESP32] reports a connection error and returns [false], yet the
    hook is left connected on an open link, with one more data listener and
    nothing written. *)
Theorem failed_handshake_leaves_hook_connected
        (env : ConnectAnswers) (g : Gate)
        (devices : list BluetoothDevice) (espDevice : BluetoothDevice) (e : string) :
  enableBluetooth env = Returned tt ->
  permissionCheck env = Returned true ->
  bondedDevices env = Returned devices ->
  find (fun d => (name d =? ESP32_DEVICE_NAME)%string) devices = Some espDevice ->
  connectResult env = Returned true ->
  authWrite env = Thrown e ->
  fst (connectToESP32 env g) = Returned (Some false)
  /\ isConnected (snd (connectToESP32 env g)) = true
  /\ linkOpen (snd (connectToESP32 env g)) = true
  /\ device (snd (connectToESP32 env g)) = Some espDevice
  /\ listeners (snd (connectToESP32 env g)) = S (listeners g)
  /\ written (snd (connectToESP32 env g)) = written g
  /\ alerts (snd (connectToESP32 env g))
     = (alerts g ++ [("Connection Error", ("Bluetooth error: " ++ e)%string)])%list.
Proof.
  intros Heb Hpc Hbd Hfind Hcr Haw.
  unfold connectToESP32. rewrite Heb, Hpc, Hbd, Hcr, Haw.
  gate_unfold. simpl. rewrite Hfind. simpl. repeat split.
Qed.

Lemma failed_handshake_leaves_hook_connected_witness :
  fst (connectToESP32 GateFlowScenario.handshakeFails initialGate) = Returned (Some false)
  /\ isConnected (snd (connectToESP32 GateFlowScenario.handshakeFails initialGate)) = true
  /\ linkOpen (snd (connectToESP32 GateFlowScenario.handshakeFails initialGate)) = true
  /\ device (snd (connectToESP32 GateFlowScenario.handshakeFails initialGate))
     = Some GateScenario.gateDevice
  /\ listeners (snd (connectToESP32 GateFlowScenario.handshakeFails initialGate))
     = S (listeners initialGate)
  /\ written (snd (connectToESP32 GateFlowScenario.handshakeFails initialGate))
     = written initialGate
  /\ alerts (snd (connectToESP32 GateFlowScenario.handshakeFails initialGate))
     = (alerts initialGate
        ++ [("Connection Error", ("Bluetooth error: " ++ "Not connected")%string)])%list.
Proof.
  apply (failed_handshake_leaves_hook_connected
           GateFlowScenario.handshakeFails initialGate
           [GateScenario.gateDevice] GateScenario.gateDevice "Not connected");
    reflexivity.
Defined.



(** X21.  Authentication can be retried by hand: on a connected hook that
    holds a device and has a listener on an open link, a command starting
    with AUTHENTICATE is written although the hook is not authenticated; once
    a line trimming to AUTH_SUCCESS is received the hook is authenticated and
    the next command is written too.  The wire then holds exactly these two
    lines more, each ended by a line feed. *)
Theorem manual_reauthentication_opens_the_gate
        (g : Gate) (retry data command : string) :
  isConnected g = true ->
  hasDevice g = true ->
  linkOpen g = true ->
  (0 < listeners g)%nat ->
  startsWith retry "AUTHENTICATE" = true ->
  trim data = "AUTH_SUCCESS" ->
  exists g3,
    runEvents [Send retry (Returned tt); DataReceived data; Send command (Returned tt)] g
    = Some g3
    /\ isAuthenticated g3 = true
    /\ written g3 = (written g ++ [(retry ++ LF)%string; (command ++ LF)%string])%list.
Proof.
  intros Hc Hd Hl Hn Hretry Htrim. simpl.
  rewrite sendCommand_run, Hc, Hd, Hretry. simpl.
  rewrite andb_false_r. simpl. rewrite Hl.
  match goal with
  | |- context [deliver ?n data ?x] => set (g1 := x); set (g2 := snd (deliver n data g1))
  end.
  assert (Hauth : isAuthenticated g2 = true).
  { unfold g2. rewrite (deliver_sets data (listeners g) g1 Hn), Htrim. reflexivity. }
  destruct (deliver_effect data (listeners g) g1) as (Hc2 & _ & Hd2 & _).
  fold g2 in Hc2, Hd2.
  pose proof (deliver_written data (listeners g) g1) as Hw2. fold g2 in Hw2.
  eexists. split; [ reflexivity | ].
  assert (Hd2' : hasDevice g2 = true).
  { unfold hasDevice in *. rewrite Hd2. exact Hd. }
  rewrite sendCommand_run, Hc2, Hd2', Hauth.
  change (isConnected g1) with (isConnected g). rewrite Hc. simpl.
  split; [ exact Hauth | ].
  rewrite Hw2. unfold g1. simpl. rewrite <- app_assoc. reflexivity.
Qed.

Lemma manual_reauthentication_opens_the_gate_witness :
  exists g3,
    runEvents [Send "AUTHENTICATE MySecurePass123" (Returned tt);
               DataReceived ("AUTH_SUCCESS" ++ LF);
               Send "FACE_DETECTED" (Returned tt)] GateScenario.connectedGate
    = Some g3
    /\ isAuthenticated g3 = true
    /\ written g3
       = (written GateScenario.connectedGate
          ++ [("AUTHENTICATE MySecurePass123" ++ LF)%string; ("FACE_DETECTED" ++ LF)%string])%list.
Proof.
  apply (manual_reauthentication_opens_the_gate
           GateScenario.connectedGate "AUTHENTICATE MySecurePass123"
           ("AUTH_SUCCESS" ++ LF) "FACE_DETECTED").
  - reflexivity.
  - reflexivity.
  - reflexivity.
  - vm_compute. lia.
  - reflexivity.
  - reflexivity.
Defined.

(** X22.  Connecting and disconnecting with [toggleBluetoothConnection]: when
    the toggle to connect returns [true] and the transport then accepts the
    disconnection, the toggle to disconnect returns [true] and leaves the
    hook disconnected, unauthenticated, without a device, on a closed link;
    the handshake is the only line the two calls have written. *)
Theorem toggle_connect_then_disconnect
        (env env' : ConnectAnswers) (answer : Outcome unit) (g : Gate) :
  fst (toggleBluetoothConnection true env answer g) = Returned (Some true) ->
  exists g2,
    toggleBluetoothConnection false env' (Returned tt)
                              (snd (toggleBluetoothConnection true env answer g))
    = (Returned (Some true), g2)
    /\ isConnected g2 = false
    /\ isAuthenticated g2 = false
    /\ device g2 = None
    /\ linkOpen g2 = false
    /\ written g2 = (written g ++ [handshake])%list.
Proof.
  unfold toggleBluetoothConnection. intros Htrue.
  destruct (connectToESP32_outcome env g) as (r & Hr & _ & Hstate).
  rewrite Htrue in Hr. injection Hr as <-.
  destruct Hstate as (Hc & _ & _ & Hd & Hw).
  set (g1 := snd (connectToESP32 env g)) in *.
  unfold hasDevice in Hd. destruct (device g1) as [d|] eqn:Hdev; [ | discriminate ].
  gate_unfold. cbv beta. rewrite Hdev, Hc. simpl. eexists. split; [ reflexivity | ]. simpl.
  repeat split. exact Hw.
Qed.

Lemma toggle_connect_then_disconnect_witness :
  exists g2,
    toggleBluetoothConnection false GateScenario.allGranted (Returned tt)
      (snd (toggleBluetoothConnection true GateScenario.allGranted (Returned tt)
              initialGate))
    = (Returned (Some true), g2)
    /\ isConnected g2 = false
    /\ isAuthenticated g2 = false
    /\ device g2 = None
    /\ linkOpen g2 = false
    /\ written g2 = (written initialGate ++ [handshake])%list.
Proof.
  apply (toggle_connect_then_disconnect
           GateScenario.allGranted GateScenario.allGranted (Returned tt) initialGate).
  vm_compute. reflexivity.
Defined.

End GateProperties.

(** ** More on the verification pipeline *)

Module PipelineMore.

Import MatcherOutcome PipelineFacts.

(** The user that [captureAndVerify] takes from a result:
    [result.verified && result.userId]. *)
Definition verifiedUser (result : VerificationResult) : option string :=
  if verified result then truthy (result_userId result) else None.

(** The Gate Link after the run: the command goes out for a verified user on
    a connected, authenticated link. *)
Definition gateAfter (env : CaptureAnswers) (result : VerificationResult) (g : Gate)
  : Gate :=
  match verifiedUser result with
  | Some _ =>
      if isConnected g && isAuthenticated g
      then snd (sendCommand "FACE_DETECTED" (commandWrite env) g)
      else g
  | None => g
  end.

Definition processedIn (env : CaptureAnswers) : string :=
  "Processed in " ++ ZToString (endTime env - startTime env) ++ "ms".

(** What [sendCommand] of a render does, in full. *)
Lemma sendCommandOf_run render command answer g :
  sendCommandOf render command answer g
  = if negb (isConnected render) || negb (GateWire.hasDevice render) then
      (Returned tt, snd (Alert_alert "Error" "Not connected to ESP32" g))
    else if negb (isAuthenticated render) && negb (startsWith command "AUTHENTICATE")
    then
      (Returned tt,
       snd (Alert_alert "Error" "Must authenticate before sending commands" g))
    else
      match answer with
      | Returned _ =>
          (Returned tt,
           snd (addResponse ("Sent: " ++ command) (snd (transmit (command ++ LF) g))))
      | Thrown _ => (Returned tt, g)
      end.
Proof.
  unfold sendCommandOf, GateWire.hasDevice.
  destruct (negb (isConnected render)
            || negb match device render with Some _ => true | None => false end);
    [ reflexivity | ].
  destruct (negb (isAuthenticated render) && negb (startsWith command "AUTHENTICATE"));
    [ reflexivity | ].
  destruct answer; reflexivity.
Qed.

Lemma captureAndVerifyOf_run N2S render env a :
  cameraMounted a = true ->
  isScanning render = false ->
  captureAndVerifyOf N2S render env a
  = captureAndVerifyRest N2S render env (dispatched a).
Proof.
  intros Hcam Hscan. unfold captureAndVerifyOf. unfold bind at 1.
  rewrite (captureAndVerifyStart_run render a Hcam Hscan). reflexivity.
Qed.

(** A call either does nothing or is the rest of the run from the state with
    the busy flag set. *)
Lemma captureAndVerifyOf_cases N2S render env a :
  captureAndVerifyOf N2S render env a = (Returned tt, a)
  \/ (cameraMounted a = true /\ isScanning render = false
      /\ captureAndVerifyOf N2S render env a
         = captureAndVerifyRest N2S render env (dispatched a)).
Proof.
  destruct (cameraMounted a) eqn:Hcam.
  - destruct (isScanning render) eqn:Hscan.
    + left. unfold captureAndVerifyOf, bind.
      rewrite captureAndVerifyStart_skipped by (right; exact Hscan). reflexivity.
    + right. split; [ reflexivity | ]. split; [ reflexivity | ].
      unfold captureAndVerifyOf. unfold bind at 1.
      rewrite (captureAndVerifyStart_run render a Hcam Hscan). reflexivity.
  - left. unfold captureAndVerifyOf, bind.
    rewrite captureAndVerifyStart_skipped by (left; exact Hcam). reflexivity.
Qed.

Lemma firstFailure_none env :
  firstFailure env = None -> exists embedding, runSync env = Returned embedding.
Proof.
  unfold firstFailure.
  destruct (takePhoto env); [ | discriminate ].
  destruct (createResizedImage env); [ | discriminate ].
  destruct (readFile env); [ | discriminate ].
  destruct (decode env); [ | discriminate ].
  destruct (runSync env) as [embedding|]; [ | discriminate ].
  intros _. exists embedding. reflexivity.
Qed.

Local Opaque verifyFace sendCommand.

(** The state after a run in which no collaborator fails. *)
Lemma captureAndVerify_completed N2S env a embedding result db' :
  cameraMounted a = true ->
  isScanning a = false ->
  firstFailure env = None ->
  runSync env = Returned embedding ->
  verifyFace N2S (cachedUsers a) embedding (db a) = (Returned result, db') ->
  snd (captureAndVerify N2S env a)
  = {| status := statusFor result (endTime env - startTime env);
       isScanning := false;
       lastVerifiedUser := match verifiedUser result with
                           | Some uid => Some uid
                           | None => lastVerifiedUser a
                           end;
       error := None;
       frameProcessorError := None;
       cachedUsers := cachedUsers a;
       lastCaptureTime := lastCaptureTime a;
       performanceMetrics := processedIn env :: firstn 4 (performanceMetrics a);
       cameraMounted := cameraMounted a;
       db := db';
       gate := gateAfter env result (gate a) |}.
Proof.
  intros Hcam Hscan Hnone Hmodel Hverify.
  destruct env as [t0 photo resized file decoded model t1 cw].
  unfold firstFailure in Hnone. simpl in Hnone, Hmodel. subst model.
  destruct photo as [p|]; [ | discriminate ].
  destruct resized as [r|]; [ | discriminate ].
  destruct file as [f|]; [ | discriminate ].
  destruct decoded as [d|]; [ | discriminate ].
  unfold captureAndVerify, statusFor, gateAfter, verifiedUser, processedIn.
  unfold bind at 1. unfold get at 1. rewrite Hcam, Hscan.
  unfold try_finally, try_catch, bind, get, ret, liftOutcome, withDb, withGate, zoom,
    setIsScanning, setStatus, setError, setFrameProcessorError, setLastVerifiedUser,
    pushPerformanceMetric, modify.
  simpl. rewrite Hverify. simpl.
  destruct (verified result); simpl; [ | rewrite Hcam; reflexivity ].
  destruct (truthy (result_userId result)) as [uid|]; simpl;
    [ | rewrite Hcam; reflexivity ].
  destruct (isConnected (gate a) && isAuthenticated (gate a)); simpl;
    [ | rewrite Hcam; reflexivity ].
  pose proof (sendCommand_returns "FACE_DETECTED" cw (gate a)) as Hsend.
  destruct (sendCommand "FACE_DETECTED" cw (gate a)) as [o g']. simpl in Hsend.
  subst o. simpl. rewrite Hcam. reflexivity.
Qed.

(** A verified result names a user and has logged the event of that user. *)
Lemma verifyFace_verified N2S cachedUsers newEmbedding db result db' :
  verifyFace N2S cachedUsers newEmbedding db = (Returned result, db') ->
  verified result = true ->
  exists uid, result_userId result = Some uid /\ db' = logged uid db.
Proof.
  intros Hrun Hverified.
  destruct (verifyFace_cases N2S cachedUsers newEmbedding db)
    as [[reason Hcase]|(closest & _ & Hcase)]; rewrite Hcase in Hrun.
  - injection Hrun as <- _. discriminate.
  - unfold decisionOn in Hrun.
    destruct (cm_user closest) as [u|]; [ | injection Hrun as <- _; discriminate ].
    destruct (PrimFloat.ltb (cm_distance closest) 0.6);
      [ | injection Hrun as <- _; discriminate ].
    destruct (failing db); injection Hrun as <- <-; [ discriminate | ].
    exists (userId u). split; reflexivity.
Qed.

Lemma firstn_4_bounded {A} (l : list A) : (List.length (firstn 4 l) <= 4)%nat.
Proof. rewrite length_firstn. lia. Qed.

(** A run in which a collaborator fails records no metric. *)
Lemma captureAndVerify_failed_metrics N2S env a reason :
  cameraMounted a = true ->
  isScanning a = false ->
  firstFailure env = Some reason ->
  performanceMetrics (snd (captureAndVerify N2S env a)) = performanceMetrics a.
Proof.
  intros Hcam Hscan Hfail.
  destruct env as [t0 photo resized file decoded model t1 cw].
  unfold firstFailure in Hfail. simpl in Hfail.
  unfold captureAndVerify.
  unfold bind at 1. unfold get at 1. rewrite Hcam, Hscan.
  unfold try_finally, try_catch, bind, get, ret, liftOutcome, withDb, withGate, zoom,
    setIsScanning, setStatus, setError, setFrameProcessorError, setLastVerifiedUser,
    pushPerformanceMetric, modify.
  simpl.
  destruct photo as [p|]; simpl; [ | reflexivity ].
  destruct resized as [r|]; simpl; [ | reflexivity ].
  destruct file as [f|]; simpl; [ | reflexivity ].
  destruct decoded as [d|]; simpl; [ | reflexivity ].
  destruct model as [embedding|]; simpl; [ discriminate | reflexivity ].
Qed.

Lemma fetchUsers_run a :
  fetchUsers a
  = (Returned tt,
     if failing (db a)
     then snd (setError (Some "Failed to load users") a)
     else snd (setCachedUsers (usersOfRows (Users (db a))) a)).
Proof.
  unfold fetchUsers, try_catch, bind, withDb, zoom, getUsers, setCachedUsers, setError,
    modify.
  destruct a as [st sc lv er fe cu lc pm cm d g]. simpl.
  destruct d as [rows logs bad]. simpl.
  destruct bad; reflexivity.
Qed.

End PipelineMore.

Module PipelineScenario.

Import MatcherOutcome.

(** The screen over a connected, authenticated Gate Link, with [alice]
    enrolled and cached. *)
Definition authenticatedGate : Gate :=
  snd (deliver 1 ("AUTH_SUCCESS" ++ LF) GateScenario.connectedGate).

Definition ready : App :=
  {| status := "Ready to scan"; isScanning := false; lastVerifiedUser := None;
     error := None; frameProcessorError := None; cachedUsers := [Scenario.alice];
     lastCaptureTime := 0%Z; performanceMetrics := []; cameraMounted := true;
     db := Scenario.healthyDb; gate := authenticatedGate |}.

(** The render in which the worklet was created: [alice] is cached, the
    Gate Link has not connected yet. *)
Definition beforeConnecting : App := Scenario.app Scenario.healthyDb [Scenario.alice].

(** The screen after five runs. *)
Definition afterFiveRuns : App :=
  {| status := "Ready to scan"; isScanning := false; lastVerifiedUser := None;
     error := None; frameProcessorError := None; cachedUsers := [Scenario.alice];
     lastCaptureTime := 0%Z;
     performanceMetrics := ["Processed in 410ms"; "Processed in 395ms";
                            "Processed in 402ms"; "Processed in 388ms";
                            "Processed in 420ms"];
     cameraMounted := true;
     db := Scenario.healthyDb; gate := authenticatedGate |}.

(** A run that sees the enrolled face; the transport accepts the command. *)
Definition seesAlice : CaptureAnswers :=
  {| startTime := 1000%Z; takePhoto := Returned "/tmp/photo.jpg";
     createResizedImage := Returned "file:///resized.jpg";
     readFile := Returned "/9j/4AAQ"; decode := Returned tt;
     runSync := Returned Scenario.v; endTime := 1400%Z; commandWrite := Returned tt |}.

(** The same run, with the transport rejecting the command. *)
Definition seesAliceWriteFails : CaptureAnswers :=
  {| startTime := 1000%Z; takePhoto := Returned "/tmp/photo.jpg";
     createResizedImage := Returned "file:///resized.jpg";
     readFile := Returned "/9j/4AAQ"; decode := Returned tt;
     runSync := Returned Scenario.v; endTime := 1400%Z;
     commandWrite := Thrown "Not connected" |}.

(** The screen with an error shown, over a database that fails. *)
Definition broken : App :=
  {| status := "Error during verification"; isScanning := false;
     lastVerifiedUser := None; error := Some "Camera is closed";
     frameProcessorError := Some "Invalid model output";
     cachedUsers := [Scenario.alice];
     lastCaptureTime := 0%Z; performanceMetrics := []; cameraMounted := true;
     db := Scenario.failingDb; gate := initialGate |}.

End PipelineScenario.

Section PipelineProperties.

Import FloatFacts MatcherFacts MatcherOutcome MatcherMore PipelineFacts PipelineMore
       GateFacts GateWire.

(** X23.  [captureAndVerify] writes to the transport only for a verified
    face and for a render that saw an authenticated link: after any call,
    from any render, either nothing has been written, or exactly the line
    FACE_DETECTED followed by a line feed has been, and then the Gate Link
    was connected and authenticated in the render whose function was called
    (the current state for the Capture button, an earlier one for the frame
    processor), the run has set [lastVerifiedUser], and the verification
    event of that user is the one entry the run added to the log. *)
Theorem gate_command_only_for_verified_face
        (N2S : float -> string) (env : CaptureAnswers) (render a : App) :
  written (gate (snd (captureAndVerifyOf N2S render env a))) = written (gate a)
  \/ (written (gate (snd (captureAndVerifyOf N2S render env a)))
      = (written (gate a) ++ [("FACE_DETECTED" ++ LF)%string])%list
      /\ isConnected (gate render) = true
      /\ isAuthenticated (gate render) = true
      /\ exists uid,
           lastVerifiedUser (snd (captureAndVerifyOf N2S render env a)) = Some uid
           /\ VerificationLogs (db (snd (captureAndVerifyOf N2S render env a)))
              = (VerificationLogs (db a) ++ [uid])%list).
Proof.
  destruct (captureAndVerifyOf_cases N2S render env a) as [->|(Hcam & Hscan & ->)];
    [ left; reflexivity | ].
  destruct (firstFailure env) as [reason|] eqn:Hfail.
  - left. rewrite (captureAndVerifyRest_failed N2S render env _ reason Hfail).
    reflexivity.
  - destruct (firstFailure_none env Hfail) as [embedding Hmodel].
    destruct (verifyFace_returns N2S (cachedUsers render) embedding (db a))
      as [result Hres].
    destruct (verifyFace N2S (cachedUsers render) embedding (db a))
      as [o db'] eqn:Hverify.
    simpl in Hres. subst o.
    rewrite (captureAndVerifyRest_completed N2S render env (dispatched a)
               embedding result db' Hfail Hmodel Hverify).
    unfold completed. cbn [gate db lastVerifiedUser snd dispatched].
    destruct (verified result) eqn:Hverified; [ | left; reflexivity ].
    destruct (verifyFace_verified _ _ _ _ _ _ Hverify Hverified) as (uid & Huid & ->).
    rewrite Huid.
    destruct (truthy (Some uid)) as [shown|] eqn:Hshown; [ | left; reflexivity ].
    assert (shown = uid) as ->.
    { destruct uid; [ discriminate | injection Hshown as <-; reflexivity ]. }
    rewrite sendCommandOf_run.
    destruct (isConnected (gate render)) eqn:Hc; [ | left; reflexivity ].
    destruct (isAuthenticated (gate render)) eqn:Ha; [ | left; reflexivity ].
    simpl.
    destruct (hasDevice (gate render)); simpl; [ | left; reflexivity ].
    destruct (commandWrite env); simpl; [ | left; reflexivity ].
    right. repeat split. exists uid. split; reflexivity.
Qed.

(** X24.  From the camera to the gate: with the camera mounted, a call from
    a render that saw no run in flight and whose cached users all have
    embeddings of length 128 and a non-empty id, over a database that accepts
    the event, in which every collaborator answers, the model returns an
    embedding enrolled in that render (length 128, finite components) and the
    transport accepts the write, ends with the status
    "Verified: <userId> (<elapsed>ms)" for a user cached in that render, that
    user as [lastVerifiedUser] and the verification event logged.  The line
    FACE_DETECTED is written exactly when the Gate Link was connected,
    authenticated and holding a device in that render, whatever it is now:
    a link authenticated since the render does not get the command. *)
Theorem recognised_face_opens_gate
        (N2S : float -> string) (env : CaptureAnswers) (render a : App)
        (probe : list float) (u : User) :
  cameraMounted a = true ->
  isScanning render = false ->
  firstFailure env = None ->
  runSync env = Returned probe ->
  commandWrite env = Returned tt ->
  List.length probe = 128%nat ->
  Forall (fun x => is_finite x = true) probe ->
  Forall (fun u => List.length (embedding u) = 128%nat) (cachedUsers render) ->
  Forall (fun u => userId u <> EmptyString) (cachedUsers render) ->
  In u (cachedUsers render) ->
  embedding u = probe ->
  failing (db a) = false ->
  exists w,
    In w (cachedUsers render)
    /\ status (snd (captureAndVerifyOf N2S render env a))
       = ("Verified: " ++ userId w ++ " ("
          ++ ZToString (endTime env - startTime env) ++ "ms)")%string
    /\ lastVerifiedUser (snd (captureAndVerifyOf N2S render env a)) = Some (userId w)
    /\ db (snd (captureAndVerifyOf N2S render env a)) = logged (userId w) (db a)
    /\ written (gate (snd (captureAndVerifyOf N2S render env a)))
       = (if isConnected (gate render) && isAuthenticated (gate render)
             && hasDevice (gate render)
          then (written (gate a) ++ [("FACE_DETECTED" ++ LF)%string])%list
          else written (gate a))
    /\ isScanning (snd (captureAndVerifyOf N2S render env a)) = false
    /\ error (snd (captureAndVerifyOf N2S render env a)) = None.
Proof.
  intros Hcam Hscan Hfail Hmodel Hwrite Hlen Hfin Hpop Hids Hin Hu Hdb.
  destruct (zero_distance_is_verified N2S (cachedUsers render) probe (db a) u)
    as (w & d & Hverify & Hw & _); auto.
  { unfold distanceIs. rewrite Hu. apply distance_to_self. exact Hfin. }
  rewrite (captureAndVerifyOf_run N2S render env a Hcam Hscan).
  rewrite (captureAndVerifyRest_completed N2S render env (dispatched a)
             probe (verifiedResult w d) _ Hfail Hmodel Hverify).
  assert (Hid : userId w <> EmptyString).
  { rewrite Forall_forall in Hids. apply Hids. exact Hw. }
  exists w. unfold completed, statusFor.
  cbn [status lastVerifiedUser db gate isScanning error snd dispatched verified
       result_userId verifiedResult].
  rewrite sendCommandOf_run, Hwrite.
  destruct (userId w) as [|c rest] eqn:Hname; [ congruence | ].
  cbn [truthy].
  split; [ exact Hw | ].
  repeat (split; [ reflexivity | ]).
  split; [ | split; reflexivity ].
  destruct (isConnected (gate render)); simpl; [ | reflexivity ].
  destruct (isAuthenticated (gate render)); simpl; [ | reflexivity ].
  destruct (hasDevice (gate render)); reflexivity.
Qed.

Lemma recognised_face_opens_gate_witness :
  (exists w,
     In w (cachedUsers PipelineScenario.ready)
     /\ status (snd (captureAndVerifyOf Scenario.printLarge PipelineScenario.ready
                                        PipelineScenario.seesAlice
                                        PipelineScenario.ready))
        = ("Verified: " ++ userId w ++ " ("
           ++ ZToString (endTime PipelineScenario.seesAlice
                         - startTime PipelineScenario.seesAlice) ++ "ms)")%string
     /\ lastVerifiedUser (snd (captureAndVerifyOf Scenario.printLarge PipelineScenario.ready
                                                  PipelineScenario.seesAlice
                                                  PipelineScenario.ready))
        = Some (userId w)
     /\ db (snd (captureAndVerifyOf Scenario.printLarge PipelineScenario.ready
                                    PipelineScenario.seesAlice PipelineScenario.ready))
        = logged (userId w) (db PipelineScenario.ready)
     /\ written (gate (snd (captureAndVerifyOf Scenario.printLarge PipelineScenario.ready
                                               PipelineScenario.seesAlice
                                               PipelineScenario.ready)))
        = (if isConnected (gate PipelineScenario.ready)
              && isAuthenticated (gate PipelineScenario.ready)
              && hasDevice (gate PipelineScenario.ready)
           then (written (gate PipelineScenario.ready)
                 ++ [("FACE_DETECTED" ++ LF)%string])%list
           else written (gate PipelineScenario.ready))
     /\ isScanning (snd (captureAndVerifyOf Scenario.printLarge PipelineScenario.ready
                                            PipelineScenario.seesAlice
                                            PipelineScenario.ready)) = false
     /\ error (snd (captureAndVerifyOf Scenario.printLarge PipelineScenario.ready
                                       PipelineScenario.seesAlice
                                       PipelineScenario.ready)) = None)
  /\ (exists w,
     In w (cachedUsers PipelineScenario.beforeConnecting)
     /\ status (snd (captureAndVerifyOf Scenario.printLarge PipelineScenario.beforeConnecting
                                        PipelineScenario.seesAlice
                                        PipelineScenario.ready))
        = ("Verified: " ++ userId w ++ " ("
           ++ ZToString (endTime PipelineScenario.seesAlice
                         - startTime PipelineScenario.seesAlice) ++ "ms)")%string
     /\ lastVerifiedUser (snd (captureAndVerifyOf Scenario.printLarge
                                                  PipelineScenario.beforeConnecting
                                                  PipelineScenario.seesAlice
                                                  PipelineScenario.ready))
        = Some (userId w)
     /\ db (snd (captureAndVerifyOf Scenario.printLarge PipelineScenario.beforeConnecting
                                    PipelineScenario.seesAlice PipelineScenario.ready))
        = logged (userId w) (db PipelineScenario.ready)
     /\ written (gate (snd (captureAndVerifyOf Scenario.printLarge PipelineScenario.beforeConnecting
                                               PipelineScenario.seesAlice
                                               PipelineScenario.ready)))
        = (if isConnected (gate PipelineScenario.beforeConnecting)
              && isAuthenticated (gate PipelineScenario.beforeConnecting)
              && hasDevice (gate PipelineScenario.beforeConnecting)
           then (written (gate PipelineScenario.ready)
                 ++ [("FACE_DETECTED" ++ LF)%string])%list
           else written (gate PipelineScenario.ready))
     /\ isScanning (snd (captureAndVerifyOf Scenario.printLarge PipelineScenario.beforeConnecting
                                            PipelineScenario.seesAlice
                                            PipelineScenario.ready)) = false
     /\ error (snd (captureAndVerifyOf Scenario.printLarge PipelineScenario.beforeConnecting
                                       PipelineScenario.seesAlice
                                       PipelineScenario.ready)) = None).
Proof.
  split.
  - apply (recognised_face_opens_gate
             Scenario.printLarge PipelineScenario.seesAlice PipelineScenario.ready
             PipelineScenario.ready Scenario.v Scenario.alice).
    + reflexivity.
    + reflexivity.
    + reflexivity.
    + reflexivity.
    + reflexivity.
    + reflexivity.
    + apply Forall_forall. intros x Hx. apply repeat_spec in Hx. subst. reflexivity.
    + repeat constructor.
    + repeat constructor. discriminate.
    + left. reflexivity.
    + reflexivity.
    + reflexivity.
  - apply (recognised_face_opens_gate
             Scenario.printLarge PipelineScenario.seesAlice
             PipelineScenario.beforeConnecting
             PipelineScenario.ready Scenario.v Scenario.alice).
    + reflexivity.
    + reflexivity.
    + reflexivity.
    + reflexivity.
    + reflexivity.
    + reflexivity.
    + apply Forall_forall. intros x Hx. apply repeat_spec in Hx. subst. reflexivity.
    + repeat constructor.
    + repeat constructor. discriminate.
    + left. reflexivity.
    + reflexivity.
    + reflexivity.
Defined.

(** X25.  A gate command that the transport rejects is lost without a trace:
    when the matcher has verified a user with a non-empty id on a connected,
    authenticated link that holds a device, and the write of FACE_DETECTED
    fails, the run still ends with the status
    "Verified: <userId> (<elapsed>ms)" and no error, and the Gate Link is
    exactly as before: nothing written, no alert, no response line. *)
Theorem rejected_gate_command_is_silent
        (N2S : float -> string) (env : CaptureAnswers) (a : App)
        (probe : list float) (w : User) (d : float) (db' : Db) (e : string) :
  cameraMounted a = true ->
  isScanning a = false ->
  firstFailure env = None ->
  runSync env = Returned probe ->
  verifyFace N2S (cachedUsers a) probe (db a) = (Returned (verifiedResult w d), db') ->
  userId w <> EmptyString ->
  isConnected (gate a) = true ->
  isAuthenticated (gate a) = true ->
  hasDevice (gate a) = true ->
  commandWrite env = Thrown e ->
  status (snd (captureAndVerify N2S env a))
  = ("Verified: " ++ userId w ++ " ("
     ++ ZToString (endTime env - startTime env) ++ "ms)")%string
  /\ lastVerifiedUser (snd (captureAndVerify N2S env a)) = Some (userId w)
  /\ error (snd (captureAndVerify N2S env a)) = None
  /\ gate (snd (captureAndVerify N2S env a)) = gate a.
Proof.
  intros Hcam Hscan Hfail Hmodel Hverify Hid Hc Ha Hd Hwrite.
  rewrite (captureAndVerify_completed N2S env a probe (verifiedResult w d) db'
             Hcam Hscan Hfail Hmodel Hverify).
  unfold statusFor, gateAfter, verifiedUser.
  rewrite sendCommand_run, Hc, Hd, Ha, Hwrite. simpl.
  destruct (userId w) as [|c rest] eqn:Hname; [ congruence | ]. simpl.
  repeat split; auto.
Qed.

Lemma rejected_gate_command_is_silent_witness :
  status (snd (captureAndVerify Scenario.printLarge PipelineScenario.seesAliceWriteFails
                                PipelineScenario.ready))
  = ("Verified: " ++ userId Scenario.alice ++ " ("
     ++ ZToString (endTime PipelineScenario.seesAliceWriteFails
                   - startTime PipelineScenario.seesAliceWriteFails) ++ "ms)")%string
  /\ lastVerifiedUser (snd (captureAndVerify Scenario.printLarge
                              PipelineScenario.seesAliceWriteFails
                              PipelineScenario.ready))
     = Some (userId Scenario.alice)
  /\ error (snd (captureAndVerify Scenario.printLarge
                   PipelineScenario.seesAliceWriteFails PipelineScenario.ready)) = None
  /\ gate (snd (captureAndVerify Scenario.printLarge
                  PipelineScenario.seesAliceWriteFails PipelineScenario.ready))
     = gate PipelineScenario.ready.
Proof.
  apply (rejected_gate_command_is_silent
           Scenario.printLarge PipelineScenario.seesAliceWriteFails
           PipelineScenario.ready Scenario.v Scenario.alice 0%float
           (logged "alice" Scenario.healthyDb) "Not connected").
  - reflexivity.
  - reflexivity.
  - reflexivity.
  - reflexivity.
  - vm_compute. reflexivity.
  - discriminate.
  - reflexivity.
  - reflexivity.
  - reflexivity.
  - reflexivity.
Defined.

(** X26.  [handleRetry] never throws and always clears the frame processor
    error.  When the database answers, it leaves no error and caches the
    users the database lists; when the database fails, it keeps the
    population cached before and shows the error "Failed to load users".  It
    touches neither the database nor the Gate Link. *)
Theorem handleRetry_outcome (a : App) :
  fst (handleRetry a) = Returned tt
  /\ frameProcessorError (snd (handleRetry a)) = None
  /\ (if failing (db a)
      then error (snd (handleRetry a)) = Some "Failed to load users"
           /\ cachedUsers (snd (handleRetry a)) = cachedUsers a
      else error (snd (handleRetry a)) = None
           /\ cachedUsers (snd (handleRetry a)) = usersOfRows (Users (db a)))
  /\ db (snd (handleRetry a)) = db a
  /\ gate (snd (handleRetry a)) = gate a
  /\ status (snd (handleRetry a)) = status a.
Proof.
  unfold handleRetry, bind, setError, setFrameProcessorError, modify. simpl.
  rewrite fetchUsers_run. simpl.
  destruct (failing (db a)); simpl; repeat split.
Qed.

(** X27.  The list of performance metrics never grows beyond five entries: a
    run of [captureAndVerify] from a state with at most five leaves at most
    five, and a run in which no collaborator fails puts
    "Processed in <elapsed>ms" at its head. *)
Theorem performanceMetrics_stay_bounded
        (N2S : float -> string) (env : CaptureAnswers) (a : App) :
  (List.length (performanceMetrics a) <= 5)%nat ->
  (List.length (performanceMetrics (snd (captureAndVerify N2S env a))) <= 5)%nat
  /\ (cameraMounted a = true -> isScanning a = false -> firstFailure env = None ->
      hd_error (performanceMetrics (snd (captureAndVerify N2S env a)))
      = Some (processedIn env)).
Proof.
  intros Hbound. split.
  - destruct (cameraMounted a) eqn:Hcam;
      [ | rewrite captureAndVerify_skipped by (left; exact Hcam); exact Hbound ].
    destruct (isScanning a) eqn:Hscan;
      [ rewrite captureAndVerify_skipped by (right; exact Hscan); exact Hbound | ].
    destruct (firstFailure env) as [reason|] eqn:Hfail.
    + destruct (captureAndVerify_failed_metrics N2S env a reason Hcam Hscan Hfail).
      exact Hbound.
    + destruct (firstFailure_none env Hfail) as [embedding Hmodel].
      destruct (verifyFace_returns N2S (cachedUsers a) embedding (db a))
        as [result Hres].
      destruct (verifyFace N2S (cachedUsers a) embedding (db a)) as [o db'] eqn:Hverify.
      simpl in Hres. subst o.
      rewrite (captureAndVerify_completed N2S env a embedding result db'
                 Hcam Hscan Hfail Hmodel Hverify).
      cbn [performanceMetrics List.length].
      pose proof (firstn_4_bounded (performanceMetrics a)). lia.
  - intros Hcam Hscan Hfail.
    destruct (firstFailure_none env Hfail) as [embedding Hmodel].
    destruct (verifyFace_returns N2S (cachedUsers a) embedding (db a))
      as [result Hres].
    destruct (verifyFace N2S (cachedUsers a) embedding (db a)) as [o db'] eqn:Hverify.
    simpl in Hres. subst o.
    rewrite (captureAndVerify_completed N2S env a embedding result db'
               Hcam Hscan Hfail Hmodel Hverify).
    reflexivity.
Qed.

Lemma performanceMetrics_stay_bounded_witness :
  (List.length (performanceMetrics
                  (snd (captureAndVerify Scenario.printLarge PipelineScenario.seesAlice
                                         PipelineScenario.afterFiveRuns))) <= 5)%nat
  /\ (cameraMounted PipelineScenario.afterFiveRuns = true ->
      isScanning PipelineScenario.afterFiveRuns = false ->
      firstFailure PipelineScenario.seesAlice = None ->
      hd_error (performanceMetrics
                  (snd (captureAndVerify Scenario.printLarge PipelineScenario.seesAlice
                                         PipelineScenario.afterFiveRuns)))
      = Some (processedIn PipelineScenario.seesAlice)).
Proof.
  apply (performanceMetrics_stay_bounded
           Scenario.printLarge PipelineScenario.seesAlice
           PipelineScenario.afterFiveRuns).
  simpl. lia.
Defined.

(** After five runs the sixth pushes its entry and drops the oldest. *)
Example sixth_run_drops_the_oldest_metric :
  (fun N2S => performanceMetrics
                (snd (captureAndVerify N2S PipelineScenario.seesAlice
                                       PipelineScenario.afterFiveRuns)))
  = (fun _ => ["Processed in 400ms"; "Processed in 410ms"; "Processed in 395ms";
               "Processed in 402ms"; "Processed in 388ms"]).
Proof. vm_compute. reflexivity. Qed.

End PipelineProperties.

(** ** More on the frame processor *)

Module TriggerMore.

Import FloatFacts TriggerFacts.

(** The detection pushed for a box and its score. *)
Definition toDetection (frame : Frame) (pair : Box * float) : FaceDetection :=
  {| det_x := (xmin (fst pair) * frame_width frame)%float;
     det_y := (ymin (fst pair) * frame_height frame)%float;
     det_width := ((xmax (fst pair) - xmin (fst pair)) * frame_width frame)%float;
     det_height := ((ymax (fst pair) - ymin (fst pair)) * frame_height frame)%float;
     det_score := snd pair |}.

Definition confident (pair : Box * float) : bool := (0.5 <? snd pair)%float.

(** The loop over the indices of [scores], as a filter over the boxes paired
    with their scores. *)
Lemma parseDetections_pairs frame scores : forall boxes,
  (List.length scores <= List.length boxes)%nat ->
  parseDetections frame boxes scores
  = Returned (map (toDetection frame) (filter confident (combine boxes scores))).
Proof.
  induction scores as [|score scores IH]; intros boxes Hlen.
  - destruct boxes; reflexivity.
  - destruct boxes as [|box boxes]; [ simpl in Hlen; lia | ].
    simpl in Hlen. simpl. unfold confident at 1. simpl.
    destruct (0.5 <? score)%float.
    + rewrite IH by lia. reflexivity.
    + apply IH. lia.
Qed.

Lemma find_none_iff {A} (f : A -> bool) (l : list A) :
  find f l = None <-> forall x, In x l -> f x = false.
Proof.
  split; [ apply find_none | ].
  induction l as [|x l IH]; intros H; [ reflexivity | ].
  simpl. rewrite (H x) by (left; reflexivity).
  apply IH. intros y Hy. apply H. right. exact Hy.
Qed.

Lemma autoCapture_fires detections frame lastCaptureTime now :
  fired (autoCapture detections frame lastCaptureTime now) = true
  <-> (3000 <= now - lastCaptureTime)%Z
      /\ exists det, In det detections /\ isValidFace frame det = true.
Proof.
  unfold autoCapture.
  destruct detections as [|d0 rest].
  - simpl. split; [ discriminate | intros (_ & det & [] & _) ].
  - change (List.length (d0 :: rest) =? 0)%nat with false. cbv beta iota.
    destruct (now - lastCaptureTime <? 3000)%Z eqn:Hcool.
    + apply Z.ltb_lt in Hcool. simpl. split; [ discriminate | intros [H _]; lia ].
    + apply Z.ltb_ge in Hcool.
      destruct (find (isValidFace frame) (d0 :: rest)) as [validFace|] eqn:Hfind.
      * apply find_some in Hfind. simpl fired.
        split; [ intros _; split; [ exact Hcool | exists validFace; exact Hfind ]
               | reflexivity ].
      * simpl fired. split; [ discriminate | ].
        intros (_ & det & Hin & Hvalid).
        rewrite (proj1 (find_none_iff _ _) Hfind det Hin) in Hvalid. discriminate.
Qed.

(** A face that passes the test of the trigger has passed the threshold of
    the parser. *)
Lemma isValidFace_confident frame pair :
  isValidFace frame (toDetection frame pair) = true -> confident pair = true.
Proof.
  unfold isValidFace, confident. intros H.
  apply andb_true_iff in H. destruct H as [_ H]. simpl in H.
  apply (ltb_trans 0.5 0.7 (snd pair)); [ reflexivity | exact H ].
Qed.

End TriggerMore.

Module TriggerMoreScenario.

Local Open Scope float_scope.

(** The box of [centeredFace] in the portrait frame, relative to the frame,
    and a box in its corner. *)
Definition centeredBox : Box :=
  {| ymin := 0.359375; xmin := 0.25; ymax := 0.640625; xmax := 0.75 |}.

Definition cornerBox : Box :=
  {| ymin := 0; xmin := 0; ymax := 0.25; xmax := 0.25 |}.

Definition ready (boxes : list Box) (scores : list float) : FrameInput :=
  {| modelPresent := true; modelLoaded := true; scanning := false;
     frame := TriggerScenario.portrait; outputs := Returned (boxes, scores);
     now := 5000%Z |}.

End TriggerMoreScenario.

Section TriggerProperties.

Import FloatFacts TriggerFacts TriggerMore.

(** X28.  When the model gives at least as many boxes as scores, the parsing
    loop returns, in the order of the model, one detection for each score
    strictly above 0.5 and none for the others (a NaN score among them): the
    box at the same index scaled to the frame ([x] and [width] by the width,
    [y] and [height] by the height), with that score. *)
Theorem parseDetections_keeps_confident_boxes
        (frame : Frame) (boxes : list Box) (scores : list float) :
  (List.length scores <= List.length boxes)%nat ->
  parseDetections frame boxes scores
  = Returned (map (toDetection frame) (filter confident (combine boxes scores)))
  /\ (forall detections,
        parseDetections frame boxes scores = Returned detections ->
        map det_score detections = filter (fun score => (0.5 <? score)%float) scores).
Proof.
  intros Hlen. rewrite (parseDetections_pairs frame scores boxes Hlen).
  split; [ reflexivity | ].
  intros detections [= <-].
  revert boxes Hlen.
  induction scores as [|score scores IH]; intros boxes Hlen.
  - destruct boxes; reflexivity.
  - destruct boxes as [|box boxes]; [ simpl in Hlen; lia | ].
    simpl in Hlen. simpl. unfold confident at 1. simpl.
    destruct (0.5 <? score)%float; simpl; rewrite IH by lia; reflexivity.
Qed.

Lemma parseDetections_keeps_confident_boxes_witness :
  parseDetections TriggerScenario.portrait
                  [TriggerMoreScenario.cornerBox; TriggerMoreScenario.centeredBox]
                  [0.3%float; 0.9%float]
  = Returned (map (toDetection TriggerScenario.portrait)
                  (filter confident
                          (combine [TriggerMoreScenario.cornerBox;
                                    TriggerMoreScenario.centeredBox]
                                   [0.3%float; 0.9%float])))
  /\ (forall detections,
        parseDetections TriggerScenario.portrait
                        [TriggerMoreScenario.cornerBox; TriggerMoreScenario.centeredBox]
                        [0.3%float; 0.9%float] = Returned detections ->
        map det_score detections
        = filter (fun score => (0.5 <? score)%float) [0.3%float; 0.9%float]).
Proof.
  apply (parseDetections_keeps_confident_boxes
           TriggerScenario.portrait
           [TriggerMoreScenario.cornerBox; TriggerMoreScenario.centeredBox]
           [0.3%float; 0.9%float]).
  simpl. lia.
Defined.

(** X29.  When the frame processor fires: with the detection model present
    and loaded, no run in flight, and model outputs holding at least as many
    boxes as scores, an invocation dispatches a capture exactly when at least
    3000 ms have passed since [lastCaptureTime] and some box of the model,
    scaled to the frame with its score, passes the test of the trigger.  The
    threshold 0.5 of the parser plays no part in it. *)
Theorem frameProcessor_fires_exactly_on_valid_box
        (input : FrameInput) (lastCaptureTime : Z)
        (boxes : list Box) (scores : list float) :
  modelPresent input = true ->
  modelLoaded input = true ->
  scanning input = false ->
  outputs input = Returned (boxes, scores) ->
  (List.length scores <= List.length boxes)%nat ->
  fired (frameProcessor input lastCaptureTime) = true
  <-> (3000 <= now input - lastCaptureTime)%Z
      /\ exists pair,
           In pair (combine boxes scores)
           /\ isValidFace (frame input) (toDetection (frame input) pair) = true.
Proof.
  intros Hpresent Hloaded Hscan Hout Hlen.
  unfold frameProcessor. rewrite Hpresent, Hloaded, Hscan, Hout.
  rewrite (parseDetections_pairs (frame input) scores boxes Hlen).
  cbv beta iota. change (negb true || false) with false. cbv beta iota.
  change (negb true) with false. cbv beta iota.
  set (detections := map (toDetection (frame input))
                         (filter confident (combine boxes scores))).
  change (fired (SetDetections detections :: SetPerformanceMetrics ::
                 autoCapture detections (frame input) lastCaptureTime (now input)))
    with (fired (autoCapture detections (frame input) lastCaptureTime (now input))).
  rewrite autoCapture_fires.
  split; intros [Hcool Hvalid]; (split; [ exact Hcool | ]).
  - destruct Hvalid as (det & Hin & Hdet).
    unfold detections in Hin. apply in_map_iff in Hin.
    destruct Hin as (pair & <- & Hpair). apply filter_In in Hpair.
    exists pair. split; [ apply Hpair | exact Hdet ].
  - destruct Hvalid as (pair & Hin & Hdet).
    exists (toDetection (frame input) pair). split; [ | exact Hdet ].
    unfold detections. apply in_map. apply filter_In.
    split; [ exact Hin | apply (isValidFace_confident (frame input)); exact Hdet ].
Qed.

Lemma frameProcessor_fires_exactly_on_valid_box_witness :
  fired (frameProcessor
           (TriggerMoreScenario.ready
              [TriggerMoreScenario.cornerBox; TriggerMoreScenario.centeredBox]
              [0.95%float; 0.9%float]) 0%Z) = true
  <-> (3000 <= now (TriggerMoreScenario.ready
                      [TriggerMoreScenario.cornerBox; TriggerMoreScenario.centeredBox]
                      [0.95%float; 0.9%float]) - 0)%Z
      /\ exists pair,
           In pair (combine [TriggerMoreScenario.cornerBox;
                             TriggerMoreScenario.centeredBox]
                            [0.95%float; 0.9%float])
           /\ isValidFace
                (frame (TriggerMoreScenario.ready
                          [TriggerMoreScenario.cornerBox;
                           TriggerMoreScenario.centeredBox]
                          [0.95%float; 0.9%float]))
                (toDetection
                   (frame (TriggerMoreScenario.ready
                             [TriggerMoreScenario.cornerBox;
                              TriggerMoreScenario.centeredBox]
                             [0.95%float; 0.9%float])) pair) = true.
Proof.
  apply (frameProcessor_fires_exactly_on_valid_box
           (TriggerMoreScenario.ready
              [TriggerMoreScenario.cornerBox; TriggerMoreScenario.centeredBox]
              [0.95%float; 0.9%float]) 0%Z
           [TriggerMoreScenario.cornerBox; TriggerMoreScenario.centeredBox]
           [0.95%float; 0.9%float]).
  - reflexivity.
  - reflexivity.
  - reflexivity.
  - reflexivity.
  - simpl. lia.
Defined.

End TriggerProperties.
